(** * PrometheusAI: the response-assembly pipeline of [app.py]

    A shallow embedding of the chatbot back end (text sanitizer,
    augmentation trigger, scraper, search orchestrator, prompt composer,
    model client and the two chat routes) together with the properties
    that its specification states about them.

    Conventions of the embedding:
    - a Python [str] is the list of its code points;
    - a function that touches the network, the clock, the disk or the
      mutable state of the process is a computation [M A]: it takes the
      state and gives back a value or an exception, and the new state;
      [try]/[except] is [try_except];
    - what the libraries do (requests, BeautifulSoup, json, uuid,
      datetime, Unicode's case table) is a parameter of the section
      [Program], with the result the program asks of it; the methods
      of [str] and [urllib.parse.quote_plus] are written out;
    - calls of the logger are left out: they change nothing the program
      reads;
    - a generator is run to its end, and stands for the list of what it
      yields. *)

From Stdlib Require Import ZArith NArith List Ascii String Lia Bool.
From stdpp Require Import base option list gmap.

Local Open Scope N_scope.
Set Warnings "-register-all".

(** ** Python strings

    A Python [str] is a sequence of Unicode code points; [ord c] is the
    code point itself, so a character is modelled by its code point. *)

Module PyStr.

Definition char := N.
Definition pystr := list char.

(** A literal of the source, written as a Rocq string of ASCII characters. *)
Definition py (s : string) : pystr :=
  List.map N_of_ascii (list_ascii_of_string s).

Definition char_eqb (a b : char) : bool := N.eqb a b.

Fixpoint str_eqb (a b : pystr) : bool :=
  match a, b with
  | [], [] => true
  | x :: a', y :: b' => char_eqb x y && str_eqb a' b'
  | _, _ => false
  end.

(** [s.startswith(p)] *)
Fixpoint startswith (p s : pystr) : bool :=
  match p, s with
  | [], _ => true
  | x :: p', y :: s' => char_eqb x y && startswith p' s'
  | _ :: _, [] => false
  end.

(** [p in s] *)
Fixpoint contains (p s : pystr) : bool :=
  startswith p s ||
  match s with
  | [] => false
  | _ :: r => contains p r
  end.

(** [s.replace(old, new)] for a non-empty [old]: occurrences are found
    from the left and do not overlap.  [skip] counts the characters of
    the occurrence just matched that are still to be passed over. *)
Fixpoint replace_from (old new : pystr) (skip : nat) (s : pystr) : pystr :=
  match s with
  | [] => []
  | c :: r =>
      match skip with
      | S k => replace_from old new k r
      | O =>
          if startswith old s
          then new ++ replace_from old new (length old - 1) r
          else c :: replace_from old new 0 r
      end
  end.

(** With an empty [old] Python puts [new] around every character. *)
Fixpoint intersperse_all (new s : pystr) : pystr :=
  match s with
  | [] => new
  | c :: r => new ++ c :: intersperse_all new r
  end.

Definition replace (old new s : pystr) : pystr :=
  match old with
  | [] => intersperse_all new s
  | _ :: _ => replace_from old new 0 s
  end.

(** [str.isspace] on one character (CPython's [_PyUnicode_IsWhitespace]). *)
Definition isspace (c : char) : bool :=
  ((9 <=? c) && (c <=? 13)) || ((28 <=? c) && (c <=? 32)) ||
  (c =? 133) || (c =? 160) || (c =? 5760) ||
  ((8192 <=? c) && (c <=? 8202)) ||
  (c =? 8232) || (c =? 8233) || (c =? 8239) || (c =? 8287) || (c =? 12288).

Fixpoint lstrip (s : pystr) : pystr :=
  match s with
  | [] => []
  | c :: r => if isspace c then lstrip r else s
  end.

Definition rstrip (s : pystr) : pystr := rev (lstrip (rev s)).

(** [s.strip()] *)
Definition strip (s : pystr) : pystr := rstrip (lstrip s).

(** Line boundaries of [str.splitlines]. *)
Definition is_linebreak (c : char) : bool :=
  (c =? 10) || (c =? 11) || (c =? 12) || (c =? 13) ||
  (c =? 28) || (c =? 29) || (c =? 30) || (c =? 133) ||
  (c =? 8232) || (c =? 8233).

(** [s.splitlines()]: [cur] is the current line, reversed.  A carriage
    return followed by a line feed is one boundary, and a final boundary
    opens no further line. *)
Fixpoint splitlines_from (cur : pystr) (s : pystr) : list pystr :=
  match s with
  | [] => match cur with [] => [] | _ :: _ => [rev cur] end
  | c :: r =>
      if c =? 13 then
        match r with
        | d :: r' =>
            if d =? 10 then rev cur :: splitlines_from [] r'
            else rev cur :: splitlines_from [] r
        | [] => rev cur :: splitlines_from [] r
        end
      else if is_linebreak c then rev cur :: splitlines_from [] r
      else splitlines_from (c :: cur) r
  end.

Definition splitlines (s : pystr) : list pystr := splitlines_from [] s.

(** [s.split(sep)] for a non-empty separator. *)
Fixpoint split_from (sep : pystr) (skip : nat) (cur : pystr) (s : pystr)
  : list pystr :=
  match s with
  | [] => [rev cur]
  | c :: r =>
      match skip with
      | S k => split_from sep k cur r
      | O =>
          if startswith sep s
          then rev cur :: split_from sep (length sep - 1) [] r
          else split_from sep 0 (c :: cur) r
      end
  end.

Definition split (sep s : pystr) : list pystr := split_from sep 0 [] s.

(** [s.split(sep, 1)]: [None] when [sep] does not occur (Python then
    returns the one-element list [[s]]), otherwise the text before and
    after the first occurrence. *)
Fixpoint split_once_from (sep : pystr) (cur : pystr) (s : pystr)
  : option (pystr * pystr) :=
  if startswith sep s then Some (rev cur, skipn (length sep) s)
  else match s with
       | [] => None
       | c :: r => split_once_from sep (c :: cur) r
       end.

Definition split_once (sep s : pystr) : option (pystr * pystr) :=
  split_once_from sep [] s.

(** [sep.join(parts)] *)
Fixpoint join (sep : pystr) (parts : list pystr) : pystr :=
  match parts with
  | [] => []
  | [p] => p
  | p :: rest => p ++ sep ++ join sep rest
  end.

(** [s[:n]] with Python's rule for a negative bound. *)
Definition slice_to (n : Z) {A} (l : list A) : list A :=
  if (0 <=? n)%Z then firstn (Z.to_nat n) l
  else firstn (length l - Z.to_nat (- n)) l.

(** [s[n:]] for a negative [n], as in [history[-10:]]. *)
Definition slice_last (k : nat) {A} (l : list A) : list A :=
  skipn (length l - k) l.

(** [str(n)] for a natural number. *)
Fixpoint digits_of_uint (d : Decimal.uint) : pystr :=
  match d with
  | Decimal.Nil => []
  | Decimal.D0 r => 48 :: digits_of_uint r
  | Decimal.D1 r => 49 :: digits_of_uint r
  | Decimal.D2 r => 50 :: digits_of_uint r
  | Decimal.D3 r => 51 :: digits_of_uint r
  | Decimal.D4 r => 52 :: digits_of_uint r
  | Decimal.D5 r => 53 :: digits_of_uint r
  | Decimal.D6 r => 54 :: digits_of_uint r
  | Decimal.D7 r => 55 :: digits_of_uint r
  | Decimal.D8 r => 56 :: digits_of_uint r
  | Decimal.D9 r => 57 :: digits_of_uint r
  end.

Definition str_of_nat (n : nat) : pystr := digits_of_uint (Nat.to_uint n).

(** *** Lower-casing

    An ASCII character lower-cases by itself, whatever surrounds it.
    The mapping of the other code points is Unicode's table, which is no
    part of the program: it is the parameter [lower_ext], given the
    character with the text before it (reversed) and after it, since the
    mapping of a capital sigma depends on its place in the word. *)
Definition is_ascii_upper (c : char) : bool := (65 <=? c) && (c <=? 90).

Definition ascii_lower (c : char) : char :=
  if is_ascii_upper c then c + 32 else c.

Section Lower.
Variable lower_ext : pystr -> char -> pystr -> pystr.

Definition lower_char (before : pystr) (c : char) (after : pystr) : pystr :=
  if c <? 128 then [ascii_lower c] else lower_ext before c after.

Fixpoint lower_from (before : pystr) (s : pystr) : pystr :=
  match s with
  | [] => []
  | c :: r => lower_char before c r ++ lower_from (c :: before) r
  end.

(** [s.lower()] *)
Definition lower (s : pystr) : pystr := lower_from [] s.
End Lower.

End PyStr.

Import PyStr.

(** ** Values and exceptions of the Python run time *)

(** A decoded JSON document, as [json.loads] and [Response.json] return
    it.  The pairs of [JObj] are the items of the dict, keys distinct. *)
Inductive json :=
| JNull
| JBool (b : bool)
| JInt (z : Z)
| JFloat (nonzero : bool)
| JStr (s : pystr)
| JArr (items : list json)
| JObj (items : list (pystr * json)).

Inductive exn :=
| RequestException (msg : pystr)
| JSONDecodeError
| KeyError
| IndexError
| TypeError
| AttributeError
| UnicodeEncodeError.

Inductive result (A : Type) :=
| Ok (a : A)
| Raise (e : exn).
Arguments Ok {A} a.
Arguments Raise {A} e.

(** Truth value of an object in a condition. *)
Definition truthy (v : json) : bool :=
  match v with
  | JNull => false
  | JBool b => b
  | JInt z => negb (z =? 0)%Z
  | JFloat nz => nz
  | JStr s => match s with [] => false | _ :: _ => true end
  | JArr l => match l with [] => false | _ :: _ => true end
  | JObj l => match l with [] => false | _ :: _ => true end
  end.

Fixpoint assoc (k : pystr) (items : list (pystr * json)) : option json :=
  match items with
  | [] => None
  | (k', v) :: rest => if str_eqb k k' then Some v else assoc k rest
  end.

(** [v.get(k, default)]: only a dict has the method. *)
Definition py_get (v : json) (k : pystr) (default : json) : result json :=
  match v with
  | JObj items => Ok (match assoc k items with Some x => x | None => default end)
  | _ => Raise AttributeError
  end.

(** [v[k]] for a string key. *)
Definition py_item (v : json) (k : pystr) : result json :=
  match v with
  | JObj items => match assoc k items with Some x => Ok x | None => Raise KeyError end
  | _ => Raise TypeError
  end.

(** [v[0]] *)
Definition py_first (v : json) : result json :=
  match v with
  | JArr (x :: _) => Ok x
  | JArr [] => Raise IndexError
  | JStr (c :: _) => Ok (JStr [c])
  | JStr [] => Raise IndexError
  | JObj _ => Raise KeyError
  | _ => Raise TypeError
  end.

(** ** Records of the data model *)

Record SearchResult := {
  sr_title : pystr;
  sr_url : pystr;
  sr_snippet : pystr
}.

Record ScrapedDocument := {
  sd_title : pystr;
  sd_url : pystr;
  sd_snippet : pystr;
  sd_content : pystr
}.

Inductive SearchBundle :=
| BundleOk (query : pystr) (results : list ScrapedDocument)
| BundleFail (error : pystr).

Record ChatMessage := {
  role : pystr;
  content : pystr
}.

Record Turn := {
  t_role : pystr;
  t_content : pystr;
  t_timestamp : pystr
}.

Record Session := {
  s_id : pystr;
  s_user_id : option pystr;
  s_title : option pystr;
  s_messages : list Turn;
  s_created_at : pystr;
  s_updated_at : option pystr
}.

(** What [requests] hands back: [resp_json] is the outcome of
    [Response.json()] ([None] when the body is no JSON), [resp_lines] are
    the lines [iter_lines] produces and [resp_broken] the message of the
    [RequestException] that ends the iteration, if the connection fails
    before the body is complete. *)
Record Response := {
  status_code : Z;
  resp_text : pystr;
  resp_json : option json;
  resp_lines : list pystr;
  resp_broken : option pystr
}.

(** [Response.ok]: the status is no client or server error. *)
Definition resp_ok (r : Response) : bool :=
  negb ((400 <=? status_code r)%Z && (status_code r <? 600)%Z).

(** ** The text sanitizer and the augmentation trigger *)

(** [SimpleChatbot.clean_text] *)
Definition clean_text (text : pystr) : pystr :=
  match text with
  | [] => []
  | _ :: _ =>
      let cleaned := replace [65533] [] text in
      List.filter (fun char => char <? 65536) cleaned
  end.

(** [clean_text] called on a decoded JSON value, as the model client
    does: a false value gives the empty string, and a true value that is
    no string has no [replace] method. *)
Definition clean_text_dyn (text : json) : result pystr :=
  if negb (truthy text) then Ok []
  else match text with
       | JStr s => Ok (clean_text s)
       | _ => Raise AttributeError
       end.

Definition search_indicators : list pystr :=
  List.map py
    ["latest"; "current"; "recent"; "today"; "news"; "courses at";
     "programs at"; "what are the"; "list"; "find"; "search";
     "website"; "url"; "information about"; "details about";
     "time"; "date"; "now"; "right now"; "currently";
     "what is the date"; "what is the time"; "what time is it"]%string.

Definition time_date_keywords : list pystr :=
  List.map py
    ["time"; "date"; "today"; "now"; "right now"; "currently"; "what time"]%string.

Definition institution_terms : list pystr :=
  List.map py ["university"; "college"; "school"; "courses"; "programs"]%string.

Definition question_words : list pystr :=
  List.map py
    ["what are"; "tell me"; "show me"; "can you"; "please"; "find";
     "what is"; "what's"]%string.

(** [any(k in s for k in keywords)] *)
Definition any_in (keywords : list pystr) (s : pystr) : bool :=
  existsb (fun keyword => contains keyword s) keywords.

Section Trigger.
Variable lower_ext : pystr -> char -> pystr -> pystr.
Local Abbreviation lower := (PyStr.lower lower_ext).

(** [SimpleChatbot.should_search_web] *)
Definition should_search_web (query : pystr) : bool :=
  let query_lower := lower query in
  if any_in time_date_keywords query_lower then true
  else if any_in institution_terms query_lower then true
  else any_in search_indicators query_lower.

(** [SimpleChatbot.extract_search_query] *)
Definition extract_search_query (user_query : pystr) : pystr :=
  let query_lower := lower user_query in
  if contains (py "time") query_lower && contains (py "india") query_lower
  then py "current time in India IST"
  else if contains (py "date") query_lower && contains (py "india") query_lower
  then py "current date in India"
  else if contains (py "time") query_lower || contains (py "date") query_lower
  then py "current time and date"
  else
    let search_query :=
      fold_left (fun search_query word => replace word [] (lower search_query))
                question_words user_query in
    strip search_query.
End Trigger.

(** Sequencing of steps that may raise, outside any state. *)
Definition rbind {A B} (r : result A) (k : A -> result B) : result B :=
  match r with
  | Ok a => k a
  | Raise e => Raise e
  end.

Notation "x <~ r ;; k" := (rbind r (fun x => k))
  (at level 100, r at next level, k at level 200, right associativity).

(** ** URL quoting

    [urllib.parse.quote_plus(s)]: the string is encoded in UTF-8, which
    raises [UnicodeEncodeError] on a surrogate code point; a space
    becomes [+], the letters and digits of ASCII and [_.-~] stay, and
    every other byte becomes [%XX] with its two upper-case hexadecimal
    digits.  A code point of Python is below 0x110000. *)
Definition utf8_char (c : char) : result (list N) :=
  if c <? 128 then Ok [c]
  else if c <? 2048 then Ok [192 + c / 64; 128 + c mod 64]
  else if (55296 <=? c) && (c <? 57344) then Raise UnicodeEncodeError
  else if c <? 65536
  then Ok [224 + c / 4096; 128 + (c / 64) mod 64; 128 + c mod 64]
  else Ok [240 + c / 262144; 128 + (c / 4096) mod 64;
           128 + (c / 64) mod 64; 128 + c mod 64].

(** [s.encode('utf-8')] *)
Fixpoint utf8 (s : pystr) : result (list N) :=
  match s with
  | [] => Ok []
  | c :: r =>
      bytes <~ utf8_char c ;;
      rest <~ utf8 r ;;
      Ok (bytes ++ rest)
  end.

Definition always_safe (b : N) : bool :=
  ((65 <=? b) && (b <=? 90)) || ((97 <=? b) && (b <=? 122))
  || ((48 <=? b) && (b <=? 57))
  || (b =? 95) || (b =? 46) || (b =? 45) || (b =? 126).

Definition hex_digit (n : N) : char := if n <? 10 then 48 + n else 55 + n.

Definition quote_byte (b : N) : pystr :=
  if b =? 32 then [43]
  else if always_safe b then [b]
  else [37; hex_digit (b / 16); hex_digit (b mod 16)].

Definition quote_plus (s : pystr) : result pystr :=
  bytes <~ utf8 s ;;
  Ok (concat (List.map quote_byte bytes)).

(** [isinstance(v, dict)] *)
Definition is_dict (v : json) : bool :=
  match v with JObj _ => true | _ => false end.

(** [k in v] for a dict [v]. *)
Definition has_key (k : pystr) (v : json) : bool :=
  match v with
  | JObj items => match assoc k items with Some _ => true | None => false end
  | _ => false
  end.

(** The request body sent to the model endpoint. *)
Record Payload {float : Type} := {
  p_model : pystr;
  p_messages : list ChatMessage;
  p_temperature : float;
  p_max_tokens : Z;
  p_stream : bool
}.
Arguments Payload float : clear implicits.

(** What one line of a streamed body does to the generator. *)
Inductive line_step :=
| Skip
| Stop
| Yield (chunk : pystr).

Definition nl : pystr := [10].

Definition or_empty (o : option pystr) : pystr :=
  match o with Some s => s | None => [] end.

Definition nonempty (s : pystr) : bool :=
  match s with [] => false | _ :: _ => true end.

(** The JSON body of a request to [/api/chat] or [/api/chat/stream]. *)
Record ChatRequest := {
  rq_chat_id : option pystr;
  rq_message : pystr;
  rq_user_id : option pystr;
  rq_document_context : option pystr
}.

(** The answer of [/api/chat]. *)
Inductive ChatReply :=
| ChatSuccess (chat_id response : pystr) (is_anonymous : bool)
| ChatFailure (error : pystr) (status : Z).

(** The events of [/api/chat/stream], and its answer. *)
Inductive StreamEvent :=
| Delta (delta : pystr)
| Done (chat_id final : pystr) (is_anonymous : bool)
| ErrorEvent (error : pystr).

Inductive StreamReply :=
| Stream (events : list StreamEvent)
| StreamFailure (error : pystr) (status : Z).

Definition to_chat_message (msg : Turn) : ChatMessage :=
  {| role := t_role msg; content := t_content msg |}.

Definition with_message (session : Session) (msg : Turn) : Session :=
  {| s_id := s_id session;
     s_user_id := s_user_id session;
     s_title := s_title session;
     s_messages := s_messages session ++ [msg];
     s_created_at := s_created_at session;
     s_updated_at := s_updated_at session |}.

Definition with_updated_at (session : Session) (t : pystr) : Session :=
  {| s_id := s_id session;
     s_user_id := s_user_id session;
     s_title := s_title session;
     s_messages := s_messages session;
     s_created_at := s_created_at session;
     s_updated_at := Some t |}.

Definition with_title (session : Session) (title : pystr) : Session :=
  {| s_id := s_id session;
     s_user_id := s_user_id session;
     s_title := Some title;
     s_messages := s_messages session;
     s_created_at := s_created_at session;
     s_updated_at := s_updated_at session |}.

(** [message[:50] + ('...' if len(message) > 50 else '')] *)
Definition title_of (message : pystr) : pystr :=
  slice_to 50 message ++ (if (50 <? length message)%nat then py "..." else []).

Definition login_reminder : pystr :=
  py "Note: You are chatting anonymously. Your conversation will not be saved. If you want to save your chat history, please login with Google." ++ nl ++ nl.

Definition search_notice : pystr :=
  py "[Searching the web...]" ++ nl ++ nl.

(** *** The web-context block and the composed messages *)

Definition source_entry (idx : nat) (r : ScrapedDocument) : pystr :=
  (nl ++ py "[Source " ++ str_of_nat idx ++ py "] " ++ sd_title r ++ nl)
  ++ (py "URL: " ++ sd_url r ++ nl)
  ++ (py "Content: " ++ slice_to 1500 (sd_content r) ++ py "..." ++ nl).

(** [for idx, result in enumerate(results, idx): ...] *)
Fixpoint source_entries (idx : nat) (results : list ScrapedDocument) : list pystr :=
  match results with
  | [] => []
  | r :: rest => source_entry idx r :: source_entries (S idx) rest
  end.

Definition web_context_header : pystr :=
  nl ++ nl ++ py "Web Search Results:" ++ nl.

(** The web context built from a bundle, and whether there is one
    ([web_search_performed] in the streaming route): the code under
    [if web_data['success'] and web_data['results']]. *)
Definition bundle_results (web_data : SearchBundle) : list ScrapedDocument :=
  match web_data with
  | BundleOk _ results => results
  | BundleFail _ => []
  end.

Definition web_context_block (results : list ScrapedDocument) : pystr * bool :=
  match results with
  | [] => ([], false)
  | _ :: _ => (web_context_header ++ concat (source_entries 1 results), true)
  end.

Definition web_context_of (web_data : SearchBundle) : pystr * bool :=
  web_context_block (bundle_results web_data).

Definition web_context_footer : pystr :=
  nl ++ nl ++ py "IMPORTANT: Use ONLY the information from the web search results above to answer. Do not use outdated information.".

(** The message list sent to the model: the code from
    [messages = [...]] to [messages.append(...)], which [chat] and
    [chat_stream] both have. *)
Definition compose_messages (system_prompt : pystr)
           (conversation_history : option (list ChatMessage))
           (document_context : option pystr)
           (web_context user_query : pystr) : list ChatMessage :=
  let messages := [{| role := py "system"; content := system_prompt |}] in
  let messages :=
    match conversation_history with
    | Some (m :: h) => messages ++ slice_last 10 (m :: h)
    | _ => messages
    end in
  let user_message :=
    match document_context with
    | Some (c :: d) =>
        py "[Document Content]" ++ nl ++ (c :: d) ++ nl ++ nl
        ++ py "[User Question]" ++ nl ++ user_query
    | _ => user_query
    end in
  let user_message :=
    if nonempty web_context
    then user_message ++ web_context ++ web_context_footer
    else user_message in
  messages ++ [{| role := py "user"; content := user_message |}].

Definition chat_system_prompt : pystr :=
  py "You are PrometheusAI, a helpful and friendly AI assistant built by SamCodeMan's LLC. You provide accurate, helpful, and conversational responses. CRITICAL INSTRUCTION: If the user asks about current time, date, or 'right now' information, you MUST use the web search results provided. DO NOT use your internal knowledge for time-sensitive queries. Your training data is outdated for current information. Always rely on web search results when provided. When web search results are provided, use them to answer the user's question accurately. Always cite your sources by mentioning the website or URL when using web information. When document content is provided (from uploaded PDFs or images), use that information to answer questions accurately. Reference the document when providing answers based on its content. If web search results or document content don't contain the exact answer, acknowledge this and provide the best answer you can. Be concise but informative, and maintain a friendly tone. Do not use emojis or special characters in your responses.".

Definition stream_system_prompt : pystr :=
  py "You are PrometheusAI, a helpful and friendly AI assistant built by SamCodeMan LLC. You provide accurate, helpful, and conversational responses. CRITICAL INSTRUCTION: If the user asks about current time, date, or 'right now' information, you MUST use the web search results provided. DO NOT use your internal knowledge for time-sensitive queries. Your training data is outdated for current information. Always rely on web search results when provided. When web search results are provided, use them to answer the user's question accurately. Always cite your sources by mentioning the website or URL when using web information. When document content is provided (from uploaded PDFs or images), use that information to answer questions accurately. Reference the document when providing answers based on its content. If web search results or document content don't contain the exact answer, acknowledge this and suggest the user visit the source directly. Be concise but informative, and maintain a friendly tone. Do not use emojis or special characters in your responses.".

(** ** What the HTML parser finds

    The pages are parsed by BeautifulSoup, which is no part of the
    program; the records below hold what the program asks of a parsed
    page, and the parsers themselves are parameters of [Program]. *)

(** One [div.snippet.fdb] card of a Brave result page: the text of its
    [p.snippet-title], whether it has a [cite.snippet-url], the text of
    its [p.snippet-description], and its first [a] with that element's
    [href] attribute. *)
Record BraveCard := {
  bc_title : option pystr;
  bc_cite : bool;
  bc_description : option pystr;
  bc_anchor : option (option pystr)
}.

(** One [li.b_algo] of a Bing page: the [a] inside its [h2] (text and
    [href]) and the text of its first [p]. *)
Record BingItem := {
  bi_link : option (pystr * option pystr);
  bi_p : option pystr
}.

(** One [div.g] of a Google page: the text of its [h3], the [href] of
    its first [a], and the text of its [div.VwiC3b]. *)
Record GoogleItem := {
  gi_h3 : option pystr;
  gi_a : option (option pystr);
  gi_snippet : option pystr
}.

(** ** The program *)

Section Program.
Context {World : Type}.

(** Unicode's lower-casing of the non-ASCII code points. *)
Variable lower_ext : pystr -> char -> pystr -> pystr.
(** [requests.Session.get(url, timeout=...)] *)
Variable session_get : pystr -> World -> result Response * World.
(** BeautifulSoup on the three result pages. *)
Variable brave_cards : pystr -> list BraveCard.
Variable bing_items : pystr -> list BingItem.
Variable google_items : pystr -> list GoogleItem.
(** [soup.get_text()] once the script, style, nav, footer and header
    elements are removed. *)
Variable visible_text : pystr -> result pystr.

Local Abbreviation lower := (PyStr.lower lower_ext).

(** The mutable state: the chatbot's active model, the two session
    stores, and everything outside the process. *)
Record State := {
  model_name : pystr;
  chat_sessions : gmap pystr Session;
  anonymous_sessions : gmap pystr Session;
  world : World
}.

Definition set_world (w : World) (st : State) : State :=
  {| model_name := model_name st;
     chat_sessions := chat_sessions st;
     anonymous_sessions := anonymous_sessions st;
     world := w |}.

Definition set_model_name (m : pystr) (st : State) : State :=
  {| model_name := m;
     chat_sessions := chat_sessions st;
     anonymous_sessions := anonymous_sessions st;
     world := world st |}.

Definition set_chat_sessions (c : gmap pystr Session) (st : State) : State :=
  {| model_name := model_name st;
     chat_sessions := c;
     anonymous_sessions := anonymous_sessions st;
     world := world st |}.

Definition set_anonymous_sessions (a : gmap pystr Session) (st : State) : State :=
  {| model_name := model_name st;
     chat_sessions := chat_sessions st;
     anonymous_sessions := a;
     world := world st |}.

(** A computation reads and writes the state and returns or raises. *)
Definition M (A : Type) : Type := State -> result A * State.

Definition ret {A} (a : A) : M A := fun st => (Ok a, st).

Definition raise {A} (e : exn) : M A := fun st => (Raise e, st).

Definition bind {A B} (m : M A) (k : A -> M B) : M B :=
  fun st =>
    match m st with
    | (Ok a, st') => k a st'
    | (Raise e, st') => (Raise e, st')
    end.

Definition lift {A} (r : result A) : M A := fun st => (r, st).

Definition get_state : M State := fun st => (Ok st, st).

Definition modify (f : State -> State) : M unit := fun st => (Ok tt, f st).

(** A call that reaches outside the process. *)
Definition io {A} (f : World -> A * World) : M A :=
  fun st => let '(a, w) := f (world st) in (Ok a, set_world w st).

(** [try: m  except <handles> as e: handler e] *)
Definition try_except {A} (m : M A) (handles : exn -> bool)
           (handler : exn -> M A) : M A :=
  fun st =>
    match m st with
    | (Ok a, st') => (Ok a, st')
    | (Raise e, st') => if handles e then handler e st' else (Raise e, st')
    end.

Notation "x <- m ;; k" := (bind m (fun x => k))
  (at level 100, m at next level, k at level 200, right associativity).

(** [except Exception] *)
Definition any_exception (e : exn) : bool := true.

(** A loop that gathers one value per element, in order. *)
Fixpoint for_each {A B} (f : A -> M B) (l : list A) : M (list B) :=
  match l with
  | [] => ret []
  | x :: rest => y <- f x ;; ys <- for_each f rest ;; ret (y :: ys)
  end.

(** *** Web search aggregator *)

(** The body of the loop over the cards of [search_brave], inside its
    [try]: the result the card adds, if any.  [result.find('a')['href']]
    raises when the link has no [href]. *)
Definition brave_card (card : BraveCard) : result (option SearchResult) :=
  match bc_title card, bc_cite card with
  | Some title, true =>
      url <~ (match bc_anchor card with
              | Some (Some href) => Ok href
              | Some None => Raise KeyError
              | None => Ok []
              end) ;;
      let snippet := or_empty (bc_description card) in
      if nonempty url && nonempty title
         && negb (startswith (py "javascript:") url)
      then Ok (Some {| sr_title := title; sr_url := url; sr_snippet := snippet |})
      else Ok None
  | _, _ => Ok None
  end.

(** A card that raises is passed over. *)
Definition brave_result (card : BraveCard) : option SearchResult :=
  match brave_card card with
  | Ok r => r
  | Raise _ => None
  end.

(** [WebSearcher.search_brave] *)
Definition search_brave (query : pystr) (num_results : Z) : M (list SearchResult) :=
  try_except
    (quoted <- lift (quote_plus query) ;;
     let search_url := py "https://search.brave.com/search?q=" ++ quoted in
     response <- bind (io (session_get search_url)) lift ;;
     if negb (status_code response =? 200)%Z then ret []
     else
       let cards := slice_to num_results (brave_cards (resp_text response)) in
       ret (omap brave_result cards))
    any_exception (fun _ => ret []).

Definition bing_result (item : BingItem) : option SearchResult :=
  match bi_link item with
  | Some (link_text, href) =>
      Some {| sr_title := link_text;
              sr_url := or_empty href;
              sr_snippet := or_empty (bi_p item) |}
  | None => None
  end.

Definition google_result (item : GoogleItem) : option SearchResult :=
  match gi_h3 item, gi_a item with
  | Some title, Some href =>
      Some {| sr_title := title;
              sr_url := or_empty href;
              sr_snippet := or_empty (gi_snippet item) |}
  | _, _ => None
  end.

Inductive engine := Bing | Google.

(** One turn of the loop over the engines, for the engine of the type
    [e] at [url]: [None] stands for [continue], [Some results] for
    [return results]. *)
Definition try_engine (url : pystr) (e : engine) (num_results : Z)
  : M (option (list SearchResult)) :=
  try_except
    (response <- bind (io (session_get url)) lift ;;
     if negb (status_code response =? 200)%Z then ret None
     else
       let results :=
         match e with
         | Bing => omap bing_result
                     (slice_to num_results (bing_items (resp_text response)))
         | Google => omap google_result
                       (slice_to num_results (google_items (resp_text response)))
         end in
       match results with
       | [] => ret None
       | _ :: _ => ret (Some results)
       end)
    any_exception (fun _ => ret None).

Fixpoint first_engine (search_engines : list (pystr * engine)) (num_results : Z)
  : M (list SearchResult) :=
  match search_engines with
  | [] => ret []
  | (url, e) :: rest =>
      r <- try_engine url e num_results ;;
      match r with
      | Some results => ret results
      | None => first_engine rest num_results
      end
  end.

(** [WebSearcher.search_html_fallback]: the list of the engines is made
    before the loop and outside its [try], so an exception of
    [quote_plus] leaves the function. *)
Definition search_html_fallback (query : pystr) (num_results : Z)
  : M (list SearchResult) :=
  bing <- lift (quote_plus query) ;;
  google <- lift (quote_plus query) ;;
  let search_engines :=
    [ (py "https://www.bing.com/search?q=" ++ bing, Bing);
      (py "https://www.google.com/search?q=" ++ google, Google) ] in
  first_engine search_engines num_results.

Definition synthetic_result : SearchResult :=
  {| sr_title := py "Current Date and Time Information";
     sr_url := py "https://www.timeanddate.com/";
     sr_snippet := py "Current time and date information. Note: For real-time data, please visit timeanddate.com directly." |}.

(** [WebSearcher.search_google] *)
Definition search_google (query : pystr) (num_results : Z) : M (list SearchResult) :=
  results <- search_brave query num_results ;;
  results <- (match results with
              | [] => search_html_fallback query num_results
              | _ :: _ => ret results
              end) ;;
  match results with
  | [] =>
      if any_in (List.map py ["time"; "date"; "current"; "today"; "now"]%string)
                (lower query)
      then ret [synthetic_result]
      else ret results
  | _ :: _ => ret results
  end.

(** *** Content scraper *)

(** The flattening of the page text in [scrape_url]: every line is
    stripped and cut at double spaces, the pieces are stripped, and the
    non-empty ones joined by single spaces. *)
Definition flatten_text (text : pystr) : pystr :=
  let lines := List.map strip (splitlines text) in
  let chunks :=
    concat (List.map (fun line => List.map strip (split (py "  ") line)) lines) in
  join (py " ") (List.filter nonempty chunks).

Definition truncate (max_chars : Z) (text : pystr) : pystr :=
  if (max_chars <? Z.of_nat (length text))%Z
  then slice_to max_chars text ++ py "..."
  else text.

(** [WebSearcher.scrape_url]; [None] is Python's [None]. *)
Definition scrape_url (url : pystr) (max_chars : Z) : M (option pystr) :=
  try_except
    (response <- bind (io (session_get url)) lift ;;
     if negb (status_code response =? 200)%Z then ret None
     else
       text <- lift (visible_text (resp_text response)) ;;
       let text := flatten_text text in
       ret (Some (truncate max_chars text)))
    any_exception (fun _ => ret None).

(** *** Search orchestrator *)

Definition scraped (result : SearchResult) (content : pystr) : ScrapedDocument :=
  {| sd_title := sr_title result;
     sd_url := sr_url result;
     sd_snippet := sr_snippet result;
     sd_content := content |}.

(** The body of the loop of [search_and_scrape]. *)
Definition scrape_result (result : SearchResult) : M ScrapedDocument :=
  content <- scrape_url (sr_url result) 5000 ;;
  match content with
  | Some (c :: t) => ret (scraped result (c :: t))
  | _ => ret (scraped result (sr_snippet result))
  end.

(** [WebSearcher.search_and_scrape] *)
Definition search_and_scrape (query : pystr) (num_urls : Z) : M SearchBundle :=
  search_results <- search_google query num_urls ;;
  match search_results with
  | [] => ret (BundleFail (py "No search results found"))
  | _ :: _ =>
      scraped_data <- for_each scrape_result (slice_to num_urls search_results) ;;
      ret (BundleOk query scraped_data)
  end.

(** *** Model client *)

(** Temperatures are floating-point numbers, which the program only
    passes on. *)
Context {float : Type}.
(** [self.lm_studio_url] *)
Variable lm_studio_url : pystr.
(** [requests.post(url, headers=..., json=payload, timeout=...)], with
    [stream=True] when the payload asks for a stream; [Raise] is a
    [RequestException]. *)
Variable requests_post : pystr -> Payload float -> Z -> World -> result Response * World.
(** [json.loads] *)
Variable json_loads : pystr -> result json.
(** [str(v)] of a decoded value that is no string (its [repr]). *)
Variable py_repr : json -> pystr.
(** Whether the library's JSON error is a [RequestException], as it is
    from requests 2.27 on. *)
Variable json_error_is_request_exception : bool.

Definition is_request_exception (e : exn) : bool :=
  match e with
  | RequestException _ => true
  | JSONDecodeError => json_error_is_request_exception
  | _ => false
  end.

(** [str(v)] *)
Definition py_str (v : json) : pystr :=
  match v with
  | JStr s => s
  | _ => py_repr v
  end.

(** [response.json()] *)
Definition response_json (response : Response) : result json :=
  match resp_json response with
  | Some v => Ok v
  | None => Raise JSONDecodeError
  end.

Definition model_error_message : pystr :=
  py "Sorry, the language model returned an error. Please check that LM Studio is running and a model is loaded.".

Definition connect_error_message : pystr :=
  py "Sorry, I couldn't connect to the language model. Please ensure LM Studio is running at http://localhost:1200".

(** [result['choices'][0]['message']['content']] *)
Definition message_content (decoded : json) : result json :=
  choices <~ py_item decoded (py "choices") ;;
  first <~ py_first choices ;;
  message <~ py_item first (py "message") ;;
  py_item message (py "content").

(** The text of an error body in [query_lm_studio]: the [message] of
    its [error] when there is one, else the whole body. *)
Definition error_body_text (response : Response) : json :=
  match (body_json <~ response_json response ;;
         error <~ py_get body_json (py "error") (JObj []) ;;
         message <~ py_get error (py "message") JNull ;;
         Ok (if truthy message then message else JStr (py_str body_json)))
  with
  | Ok body_text => body_text
  | Raise _ => JStr (resp_text response)
  end.

(** [[line.strip() for line in text.splitlines() if line.strip()]] *)
Definition stripped_lines (text : pystr) : list pystr :=
  List.filter nonempty (List.map strip (splitlines text)).

(** The retry of [query_lm_studio] with a listed model: [Some text]
    when the function returns from inside it, [None] when control
    falls through to the error message. *)
Definition retry_with_listed_model (payload : Payload float) (body_text : pystr)
  : M (option pystr) :=
  try_except
    (match split_once (py "Your models:") body_text with
     | Some (_, listed) =>
         match stripped_lines listed with
         | chosen :: _ =>
             _ <- (fun st => (Ok tt, set_model_name chosen st)) ;;
             let retry_payload :=
               {| p_model := chosen;
                  p_messages := p_messages payload;
                  p_temperature := p_temperature payload;
                  p_max_tokens := p_max_tokens payload;
                  p_stream := p_stream payload |} in
             retry_resp <- bind (io (requests_post lm_studio_url retry_payload 60)) lift ;;
             if resp_ok retry_resp then
               result <- lift (body <~ response_json retry_resp ;; message_content body) ;;
               cleaned <- lift (clean_text_dyn result) ;;
               ret (Some cleaned)
             else ret None
         | [] => ret None
         end
     | None => ret None
     end)
    any_exception (fun _ => ret None).

(** [SimpleChatbot.query_lm_studio] *)
Definition query_lm_studio (messages : list ChatMessage) (temperature : float)
           (max_tokens : Z) : M pystr :=
  fun st =>
    let payload :=
      {| p_model := model_name st;
         p_messages := messages;
         p_temperature := temperature;
         p_max_tokens := max_tokens;
         p_stream := false |} in
    try_except
      (response <- bind (io (requests_post lm_studio_url payload 60)) lift ;;
       if negb (resp_ok response) then
         let body_text := py_str (error_body_text response) in
         returned <-
           (if contains (py "model_not_found") (lower body_text)
               && contains (py "your models:") (lower body_text)
            then retry_with_listed_model payload body_text
            else ret None) ;;
         match returned with
         | Some text => ret text
         | None => ret model_error_message
         end
       else
         result <- lift (response_json response) ;;
         content <- lift (message_content result) ;;
         lift (clean_text_dyn content))
      is_request_exception (fun _ => ret connect_error_message)
      st.

(** The fragment carried by one decoded event of the stream: the body
    of the [try] in the loop of [query_lm_studio_stream]. *)
Definition event_fragment (obj : json) : result (option pystr) :=
  let choices :=
    if is_dict obj
    then match py_get obj (py "choices") JNull with Ok v => v | Raise _ => JNull end
    else JNull in
  if truthy choices then
    ch <~ py_first choices ;;
    delta <~ py_get ch (py "delta") (JObj []) ;;
    if is_dict delta && has_key (py "content") delta then
      content <~ py_get delta (py "content") JNull ;;
      if truthy content then
        clean_content <~ clean_text_dyn content ;;
        Ok (if nonempty clean_content then Some clean_content else None)
      else Ok None
    else
      message <~ py_get ch (py "message") JNull ;;
      if truthy message then
        message <~ py_item ch (py "message") ;;
        msg_content <~ py_get message (py "content") JNull ;;
        if truthy msg_content then
          clean_content <~ clean_text_dyn msg_content ;;
          Ok (if nonempty clean_content then Some clean_content else None)
        else Ok None
      else Ok None
  else Ok None.

(** One turn of the loop over the lines of the stream. *)
Definition stream_line (raw_line : pystr) : line_step :=
  let line := strip raw_line in
  if negb (nonempty line) then Skip
  else
    let line :=
      if startswith (py "data:") line
      then strip (skipn (length (py "data:")) line)
      else line in
    if str_eqb line (py "[DONE]") then Stop
    else
      match (obj <~ json_loads line ;; event_fragment obj) with
      | Ok (Some chunk) => Yield chunk
      | Ok None => Skip
      | Raise _ => Skip
      end.

(** The loop over the lines: the chunks yielded, and whether the loop
    was left by [break]. *)
Fixpoint stream_lines (lines : list pystr) : list pystr * bool :=
  match lines with
  | [] => ([], false)
  | raw_line :: rest =>
      match stream_line raw_line with
      | Stop => ([], true)
      | Skip => stream_lines rest
      | Yield chunk =>
          let '(chunks, stopped) := stream_lines rest in
          (chunk :: chunks, stopped)
      end
  end.

(** [SimpleChatbot.query_lm_studio_stream]: the chunks the generator
    yields when it is run to its end. *)
Definition query_lm_studio_stream (messages : list ChatMessage)
           (temperature : float) (max_tokens : Z) (timeout : Z) : M (list pystr) :=
  fun st =>
    let payload :=
      {| p_model := model_name st;
         p_messages := messages;
         p_temperature := temperature;
         p_max_tokens := max_tokens;
         p_stream := true |} in
    try_except
      (resp <- bind (io (requests_post lm_studio_url payload timeout)) lift ;;
       if negb (resp_ok resp) then
         let body :=
           match response_json resp with
           | Ok body => body
           | Raise _ => JStr (resp_text resp)
           end in
         ret [py "[ERROR] " ++ py_str body]
       else
         let '(chunks, stopped) := stream_lines (resp_lines resp) in
         match resp_broken resp with
         | Some e =>
             if stopped then ret chunks
             else ret (chunks ++ [py "[ERROR] Error querying LM Studio: " ++ e])
         | None => ret chunks
         end)
      is_request_exception
      (fun e =>
         match e with
         | RequestException msg => ret [py "[ERROR] Error querying LM Studio: " ++ msg]
         | _ => ret [py "[ERROR] Error querying LM Studio: "]
         end)
      st.

(** *** The chatbot and the chat routes *)

(** The literal [0.7]. *)
Variable temperature_0_7 : float.
(** [str(uuid.uuid4())] *)
Variable uuid4 : World -> pystr * World.
(** [datetime.now().isoformat()] *)
Variable now_isoformat : World -> pystr * World.
(** [save_chat_sessions]: the store is written to disk, a failure is
    logged. *)
Variable save_chat_sessions : gmap pystr Session -> World -> World.
(** [str(e)] *)
Variable exn_str : exn -> pystr.

Local Abbreviation should_search_web := (should_search_web lower_ext).
Local Abbreviation extract_search_query := (extract_search_query lower_ext).

(** The web search of a chat request, which [SimpleChatbot.chat] and
    [chat_stream] both start with: the web context, and whether a
    search gave one. *)
Definition web_context_for (user_query : pystr) : M (pystr * bool) :=
  if should_search_web user_query then
    let search_query := extract_search_query user_query in
    web_data <- search_and_scrape search_query 2 ;;
    ret (web_context_of web_data)
  else ret ([], false).

(** [SimpleChatbot.chat] *)
Definition chat (user_query : pystr)
           (conversation_history : option (list ChatMessage))
           (temperature : float) (document_context : option pystr) : M pystr :=
  web <- web_context_for user_query ;;
  let web_context := fst web in
  let messages :=
    compose_messages chat_system_prompt conversation_history
                     document_context web_context user_query in
  response <- query_lm_studio messages temperature (-1) ;;
  ret response.

(** The store a request works on. *)
Definition sessions_of (is_logged_in : bool) (st : State) : gmap pystr Session :=
  if is_logged_in then chat_sessions st else anonymous_sessions st.

Definition set_sessions_of (is_logged_in : bool) (m : gmap pystr Session)
           (st : State) : State :=
  if is_logged_in then set_chat_sessions m st else set_anonymous_sessions m st.

(** [sessions[chat_id]] *)
Definition get_session (is_logged_in : bool) (chat_id : pystr) : M Session :=
  fun st =>
    match sessions_of is_logged_in st !! chat_id with
    | Some session => (Ok session, st)
    | None => (Raise KeyError, st)
    end.

(** A change of the session object, which the store holds. *)
Definition update_session (is_logged_in : bool) (chat_id : pystr)
           (f : Session -> Session) : M unit :=
  session <- get_session is_logged_in chat_id ;;
  fun st =>
    (Ok tt,
     set_sessions_of is_logged_in
       (<[chat_id := f session]> (sessions_of is_logged_in st)) st).

(** [not chat_id or chat_id not in sessions] *)
Definition needs_new_session (chat_id : option pystr)
           (sessions : gmap pystr Session) : bool :=
  match chat_id with
  | Some (c :: r) =>
      match sessions !! (c :: r) with Some _ => false | None => true end
  | _ => true
  end.

Definition new_session (is_logged_in : bool) (new_id : pystr)
           (user_id : option pystr) (message : pystr) : M unit :=
  if is_logged_in then
    created_at <- io now_isoformat ;;
    updated_at <- io now_isoformat ;;
    modify (fun st =>
      set_chat_sessions
        (<[new_id := {| s_id := new_id;
                        s_user_id := user_id;
                        s_title := Some (title_of message);
                        s_messages := [];
                        s_created_at := created_at;
                        s_updated_at := Some updated_at |}]>
           (chat_sessions st)) st)
  else
    created_at <- io now_isoformat ;;
    modify (fun st =>
      set_anonymous_sessions
        (<[new_id := {| s_id := new_id;
                        s_user_id := None;
                        s_title := None;
                        s_messages := [];
                        s_created_at := created_at;
                        s_updated_at := None |}]>
           (anonymous_sessions st)) st).

(** The start of both routes, up to [session = ...]: the id of the
    session to use, or [None] when access is denied. *)
Definition open_session (is_logged_in : bool) (chat_id : option pystr)
           (user_id : option pystr) (message : pystr) : M (option pystr) :=
  st <- get_state ;;
  chat_id <-
    (if needs_new_session chat_id (sessions_of is_logged_in st) then
       new_id <- io uuid4 ;;
       _ <- new_session is_logged_in new_id user_id message ;;
       ret new_id
     else ret (or_empty chat_id)) ;;
  if is_logged_in then
    session <- get_session true chat_id ;;
    if decide (s_user_id session = user_id)
    then ret (Some chat_id) else ret None
  else ret (Some chat_id).

(** [user_id is not None and user_id != ''] *)
Definition logged_in (user_id : option pystr) : bool :=
  match user_id with
  | Some (_ :: _) => true
  | _ => false
  end.

(** The end of both routes for a logged-in user: the session is
    stamped, gets its title after the first exchange, and the store
    is saved. *)
Definition finish_logged_in (chat_id message : pystr) : M unit :=
  updated_at <- io now_isoformat ;;
  _ <- update_session true chat_id (fun s => with_updated_at s updated_at) ;;
  session <- get_session true chat_id ;;
  _ <- (if (length (s_messages session) =? 2)%nat
        then update_session true chat_id (fun s => with_title s (title_of message))
        else ret tt) ;;
  st <- get_state ;;
  _ <- io (fun w => (tt, save_chat_sessions (chat_sessions st) w)) ;;
  ret tt.

(** [show_login_reminder] *)
Definition show_reminder (is_logged_in : bool) (session : Session) : bool :=
  negb is_logged_in && (length (s_messages session) =? 0)%nat.

(** [session['messages'].append({'role': ..., 'content': ...,
    'timestamp': datetime.now().isoformat()})] *)
Definition append_turn (is_logged_in : bool) (chat_id role content : pystr) : M unit :=
  timestamp <- io now_isoformat ;;
  update_session is_logged_in chat_id
    (fun s => with_message s {| t_role := role; t_content := content;
                                t_timestamp := timestamp |}).

(** [/api/chat] once the session is there: from
    [show_login_reminder = ...] to the answer. *)
Definition chat_exchange (is_logged_in : bool) (chat_id message : pystr)
           (document_context : option pystr) : M ChatReply :=
  session <- get_session is_logged_in chat_id ;;
  let show_login_reminder := show_reminder is_logged_in session in
  _ <- append_turn is_logged_in chat_id (py "user") message ;;
  session <- get_session is_logged_in chat_id ;;
  let conversation_history :=
    List.map to_chat_message (removelast (s_messages session)) in
  ai_response <-
    chat message
         (match conversation_history with
          | [] => None
          | _ :: _ => Some conversation_history
          end)
         temperature_0_7 document_context ;;
  let ai_response :=
    if show_login_reminder then login_reminder ++ ai_response
    else ai_response in
  _ <- append_turn is_logged_in chat_id (py "assistant") ai_response ;;
  _ <- (if is_logged_in then finish_logged_in chat_id message else ret tt) ;;
  ret (ChatSuccess chat_id ai_response (negb is_logged_in)).

(** The route [/api/chat]. *)
Definition chat_route (data : ChatRequest) : M ChatReply :=
  try_except
    (let chat_id := rq_chat_id data in
     let message := strip (rq_message data) in
     let user_id := rq_user_id data in
     let document_context := rq_document_context data in
     if negb (nonempty message)
     then ret (ChatFailure (py "Message cannot be empty") 400)
     else
       let is_logged_in := logged_in user_id in
       opened <- open_session is_logged_in chat_id user_id message ;;
       match opened with
       | None => ret (ChatFailure (py "Access denied") 403)
       | Some chat_id =>
           chat_exchange is_logged_in chat_id message document_context
       end)
    any_exception
    (fun e => ret (ChatFailure (py "An error occurred: " ++ exn_str e) 500)).

(** The generator [generate] of [chat_stream], run to its end: the
    events it sends.  The reminder and the notice are sent before the
    model is asked, so they precede the error event of a failure. *)
Definition generate (is_logged_in show_login_reminder web_search_performed : bool)
           (chat_id message : pystr) (messages : list ChatMessage)
  : M (list StreamEvent) :=
  let reminder := if show_login_reminder then [login_reminder] else [] in
  let notice := if web_search_performed then [search_notice] else [] in
  try_except
    (chunks <- query_lm_studio_stream messages temperature_0_7 (-1) 120 ;;
     let final_text := concat (reminder ++ notice ++ chunks) in
     _ <- append_turn is_logged_in chat_id (py "assistant") final_text ;;
     _ <- (if is_logged_in then finish_logged_in chat_id message else ret tt) ;;
     ret (List.map Delta (reminder ++ notice ++ chunks)
          ++ [Done chat_id final_text (negb is_logged_in)]))
    any_exception
    (fun e => ret (List.map Delta (reminder ++ notice) ++ [ErrorEvent (exn_str e)])).

(** [/api/chat/stream] once the session is there. *)
Definition stream_exchange (is_logged_in : bool) (chat_id message : pystr)
           (document_context : option pystr) : M StreamReply :=
  session <- get_session is_logged_in chat_id ;;
  let show_login_reminder := show_reminder is_logged_in session in
  _ <- append_turn is_logged_in chat_id (py "user") message ;;
  session <- get_session is_logged_in chat_id ;;
  let conversation_history :=
    List.map to_chat_message (removelast (s_messages session)) in
  web <- web_context_for message ;;
  let '(web_context, web_search_performed) := web in
  let messages :=
    compose_messages stream_system_prompt (Some conversation_history)
                     document_context web_context message in
  events <- generate is_logged_in show_login_reminder
                     web_search_performed chat_id message messages ;;
  ret (Stream events).

(** The route [/api/chat/stream]. *)
Definition chat_stream (data : ChatRequest) : M StreamReply :=
  try_except
    (let chat_id := rq_chat_id data in
     let message := strip (rq_message data) in
     let user_id := rq_user_id data in
     let document_context := rq_document_context data in
     if negb (nonempty message)
     then ret (StreamFailure (py "Message cannot be empty") 400)
     else
       let is_logged_in := logged_in user_id in
       opened <- open_session is_logged_in chat_id user_id message ;;
       match opened with
       | None => ret (StreamFailure (py "Access denied") 403)
       | Some chat_id =>
           stream_exchange is_logged_in chat_id message document_context
       end)
    any_exception (fun e => ret (StreamFailure (exn_str e) 500)).

End Program.

(** * Definitions of the specification

    What the specification's sentences speak of, written from its
    words, to be set against the program. *)

(** The characters [clean_text] keeps. *)
Definition kept (c : char) : bool := negb (c =? 65533) && (c <? 65536).

(** The phrases taken out of a text one after the other, in the order of
    the list, each at all the places where it stands. *)
Definition remove_phrases (phrases : list pystr) (s : pystr) : pystr :=
  fold_left (fun acc phrase => replace phrase [] acc) phrases s.

Section SpecTrigger.
Variable lower_ext : pystr -> char -> pystr -> pystr.

(** The search query the specification gives for a user query. *)
Definition rewritten_query (query : pystr) : pystr :=
  let q := lower lower_ext query in
  if contains (py "time") q && contains (py "india") q
  then py "current time in India IST"
  else if contains (py "date") q && contains (py "india") q
  then py "current date in India"
  else if contains (py "time") q || contains (py "date") q
  then py "current time and date"
  else strip (remove_phrases question_words q).

(** Lower-cased text stays as it is when lower-cased again: every
    character that the table puts out is its own lower case, wherever
    it stands. *)
Definition lower_settled : Prop :=
  forall before c after d before' after',
    128 <= c -> In d (lower_ext before c after) ->
    lower_char lower_ext before' d after' = [d].

(** A character that lower-casing leaves alone, wherever it stands. *)
Definition settled (d : char) : Prop :=
  forall before after, lower_char lower_ext before d after = [d].
End SpecTrigger.

(** A table that leaves every character beyond ASCII as it is. *)
Definition no_ext : pystr -> char -> pystr -> pystr := fun _ c _ => [c].

(** The document the orchestrator makes of a search result and of what
    scraping its URL gave: the scraped text when there is some, else the
    snippet. *)
Definition document_for (result : SearchResult) (scrape : option pystr)
  : ScrapedDocument :=
  {| sd_title := sr_title result;
     sd_url := sr_url result;
     sd_snippet := sr_snippet result;
     sd_content := match scrape with
                   | Some (c :: t) => c :: t
                   | _ => sr_snippet result
                   end |}.

(** A surrogate code point: a string that holds one has no UTF-8
    encoding, so it cannot be quoted for a URL. *)
Definition surrogate (c : char) : bool := (55296 <=? c) && (c <? 57344).

(** [t] ends with the truncation marker. *)
Definition ends_with_marker (t : pystr) : Prop :=
  exists kept_text, t = kept_text ++ py "...".

Section SpecOrchestrator.
Context {World : Type}.
Variable session_get : pystr -> World -> result Response * World.
Variable visible_text : pystr -> result pystr.

(** [doc] is made of [result] and of a run of the scraper on its URL. *)
Definition scraped_from (result : SearchResult) (doc : ScrapedDocument) : Prop :=
  exists (before : @State World) scrape after,
    scrape_url session_get visible_text (sr_url result) 5000 before
    = (Ok scrape, after)
    /\ doc = document_for result scrape.
End SpecOrchestrator.

(** *** A small world for examples

    Nothing outside the process but a network that serves one fixed
    page at Brave's address and fails everywhere else; the Brave page
    holds one result card, which has a title, a cite and a link but no
    description. *)
Definition page (text : pystr) : Response :=
  {| status_code := 200; resp_text := text; resp_json := None;
     resp_lines := []; resp_broken := None |}.

Definition brave_only_get (url : pystr) (w : unit) : result Response * unit :=
  if startswith (py "https://search.brave.com/") url
  then (Ok (page (py "<html>")), w)
  else (Raise (RequestException (py "unreachable")), w).

Definition bare_card : BraveCard :=
  {| bc_title := Some (py "Example");
     bc_cite := true;
     bc_description := None;
     bc_anchor := Some (Some (py "http://example.org/")) |}.

Definition one_bare_card (html : pystr) : list BraveCard := [bare_card].

Definition no_bing (html : pystr) : list BingItem := [].
Definition no_google (html : pystr) : list GoogleItem := [].

(** A network that serves the same page whatever the address. *)
Definition static_get (text : pystr) (url : pystr) (w : unit)
  : result Response * unit :=
  (Ok (page text), w).

Definition plain_text (html : pystr) : result pystr := Ok html.

Definition initial_state : @State unit :=
  {| model_name := py "ibm/granite-4-h-tiny";
     chat_sessions := ∅;
     anonymous_sessions := ∅;
     world := tt |}.

(** *** The model client, in the specification's words *)

(** The text of a well-formed answer of the model endpoint: the
    sanitized [choices[0].message.content] of a success response. *)
Definition reply_text (response : Response) : option pystr :=
  if resp_ok response then
    match (body <~ response_json response ;;
           content <~ message_content body ;;
           clean_text_dyn content)
    with
    | Ok text => Some text
    | Raise _ => None
    end
  else None.

Section SpecClient.
Variable lower_ext : pystr -> char -> pystr -> pystr.

(** The first model name listed by an error text that says the model
    was not found, if there is one. *)
Definition listed_model (body_text : pystr) : option pystr :=
  if contains (py "model_not_found") (lower lower_ext body_text)
     && contains (py "your models:") (lower lower_ext body_text)
  then
    match split_once (py "Your models:") body_text with
    | Some (_, listed) => head (stripped_lines listed)
    | None => None
    end
  else None.
End SpecClient.

(** A line of the stream once trimmed, without its [data:] prefix. *)
Definition data_payload (line : pystr) : pystr :=
  if startswith (py "data:") line then strip (skipn 5 line) else line.

(** The first entry of the [choices] of a decoded event. *)
Definition first_choice (obj : json) : option (list (pystr * json)) :=
  match obj with
  | JObj items =>
      match assoc (py "choices") items with
      | Some (JArr (JObj ch :: _)) => Some ch
      | _ => None
      end
  | _ => None
  end.

(** Its delta-content field. *)
Definition delta_content (obj : json) : option json :=
  match first_choice obj with
  | Some ch =>
      match assoc (py "delta") ch with
      | Some (JObj delta) => assoc (py "content") delta
      | _ => None
      end
  | None => None
  end.

(** Its message-content field. *)
Definition full_message_content (obj : json) : option json :=
  match first_choice obj with
  | Some ch =>
      match assoc (py "message") ch with
      | Some (JObj message) => assoc (py "content") message
      | _ => None
      end
  | None => None
  end.

(** A fragment as the client yields it: sanitized, and left out when
    nothing remains. *)
Definition sanitized (fragment : pystr) : option pystr :=
  if nonempty (clean_text fragment) then Some (clean_text fragment) else None.

Definition dq : pystr := [34].

(** The event [data: {"choices":[{"delta":{"content":"Hi"}}]}], its
    JSON text and the document it decodes to. *)
Definition hi_json : pystr :=
  py "{" ++ dq ++ py "choices" ++ dq ++ py ":[{" ++ dq ++ py "delta" ++ dq
  ++ py ":{" ++ dq ++ py "content" ++ dq ++ py ":" ++ dq ++ py "Hi" ++ dq
  ++ py "}}]}".

Definition hi_event : json :=
  JObj [(py "choices",
         JArr [JObj [(py "delta", JObj [(py "content", JStr (py "Hi"))])]])].

(** The body of the streaming scenario: the event, a blank line, the
    [data: [DONE]] line, a blank line. *)
Definition hi_body : pystr :=
  py "data: " ++ hi_json ++ nl ++ nl ++ py "data: [DONE]" ++ nl ++ nl.

(** The request body for a model, a message list and the settings. *)
Definition request_payload {float : Type} (model : pystr)
           (messages : list ChatMessage) (temperature : float)
           (max_tokens : Z) (stream : bool) : Payload float :=
  {| p_model := model;
     p_messages := messages;
     p_temperature := temperature;
     p_max_tokens := max_tokens;
     p_stream := stream |}.

(** *** A model endpoint for examples *)

Definition json_response (status : Z) (body : json) : Response :=
  {| status_code := status; resp_text := []; resp_json := Some body;
     resp_lines := []; resp_broken := None |}.

(** It answers 200 with an empty JSON object. *)
Definition empty_object_post (url : pystr) (payload : Payload unit)
           (timeout : Z) (w : unit) : result Response * unit :=
  (Ok (json_response 200 (JObj [])), w).

Definition models_error_text : pystr :=
  py "model_not_found: no such model. Your models:" ++ nl ++ py "  good-model"
  ++ nl ++ py "other-model".

Definition ok_reply : json :=
  JObj [(py "choices",
         JArr [JObj [(py "message", JObj [(py "content", JStr (py "OK"))])]])].

(** It knows the model "good-model" alone, and names its models to who
    asks for another. *)
Definition one_model_post (url : pystr) (payload : Payload unit)
           (timeout : Z) (w : unit) : result Response * unit :=
  if str_eqb (p_model payload) (py "good-model")
  then (Ok (json_response 200 ok_reply), w)
  else (Ok {| status_code := 404; resp_text := models_error_text;
              resp_json := None; resp_lines := []; resp_broken := None |}, w).

(** It streams the body of the streaming scenario. *)
Definition hi_post (url : pystr) (payload : Payload unit)
           (timeout : Z) (w : unit) : result Response * unit :=
  (Ok {| status_code := 200; resp_text := hi_body; resp_json := None;
         resp_lines := splitlines hi_body; resp_broken := None |}, w).

(** A decoder that knows the one event of the scenario. *)
Definition hi_loads (text : pystr) : result json :=
  if str_eqb text hi_json then Ok hi_event else Raise JSONDecodeError.

Definition no_repr (v : json) : pystr := [].

(** *** The prompt composer, in the specification's words *)

(** The part of the history that goes to the model: its last ten
    entries, or all of them when there are fewer. *)
Definition history_window (history : option (list ChatMessage)) : list ChatMessage :=
  match history with
  | Some entries => skipn (length entries - 10) entries
  | None => []
  end.

(** The final user message. *)
Definition user_message_of (document_context : option pystr)
           (web_context user_query : pystr) : pystr :=
  let question :=
    match document_context with
    | Some (c :: d) =>
        py "[Document Content]" ++ nl ++ (c :: d) ++ nl ++ nl
        ++ py "[User Question]" ++ nl ++ user_query
    | _ => user_query
    end in
  match web_context with
  | [] => question
  | _ :: _ => question ++ web_context ++ web_context_footer
  end.

(** *** The routes, in the specification's words *)

Section SpecRoutes.
Context {World : Type}.

(** A computation that leaves both session stores as they are. *)
Definition keeps_sessions {A} (m : @M World A) : Prop :=
  forall st,
    chat_sessions (snd (m st)) = chat_sessions st
    /\ anonymous_sessions (snd (m st)) = anonymous_sessions st.

(** The text put before the answer: the login reminder when it is
    shown, and in the streaming route the search notice when a web
    search gave a context. *)
Definition reminder_prefix (show_login_reminder : bool) : pystr :=
  if show_login_reminder then login_reminder else [].

Definition notice_prefix (web_search_performed : bool) : pystr :=
  if web_search_performed then search_notice else [].

(** The messages of a session are [before] and then a user turn and an
    assistant turn with the given contents. *)
Definition exchange_recorded (before : list Turn) (message answer : pystr)
           (session : Session) : Prop :=
  exists asked answered,
    s_messages session
    = before ++ [ {| t_role := py "user"; t_content := message;
                     t_timestamp := asked |};
                  {| t_role := py "assistant"; t_content := answer;
                     t_timestamp := answered |} ].

(** The state in which the model is asked: a user turn with the message
    has been appended to the session, at the time the clock shows. *)
Definition with_user_turn (now_isoformat : World -> pystr * World)
           (is_logged_in : bool) (chat_id message : pystr) (session : Session)
           (st : @State World) : @State World :=
  let '(timestamp, w) := now_isoformat (world st) in
  set_sessions_of is_logged_in
    (<[chat_id := with_message session
                    {| t_role := py "user"; t_content := message;
                       t_timestamp := timestamp |}]>
       (sessions_of is_logged_in st))
    (set_world w st).

(** The history handed to the model: the turns of the session before
    the message, without their timestamps. *)
Definition history_of (session : Session) : list ChatMessage :=
  List.map to_chat_message (s_messages session).

Definition history_option (history : list ChatMessage) : option (list ChatMessage) :=
  match history with
  | [] => None
  | _ :: _ => Some history
  end.
End SpecRoutes.

(** *** A clock, an id source and a disk for examples *)

Definition fixed_uuid (w : unit) : pystr * unit := (py "session-1", w).
Definition fixed_now (w : unit) : pystr * unit := (py "2024-01-01T00:00:00", w).
Definition no_save (sessions : gmap pystr Session) (w : unit) : unit := w.
Definition no_exn_str (e : exn) : pystr := [].

(** An anonymous session without turns, and a state that holds it. *)
Definition fresh_session : Session :=
  {| s_id := py "session-1"; s_user_id := None; s_title := None;
     s_messages := []; s_created_at := py "2024-01-01T00:00:00";
     s_updated_at := None |}.

Definition fresh_state : @State unit :=
  {| model_name := py "good-model";
     chat_sessions := ∅;
     anonymous_sessions := {[ py "session-1" := fresh_session ]};
     world := tt |}.



(** * The rest of the program *)

(** The answer of a route: its JSON payload, or an error with the HTTP
    status. *)
Inductive reply (A : Type) :=
| Success (a : A)
| Failure (error : pystr) (status : Z).
Arguments Success {A} a.
Arguments Failure {A} error status.

(** The payload of [/health]. *)
Record HealthReport := {
  h_status : pystr;
  h_lm_studio : pystr;
  h_saved_chats : nat;
  h_anonymous_chats : nat;
  h_ocr : bool;
  h_model : pystr
}.

Section Management.
Context {World : Type}.
(** [str(uuid.uuid4())] *)
Variable uuid4 : World -> pystr * World.
(** [datetime.now().isoformat()] *)
Variable now_isoformat : World -> pystr * World.
(** [save_chat_sessions] *)
Variable save_chat_sessions : gmap pystr Session -> World -> World.
(** [str(e)] *)
Variable exn_str : exn -> pystr.

Notation "x <- m ;; k" := (bind m (fun x => k))
  (at level 100, m at next level, k at level 200, right associativity).

(** The call [save_chat_sessions()]. *)
Definition save : @M World unit :=
  st <- get_state ;;
  io (fun w => (tt, save_chat_sessions (chat_sessions st) w)).

(** The route [/api/new-chat]. *)
Definition new_chat (user_id : option pystr) : @M World (reply pystr) :=
  try_except
    (if negb (logged_in user_id)
     then ret (Failure (py "Authentication required to save chats") 401)
     else
       chat_id <- io uuid4 ;;
       created_at <- io now_isoformat ;;
       updated_at <- io now_isoformat ;;
       _ <- modify (fun st =>
              set_chat_sessions
                (<[chat_id := {| s_id := chat_id;
                                 s_user_id := user_id;
                                 s_title := Some (py "New chat");
                                 s_messages := [];
                                 s_created_at := created_at;
                                 s_updated_at := Some updated_at |}]>
                   (chat_sessions st)) st) ;;
       _ <- save ;;
       ret (Success chat_id))
    any_exception (fun e => ret (Failure (exn_str e) 500)).

(** The route [GET /api/chats/<chat_id>]. *)
Definition get_chat (chat_id : pystr) (user_id : option pystr)
  : @M World (reply Session) :=
  try_except
    (if negb (logged_in user_id)
     then ret (Failure (py "User ID required") 401)
     else
       st <- get_state ;;
       match chat_sessions st !! chat_id with
       | None => ret (Failure (py "Chat not found") 404)
       | Some chat =>
           if decide (s_user_id chat = user_id)
           then ret (Success chat)
           else ret (Failure (py "Access denied") 403)
       end)
    any_exception (fun e => ret (Failure (exn_str e) 500)).

(** The route [DELETE /api/chats/<chat_id>]. *)
Definition delete_chat (chat_id : pystr) (user_id : option pystr)
  : @M World (reply unit) :=
  try_except
    (if negb (logged_in user_id)
     then ret (Failure (py "User ID required") 401)
     else
       st <- get_state ;;
       match chat_sessions st !! chat_id with
       | Some chat =>
           if decide (s_user_id chat = user_id)
           then
             _ <- modify (fun st =>
                    set_chat_sessions (delete chat_id (chat_sessions st)) st) ;;
             _ <- save ;;
             ret (Success tt)
           else ret (Failure (py "Access denied") 403)
       | None => ret (Success tt)
       end)
    any_exception (fun e => ret (Failure (exn_str e) 500)).

End Management.

Section Health.
Context {World float : Type}.
Variable lower_ext : pystr -> char -> pystr -> pystr.
Variable lm_studio_url : pystr.
Variable requests_post :
  pystr -> Payload float -> Z -> World -> result Response * World.
Variable py_repr : json -> pystr.
Variable json_error_is_request_exception : bool.
(** The literal [0.0]. *)
Variable temperature_0_0 : float.
(** [str(e)] *)
Variable exn_str : exn -> pystr.
(** [bot.doc_processor.ocr_available], set when the chatbot is made. *)
Variable ocr_available : bool.

Notation "x <- m ;; k" := (bind m (fun x => k))
  (at level 100, m at next level, k at level 200, right associativity).

Definition health_messages : list ChatMessage :=
  [ {| role := py "system"; content := py "You are a helpful assistant." |};
    {| role := py "user"; content := py "Reply with just 'OK'" |} ].

(** The route [/health]. *)
Definition health : @M World (reply HealthReport) :=
  try_except
    (lm_status <-
       try_except
         (test_response <-
            query_lm_studio lower_ext lm_studio_url requests_post py_repr
                            json_error_is_request_exception
                            health_messages temperature_0_0 (-1) ;;
          ret (if contains (py "ok") (lower lower_ext test_response)
               then py "ok" else py "degraded"))
         any_exception (fun e => ret (py "error: " ++ exn_str e)) ;;
     st <- get_state ;;
     ret (Success
            {| h_status := if str_eqb lm_status (py "ok")
                           then py "ok" else py "degraded";
               h_lm_studio := lm_status;
               h_saved_chats := size (chat_sessions st);
               h_anonymous_chats := size (anonymous_sessions st);
               h_ocr := ocr_available;
               h_model := model_name st |}))
    any_exception (fun e => ret (Failure (exn_str e) 500)).

End Health.

(** ** Document processor *)

(** The dict that the document processor returns: the text with the
    number of pages (of a PDF) and the method, or an error. *)
Inductive DocResult :=
| DocText (text : pystr) (pages : option nat) (method : pystr)
| DocError (error : pystr).

(** [str(n)] for an integer. *)
Definition str_of_Z (n : Z) : pystr :=
  if (n <? 0)%Z then py "-" ++ str_of_nat (Z.to_nat (- n))
  else str_of_nat (Z.to_nat n).

(** The text gathered from the pages of a PDF: a header and the text
    for every page that has some, the pages counted from [idx]. *)
Fixpoint page_blocks (idx : nat) (page_texts : list pystr) : pystr :=
  match page_texts with
  | [] => []
  | page_text :: rest =>
      (match page_text with
       | [] => []
       | _ :: _ =>
           nl ++ py "--- Page " ++ str_of_nat idx ++ py " ---" ++ nl ++ page_text
       end) ++ page_blocks (S idx) rest
  end.

(** The text gathered by OCR: a header and the text for every page. *)
Fixpoint ocr_blocks (idx : nat) (page_texts : list pystr) : pystr :=
  match page_texts with
  | [] => []
  | page_text :: rest =>
      (nl ++ py "--- Page " ++ str_of_nat idx ++ py " (OCR) ---" ++ nl ++ page_text)
      ++ ocr_blocks (S idx) rest
  end.

Definition poppler_paths : list pystr :=
  List.map py
    ["C:\Program Files\poppler\Library\bin";
     "C:\poppler\Library\bin";
     "C:\Program Files (x86)\poppler\bin"]%string.

Definition poppler_not_found : pystr :=
  py "[OCR Error: Poppler not found. Please install poppler-utils for PDF OCR. See: https://github.com/oschwartz10612/poppler-windows/releases/]".

Definition image_types : list pystr :=
  List.map py ["image"; "jpg"; "jpeg"; "png"; "gif"; "bmp"]%string.

Section Documents.
Context {World Image : Type}.
(** [self.ocr_available], set when the processor is made. *)
Variable ocr_available : bool.
(** The texts of the pages of a PDF file, as [PyPDF2] extracts them. *)
Variable read_pdf_pages : pystr -> World -> result (list pystr) * World.
(** [pdf2image.convert_from_path(file_path, dpi=200)], with a
    [poppler_path] when one is given. *)
Variable convert_from_path :
  pystr -> option pystr -> World -> result (list Image) * World.
(** [os.path.exists] *)
Variable path_exists : pystr -> World -> bool * World.
(** [pytesseract.image_to_string] *)
Variable image_to_string : Image -> World -> result pystr * World.
(** [Image.open(file_path)], converted to RGB when it is not. *)
Variable open_image : pystr -> World -> result Image * World.
(** [str(e)] *)
Variable exn_str : exn -> pystr.

Notation "x <- m ;; k" := (bind m (fun x => k))
  (at level 100, m at next level, k at level 200, right associativity).

(** The loop of [ocr_pdf] over the usual places of poppler: the images
    made with the first place that is there and works. *)
Fixpoint find_poppler (file_path : pystr) (paths : list pystr)
  : @M World (option (list Image)) :=
  match paths with
  | [] => ret None
  | poppler_path :: rest =>
      there <- io (path_exists poppler_path) ;;
      if there : bool then
        found <- try_except
                   (images <- bind (io (convert_from_path file_path
                                          (Some poppler_path))) lift ;;
                    ret (Some images))
                   any_exception (fun _ => ret None) ;;
        match found with
        | Some images => ret (Some images)
        | None => find_poppler file_path rest
        end
      else find_poppler file_path rest
  end.

(** [DocumentProcessor.ocr_pdf] *)
Definition ocr_pdf (file_path : pystr) (max_pages : Z) : @M World pystr :=
  try_except
    (images <-
       try_except
         (images <- bind (io (convert_from_path file_path None)) lift ;;
          ret (Some images))
         any_exception (fun _ => find_poppler file_path poppler_paths) ;;
     match images with
     | None => ret poppler_not_found
     | Some images =>
         page_texts <-
           for_each (fun image => bind (io (image_to_string image)) lift)
                    (slice_to max_pages images) ;;
         let text := ocr_blocks 1 page_texts in
         if (max_pages <? Z.of_nat (length images))%Z
         then ret (text ++ nl ++ nl ++ py "[Note: Only processed first "
                   ++ str_of_Z max_pages ++ py " pages of "
                   ++ str_of_nat (length images) ++ py " total pages]")
         else ret text
     end)
    any_exception (fun e => ret (py "[OCR Error: " ++ exn_str e ++ py "]")).

(** [DocumentProcessor.extract_text_from_pdf] *)
Definition extract_text_from_pdf (file_path : pystr) : @M World DocResult :=
  try_except
    (page_texts <- bind (io (read_pdf_pages file_path)) lift ;;
     let pages := length page_texts in
     let text := page_blocks 1 page_texts in
     text <- (if negb (nonempty (strip text)) && ocr_available
              then ocr_pdf file_path 10
              else ret text) ;;
     ret (DocText (strip text) (Some pages)
            (if nonempty (strip text) && negb ocr_available
             then py "direct" else py "ocr")))
    any_exception (fun e => ret (DocError (exn_str e))).

(** [DocumentProcessor.extract_text_from_image] *)
Definition extract_text_from_image (file_path : pystr) : @M World DocResult :=
  try_except
    (if negb ocr_available
     then ret (DocError (py "OCR is not available. Please install Tesseract."))
     else
       image <- bind (io (open_image file_path)) lift ;;
       text <- bind (io (image_to_string image)) lift ;;
       ret (DocText (strip text) None (py "ocr")))
    any_exception (fun e => ret (DocError (exn_str e))).

(** [DocumentProcessor.process_file] *)
Definition process_file (file_path file_type : pystr) : @M World DocResult :=
  if str_eqb file_type (py "pdf") then extract_text_from_pdf file_path
  else if existsb (str_eqb file_type) image_types
  then extract_text_from_image file_path
  else ret (DocError (py "Unsupported file type: " ++ file_type)).

End Documents.

(** ** The upload route *)

(** The answer of [/api/upload]. *)
Inductive UploadReply :=
| Uploaded (file_id file_name file_type text method : pystr) (pages : option nat)
| UploadFailure (error : pystr) (status : Z).

Definition allowed_extensions : list pystr :=
  List.map py ["pdf"; "jpg"; "jpeg"; "png"; "gif"; "bmp"]%string.

(** The text before the first [sep] of a text, and the text after it. *)
Fixpoint break_at (sep : char) (s : pystr) : option (pystr * pystr) :=
  match s with
  | [] => None
  | c :: r =>
      if c =? sep then Some ([], r)
      else match break_at sep r with
           | Some (before, after) => Some (c :: before, after)
           | None => None
           end
  end.

(** [s.rsplit(sep, 1)] for a separator of one character, when [sep] is
    in [s]: the text before the last [sep] and the text after it. *)
Definition rsplit_once (sep : char) (s : pystr) : option (pystr * pystr) :=
  match break_at sep (rev s) with
  | Some (after, before) => Some (rev before, rev after)
  | None => None
  end.

Section Upload.
Context {World Image : Type}.
Variable lower_ext : pystr -> char -> pystr -> pystr.
Variable ocr_available : bool.
Variable read_pdf_pages : pystr -> World -> result (list pystr) * World.
Variable convert_from_path :
  pystr -> option pystr -> World -> result (list Image) * World.
Variable path_exists : pystr -> World -> bool * World.
Variable image_to_string : Image -> World -> result pystr * World.
Variable open_image : pystr -> World -> result Image * World.
(** [str(uuid.uuid4())] *)
Variable uuid4 : World -> pystr * World.
(** [os.path.join] *)
Variable path_join : pystr -> pystr -> pystr.
(** [file.save(file_path)] for the uploaded file. *)
Variable file_save : pystr -> World -> result unit * World.
(** [os.remove(file_path)], whose failure is passed over. *)
Variable os_remove : pystr -> World -> unit * World.
(** [str(e)] *)
Variable exn_str : exn -> pystr.

Notation "x <- m ;; k" := (bind m (fun x => k))
  (at level 100, m at next level, k at level 200, right associativity).

(** [file.filename.rsplit('.', 1)[1].lower() if '.' in file.filename
    else ''] *)
Definition file_extension (filename : pystr) : pystr :=
  match rsplit_once 46 filename with
  | Some (_, ext) => lower lower_ext ext
  | None => []
  end.

(** The route [/api/upload]; [file] is the name of the file of the
    request, when it has one. *)
Definition upload_file (file : option pystr) : @M World UploadReply :=
  try_except
    (match file with
     | None => ret (UploadFailure (py "No file provided") 400)
     | Some [] => ret (UploadFailure (py "No file selected") 400)
     | Some filename =>
         let file_ext := file_extension filename in
         if negb (existsb (str_eqb file_ext) allowed_extensions)
         then ret (UploadFailure
                     (py "Unsupported file type. Allowed: "
                      ++ join (py ", ") allowed_extensions) 400)
         else
           file_id <- io uuid4 ;;
           let file_path :=
             path_join (py "uploads") (file_id ++ py "." ++ file_ext) in
           _ <- bind (io (file_save file_path)) lift ;;
           let file_type :=
             if str_eqb file_ext (py "pdf") then py "pdf" else py "image" in
           result <- process_file ocr_available read_pdf_pages convert_from_path
                                  path_exists image_to_string open_image exn_str
                                  file_path file_type ;;
           _ <- io (os_remove file_path) ;;
           match result with
           | DocText text pages method =>
               ret (Uploaded file_id filename file_type text method pages)
           | DocError error => ret (UploadFailure error 500)
           end
     end)
    any_exception (fun e => ret (UploadFailure (exn_str e) 500)).

End Upload.

(** * Further definitions of the specification *)

(** A search result as the Brave parser lets it through: it has a title
    and a URL, and the URL is no script link. *)
Definition wellformed_result (r : SearchResult) : Prop :=
  sr_title r <> [] /\ sr_url r <> []
  /\ startswith (py "javascript:") (sr_url r) = false.

(** The keywords for which [search_google] makes up a result. *)
Definition synthetic_keywords : list pystr :=
  List.map py ["time"; "date"; "current"; "today"; "now"]%string.

Section SpecOffline.
Context {World : Type}.
Variable session_get : pystr -> World -> result Response * World.

(** No request gets through. *)
Definition offline : Prop :=
  forall url w, exists e w', session_get url w = (Raise e, w').
End SpecOffline.

(** A network on which every request fails. *)
Definition dead_get (url : pystr) (w : unit) : result Response * unit :=
  (Raise (RequestException (py "unreachable")), w).

(** A text without U+FFFD and without code points from 0x10000 on. *)
Definition sanitary (t : pystr) : Prop :=
  Forall (fun c => c <> 65533 /\ c < 65536) t.

(** The body of an error answer as the streaming client prints it. *)
Definition error_body (resp : Response) : json :=
  match resp_json resp with
  | Some body => body
  | None => JStr (resp_text resp)
  end.

Definition stream_error_prefix : pystr := py "[ERROR] Error querying LM Studio: ".

(** The note that [ocr_pdf] adds when it leaves pages out. *)
Definition pages_note (max_pages : Z) (total : nat) : pystr :=
  nl ++ nl ++ py "[Note: Only processed first " ++ str_of_Z max_pages
  ++ py " pages of " ++ str_of_nat total ++ py " total pages]".


(** A model server that refuses every connection. *)
Definition refused_post (url : pystr) (payload : Payload unit)
           (timeout : Z) (w : unit) : result Response * unit :=
  (Raise (RequestException (py "Connection refused")), w).

(** A computation that leaves the store of the other kind of user as it
    is: the anonymous sessions for a logged-in user, the saved ones for
    an anonymous user. *)
Definition keeps_other {World A : Type} (is_logged_in : bool) (m : @M World A)
  : Prop :=
  forall st,
    sessions_of (negb is_logged_in) (snd (m st)) = sessions_of (negb is_logged_in) st.

(** The request names a saved chat of another owner. *)
Definition foreign_chat {World : Type} (data : ChatRequest) (st : @State World)
  : Prop :=
  logged_in (rq_user_id data) = true
  /\ exists chat_id session,
      rq_chat_id data = Some chat_id
      /\ chat_id <> []
      /\ chat_sessions st !! chat_id = Some session
      /\ s_user_id session <> rq_user_id data.

(** A saved chat of the user "alice", a state that holds it, and
    requests of "bob" and of "alice" that name it. *)
Definition alice_session : Session :=
  {| s_id := py "chat-a"; s_user_id := Some (py "alice");
     s_title := Some (py "New chat"); s_messages := [];
     s_created_at := py "2024-01-01T00:00:00";
     s_updated_at := Some (py "2024-01-01T00:00:00") |}.

Definition alice_state : @State unit :=
  {| model_name := py "good-model";
     chat_sessions := {[ py "chat-a" := alice_session ]};
     anonymous_sessions := ∅;
     world := tt |}.

Definition bob_request : ChatRequest :=
  {| rq_chat_id := Some (py "chat-a"); rq_message := py "hello";
     rq_user_id := Some (py "bob"); rq_document_context := None |}.

Definition alice_request : ChatRequest :=
  {| rq_chat_id := Some (py "chat-a"); rq_message := py "hello";
     rq_user_id := Some (py "alice"); rq_document_context := None |}.

(** The id of the session that a chat request works on: the one it
    names when that is in the store of its kind, else a fresh one. *)
Definition session_id_of {World : Type} (uuid4 : World -> pystr * World)
           (data : ChatRequest) (st : @State World) : pystr :=
  if needs_new_session (rq_chat_id data)
                       (sessions_of (logged_in (rq_user_id data)) st)
  then fst (uuid4 (world st))
  else or_empty (rq_chat_id data).

(** A computation that leaves every session but [chat_id] as it is, in
    the store of the given kind. *)
Definition touches_only {World A : Type} (is_logged_in : bool) (chat_id : pystr)
           (m : @M World A) : Prop :=
  forall st other,
    other <> chat_id ->
    sessions_of is_logged_in (snd (m st)) !! other
    = sessions_of is_logged_in st !! other.

(** A disk that takes and drops every file, a PDF reader that finds two
    pages of text in every file, and an OCR that is never asked. *)
Definition slash_join (folder name : pystr) : pystr := folder ++ py "/" ++ name.
Definition saved_ok (file_path : pystr) (w : unit) : result unit * unit := (Ok tt, w).
Definition removed_ok (file_path : pystr) (w : unit) : unit * unit := (tt, w).
Definition two_page_pdf (file_path : pystr) (w : unit)
  : result (list pystr) * unit :=
  (Ok [py "first"; py "second"], w).
Definition no_conversion (file_path : pystr) (poppler_path : option pystr)
           (w : unit) : result (list unit) * unit :=
  (Ok [], w).
Definition no_path (path : pystr) (w : unit) : bool * unit := (false, w).
Definition blank_ocr (image : unit) (w : unit) : result pystr * unit := (Ok [], w).
Definition unit_image (file_path : pystr) (w : unit) : result unit * unit :=
  (Ok tt, w).
(** * Properties *)

(** ** Strings *)

(** The string operations on some inputs, as Python evaluates them. *)

Example splitlines_crlf :
  splitlines (py "a" ++ [13; 10] ++ py "b" ++ [10] ++ [10] ++ py "c" ++ [13])
  = [py "a"; py "b"; []; py "c"].
Proof. reflexivity. Qed.

Example split_double_space :
  split (py "  ") (py "a   b  ") = [py "a"; py " b"; []].
Proof. reflexivity. Qed.

Example split_once_marker :
  split_once (py "Your models:") (py "no. Your models: a Your models: b")
  = Some (py "no. ", py " a Your models: b").
Proof. reflexivity. Qed.

Example replace_overlapping : replace (py "aa") [] (py "aaab aa") = py "ab ".
Proof. reflexivity. Qed.

Example strip_both_ends : strip ([9] ++ py "  a b " ++ [10]) = py "a b".
Proof. reflexivity. Qed.

Example slice_to_negative : slice_to (-2) (py "abcde") = py "abc".
Proof. reflexivity. Qed.

Example lower_ascii :
  lower no_ext (py "What TIME is it?") = py "what time is it?".
Proof. reflexivity. Qed.

Example flatten_text_page :
  flatten_text ([10] ++ py "  Title  " ++ [10; 10] ++ py "one  two   three" ++ [10])
  = py "Title one two three".
Proof. reflexivity. Qed.

Lemma char_eqb_eq (a b : char) : char_eqb a b = true <-> a = b.
Proof. unfold char_eqb. apply N.eqb_eq. Qed.

Lemma str_eqb_eq (a b : pystr) : str_eqb a b = true <-> a = b.
Proof.
  revert b. induction a as [|x a IH]; intros [|y b]; simpl; try easy.
  rewrite andb_true_iff, char_eqb_eq, IH. split.
  - intros [-> ->]. reflexivity.
  - intros [= -> ->]. easy.
Qed.

(** Removing a one-character text is filtering that character out. *)
Lemma replace_char_filter (c : char) (s : pystr) :
  replace [c] [] s = List.filter (fun x => negb (x =? c)) s.
Proof.
  unfold replace. induction s as [|x s IH]; simpl; [reflexivity|].
  unfold char_eqb. rewrite andb_true_r, (N.eqb_sym c x).
  destruct (x =? c); simpl; rewrite IH; reflexivity.
Qed.

Lemma filter_filter_and {A} (f g : A -> bool) (l : list A) :
  List.filter f (List.filter g l) = List.filter (fun x => g x && f x) l.
Proof.
  induction l as [|x l IH]; simpl; [reflexivity|].
  destruct (g x); simpl; [destruct (f x)|]; rewrite IH; reflexivity.
Qed.

Lemma filter_idem {A} (f : A -> bool) (l : list A) :
  List.filter f (List.filter f l) = List.filter f l.
Proof.
  rewrite filter_filter_and. apply List.filter_ext. intros x. destruct (f x); reflexivity.
Qed.

(** ** Text sanitizer *)

Lemma clean_text_filter (x : pystr) : clean_text x = List.filter kept x.
Proof.
  destruct x as [|c x]; [reflexivity|].
  unfold clean_text. rewrite replace_char_filter, filter_filter_and. reflexivity.
Qed.

(** C8. For every string [x], [clean_text x] is [x] without its U+FFFD
    characters and without its code points from 0x10000 on, the other
    characters staying in their order; so it holds no U+FFFD and no code
    point from 0x10000 on, cleaning twice is cleaning once, and
    [clean_text] of [a], U+FFFD, [b] is [ab]. *)
Theorem clean_text_sanitizes :
  (forall x : pystr,
      clean_text x = List.filter kept x
      /\ ~ In 65533 (clean_text x)
      /\ (forall c, In c (clean_text x) -> c < 65536)
      /\ clean_text (clean_text x) = clean_text x)
  /\ clean_text (py "a" ++ [65533] ++ py "b") = py "ab".
Proof.
  split; [|reflexivity].
  intros x. rewrite !clean_text_filter. repeat split.
  - rewrite List.filter_In. unfold kept. intros [_ H]. rewrite N.eqb_refl in H. discriminate.
  - intros c. rewrite List.filter_In. unfold kept.
    intros [_ H]. apply andb_true_iff in H as [_ H]. now apply N.ltb_lt.
  - apply filter_idem.
Qed.

Lemma clean_text_sanitizes_witness :
  In 97 (clean_text (py "a" ++ [65533; 70000])) /\ 97 < 65536.
Proof.
  destruct clean_text_sanitizes as [H _].
  destruct (H (py "a" ++ [65533; 70000])) as (_ & _ & Hlt & _).
  assert (Hin : In 97 (clean_text (py "a" ++ [65533; 70000]))) by (left; reflexivity).
  split; [exact Hin|exact (Hlt 97 Hin)].
Defined.

(** ** Augmentation trigger *)

Lemma any_in_true (keywords : list pystr) (s : pystr) :
  any_in keywords s = true <->
  exists keyword, In keyword keywords /\ contains keyword s = true.
Proof. unfold any_in. apply existsb_exists. Qed.

Section TriggerProperties.
Variable lower_ext : pystr -> char -> pystr -> pystr.
Local Abbreviation lower := (PyStr.lower lower_ext).

Lemma should_search_web_iff (query : pystr) :
  should_search_web lower_ext query = true <->
  (exists k, In k time_date_keywords /\ contains k (lower query) = true)
  \/ (exists k, In k institution_terms /\ contains k (lower query) = true)
  \/ (exists k, In k search_indicators /\ contains k (lower query) = true).
Proof.
  rewrite <- !any_in_true. unfold should_search_web.
  destruct (any_in time_date_keywords _); [tauto|].
  destruct (any_in institution_terms _); [tauto|].
  split; [tauto|]. now intros [?|[?|?]].
Qed.

(** C2. [should_search_web] is a function of the lower-cased query
    alone: it is true exactly when the lower-cased query contains a
    time or date keyword, an institutional keyword, or one of the
    wider indicators; two queries that lower-case to the same text get
    the same answer.  The three lists are the ones written out below;
    the indicators hold every one that the specification names.  It is
    true of "What TIME is it?" and of "latest news", and false of "tell
    me a joke" and of "what's the weather in Paris". *)
Theorem should_search_web_spec :
  (forall query,
      should_search_web lower_ext query = true <->
      (exists k, In k time_date_keywords /\ contains k (lower query) = true)
      \/ (exists k, In k institution_terms /\ contains k (lower query) = true)
      \/ (exists k, In k search_indicators /\ contains k (lower query) = true))
  /\ (forall q1 q2, lower q1 = lower q2 ->
                    should_search_web lower_ext q1 = should_search_web lower_ext q2)
  /\ time_date_keywords
     = List.map py ["time"; "date"; "today"; "now"; "right now";
                    "currently"; "what time"]%string
  /\ institution_terms
     = List.map py ["university"; "college"; "school"; "courses";
                    "programs"]%string
  /\ should_search_web lower_ext (py "What TIME is it?") = true
  /\ should_search_web lower_ext (py "tell me a joke") = false
  /\ search_indicators
     = List.map py ["latest"; "current"; "recent"; "today"; "news"; "courses at";
                    "programs at"; "what are the"; "list"; "find"; "search";
                    "website"; "url"; "information about"; "details about";
                    "time"; "date"; "now"; "right now"; "currently";
                    "what is the date"; "what is the time";
                    "what time is it"]%string
  /\ (forall k,
         In k (List.map py ["latest"; "current"; "recent"; "news"; "list"; "find";
                            "search"; "website"; "url"; "information about";
                            "details about"]%string) ->
         In k search_indicators)
  /\ should_search_web lower_ext (py "latest news") = true
  /\ should_search_web lower_ext (py "what's the weather in Paris") = false.
Proof.
  split; [exact should_search_web_iff|].
  split.
  { intros q1 q2 H. unfold should_search_web. rewrite H. reflexivity. }
  repeat (split; [reflexivity|]).
  split; [|split; reflexivity].
  intros k Hk. simpl in Hk.
  repeat (destruct Hk as [<-|Hk]; [simpl; tauto|]). contradiction.
Qed.
End TriggerProperties.

Lemma should_search_web_spec_witness :
  should_search_web no_ext (py "What TIME is it?")
  = should_search_web no_ext (py "what time is it?").
Proof.
  destruct (should_search_web_spec no_ext) as (_ & H & _).
  apply H. reflexivity.
Defined.

(** ** Query rewriting *)

Section RewriteProperties.
Variable lower_ext : pystr -> char -> pystr -> pystr.
Local Abbreviation lower := (PyStr.lower lower_ext).

Local Abbreviation settled := (settled lower_ext).

Lemma ascii_lower_settled (c : char) : c < 128 -> settled (ascii_lower c).
Proof.
  intros Hc before after. unfold lower_char, ascii_lower, is_ascii_upper.
  repeat (match goal with
          | |- context [?a <=? ?b] => destruct (N.leb_spec a b)
          | |- context [?a <? ?b] => destruct (N.ltb_spec a b)
          end; simpl);
    first [reflexivity | exfalso; lia].
Qed.

Lemma lower_from_settled (s : pystr) :
  Forall settled s -> forall before, lower_from lower_ext before s = s.
Proof.
  induction 1 as [|c s Hc _ IH]; intros before; simpl; [reflexivity|].
  rewrite Hc, IH. reflexivity.
Qed.

Lemma replace_from_Forall (P : char -> Prop) (old : pystr) (s : pystr) :
  Forall P s -> forall skip, Forall P (replace_from old [] skip s).
Proof.
  induction 1 as [|c s Hc Hs IH]; intros skip; simpl; [constructor|].
  destruct skip; [|apply IH].
  destruct (startswith old (c :: s)); simpl; [apply IH|].
  constructor; [exact Hc|apply IH].
Qed.

Lemma remove_Forall (P : char -> Prop) (old s : pystr) :
  Forall P s -> Forall P (replace old [] s).
Proof.
  intros H. destruct old as [|o old]; simpl.
  - induction H; simpl; [constructor|]. constructor; assumption.
  - now apply replace_from_Forall.
Qed.

Lemma lower_from_all_settled (s before : pystr) :
  lower_settled lower_ext -> Forall settled (lower_from lower_ext before s).
Proof.
  intros settled_table.
  revert before. induction s as [|c s IH]; intros before; simpl; [constructor|].
  apply Forall_app. split; [|apply IH].
  unfold lower_char. destruct (c <? 128) eqn:Hc.
  - constructor; [|constructor]. apply ascii_lower_settled. now apply N.ltb_lt.
  - apply Forall_forall. intros d Hd b a.
    apply (settled_table before c s d b a); [now apply N.ltb_ge|].
    now apply list_elem_of_In.
Qed.

(** The table has no say in the lower case of an ASCII text. *)
Lemma lower_from_ascii_settled (s before : pystr) :
  Forall (fun c => c < 128) s -> Forall settled (lower_from lower_ext before s).
Proof.
  intros Hs. revert before.
  induction Hs as [|c s Hc _ IH]; intros before; simpl; [constructor|].
  unfold lower_char. apply N.ltb_lt in Hc as Hlt. rewrite Hlt. simpl.
  constructor; [now apply ascii_lower_settled|apply IH].
Qed.

(** Lower-casing before every removal is lower-casing once. *)
Lemma relower_remove (phrases : list pystr) (s : pystr) :
  Forall settled s ->
  fold_left (fun acc word => replace word [] (lower acc)) phrases s
  = remove_phrases phrases s.
Proof.
  unfold remove_phrases. revert s.
  induction phrases as [|w ws IH]; intros s Hs; simpl; [reflexivity|].
  unfold PyStr.lower at 2. rewrite (lower_from_settled s Hs).
  apply IH. now apply remove_Forall.
Qed.

Lemma relower_first (phrases : list pystr) (w query : pystr) :
  Forall settled (lower query) ->
  fold_left (fun acc word => replace word [] (lower acc)) (w :: phrases) query
  = remove_phrases (w :: phrases) (lower query).
Proof.
  intros Hq. unfold remove_phrases. cbn [fold_left].
  apply relower_remove. now apply remove_Forall.
Qed.

Lemma extract_search_query_rewritten (query : pystr) :
  Forall settled (lower query) ->
  extract_search_query lower_ext query = rewritten_query lower_ext query.
Proof.
  intros Hq. unfold extract_search_query, rewritten_query.
  destruct (contains (py "time") _ && contains (py "india") _); [reflexivity|].
  destruct (contains (py "date") _ && contains (py "india") _); [reflexivity|].
  destruct (contains (py "time") _ || contains (py "date") _); [reflexivity|].
  f_equal. exact (relower_first (tl question_words) (py "what are") query Hq).
Qed.
End RewriteProperties.

(** C3. For every query, [extract_search_query] returns "current time
    in India IST" when the lower-cased query contains "time" and
    "india"; else "current date in India" when it contains "date" and
    "india"; else "current time and date" when it contains "time" or
    "date"; "what time is it in india" gives "current time in India
    IST".  Otherwise it returns the query with the eight phrases removed
    wherever they stand, one phrase after the other in the order of the
    list, the text being lower-cased before every removal, and stripped
    at the end.  That is the lower-cased query with the phrases removed
    and stripped, for an ASCII query and, given that lower-cased text
    stays as it is when lower-cased again, for every query. *)
Theorem extract_search_query_spec
        (lower_ext : pystr -> char -> pystr -> pystr) :
  (forall query,
      let q := lower lower_ext query in
      (contains (py "time") q && contains (py "india") q = true ->
       extract_search_query lower_ext query = py "current time in India IST")
      /\ (contains (py "time") q && contains (py "india") q = false ->
          contains (py "date") q && contains (py "india") q = true ->
          extract_search_query lower_ext query = py "current date in India")
      /\ (contains (py "time") q && contains (py "india") q = false ->
          contains (py "date") q && contains (py "india") q = false ->
          contains (py "time") q || contains (py "date") q = true ->
          extract_search_query lower_ext query = py "current time and date")
      /\ (contains (py "time") q || contains (py "date") q = false ->
          extract_search_query lower_ext query
          = strip (fold_left
                     (fun text phrase => replace phrase [] (lower lower_ext text))
                     question_words query)))
  /\ extract_search_query lower_ext (py "what time is it in india")
     = py "current time in India IST"
  /\ question_words
     = List.map py ["what are"; "tell me"; "show me"; "can you"; "please";
                    "find"; "what is"; "what's"]%string
  /\ (forall query,
        lower_settled lower_ext \/ Forall (fun c => c < 128) query ->
        extract_search_query lower_ext query = rewritten_query lower_ext query
        /\ (contains (py "time") (lower lower_ext query)
            || contains (py "date") (lower lower_ext query) = false ->
            extract_search_query lower_ext query
            = strip (remove_phrases question_words (lower lower_ext query)))).
Proof.
  split; [|split; [reflexivity|split; [reflexivity|]]].
  - intros query q. unfold extract_search_query. fold q.
    repeat split.
    + intros ->. reflexivity.
    + intros -> ->. reflexivity.
    + intros -> -> ->. reflexivity.
    + intros Hno. apply orb_false_iff in Hno as [Ht Hd]. rewrite Ht, Hd.
      reflexivity.
  - intros query Hq.
    assert (H : extract_search_query lower_ext query
                = rewritten_query lower_ext query).
    { apply extract_search_query_rewritten. destruct Hq as [Htable|Hascii].
      - now apply lower_from_all_settled.
      - now apply lower_from_ascii_settled. }
    split; [exact H|].
    intros Hno. rewrite H. unfold rewritten_query.
    apply orb_false_iff in Hno as [Ht Hd]. rewrite Ht, Hd. reflexivity.
Qed.

Lemma no_ext_settled : lower_settled no_ext.
Proof.
  intros before c after d before' after' Hc [<-|[]].
  unfold lower_char. apply N.ltb_ge in Hc. rewrite Hc. reflexivity.
Qed.

Lemma extract_search_query_spec_witness :
  lower_settled no_ext
  /\ extract_search_query no_ext (py " Please FIND me the Rocq manual ")
     = py "me the rocq manual".
Proof.
  split; [exact no_ext_settled|].
  destruct (extract_search_query_spec no_ext) as (_ & _ & _ & H).
  destruct (H (py " Please FIND me the Rocq manual ") (or_introl no_ext_settled))
    as [_ ->]; reflexivity.
Defined.

(** ** Scraper and search orchestrator *)

Lemma truncate_length (max_chars : Z) (text : pystr) :
  (0 <= max_chars)%Z ->
  (Z.of_nat (length (truncate max_chars text)) <= max_chars + 3)%Z.
Proof.
  intros Hmax. unfold truncate, slice_to.
  destruct (Z.ltb_spec max_chars (Z.of_nat (length text))) as [Hlt|Hge]; [|lia].
  destruct (Z.leb_spec 0 max_chars) as [_|?]; [|lia].
  rewrite length_app, length_take. change (length (py "...")) with 3%nat. lia.
Qed.

Lemma truncate_marker (max_chars : Z) (text : pystr) :
  (max_chars < Z.of_nat (length text))%Z ->
  ends_with_marker (truncate max_chars text).
Proof.
  intros Hlt. unfold truncate.
  apply Z.ltb_lt in Hlt. rewrite Hlt. eexists. reflexivity.
Qed.

Section ScraperProperties.
Context {World : Type}.
Variable lower_ext : pystr -> char -> pystr -> pystr.
Variable session_get : pystr -> World -> result Response * World.
Variable brave_cards : pystr -> list BraveCard.
Variable bing_items : pystr -> list BingItem.
Variable google_items : pystr -> list GoogleItem.
Variable visible_text : pystr -> result pystr.

Local Abbreviation State := (@State World).
Local Abbreviation scrape_url := (scrape_url session_get visible_text).
Local Abbreviation search_google :=
  (search_google lower_ext session_get brave_cards bing_items google_items).
Local Abbreviation scrape_result := (scrape_result session_get visible_text).
Local Abbreviation search_and_scrape :=
  (search_and_scrape lower_ext session_get brave_cards bing_items
                     google_items visible_text).

(** What [scrape_url] does, by the answer of the network. *)
Lemma scrape_url_run (url : pystr) (max_chars : Z) (st : State) :
  scrape_url url max_chars st =
  match session_get url (world st) with
  | (Ok response, w) =>
      if (status_code response =? 200)%Z then
        match visible_text (resp_text response) with
        | Ok text => (Ok (Some (truncate max_chars (flatten_text text))), set_world w st)
        | Raise _ => (Ok None, set_world w st)
        end
      else (Ok None, set_world w st)
  | (Raise _, w) => (Ok None, set_world w st)
  end.
Proof.
  unfold scrape_url, try_except, bind, io, lift, ret.
  destruct (session_get url (world st)) as [[response|e] w]; simpl; [|reflexivity].
  destruct (status_code response =? 200)%Z; simpl; [|reflexivity].
  destruct (visible_text (resp_text response)); reflexivity.
Qed.

(** C7, as the code has it. [scrape_url] never raises, whatever the URL
    and the bound; it returns [None] when the request fails and when
    the status is not 200; when the page is fetched with status 200 and
    its text is extracted, it returns a text, which is the flattened
    text of the page when that is not longer than the bound, and for a
    longer one and a bound that is not negative its first [max_chars]
    characters and then the marker "..."; a text it returns is, for a
    bound that is not negative, at most three characters longer than
    the bound; and when the extracted text is longer than the bound,
    the returned text ends with the marker "...". *)
Theorem scrape_url_bounded (url : pystr) (max_chars : Z) (st : State) :
  exists r st',
    scrape_url url max_chars st = (Ok r, st')
    /\ (forall e w, session_get url (world st) = (Raise e, w) -> r = None)
    /\ (forall response w,
           session_get url (world st) = (Ok response, w) ->
           status_code response <> 200%Z -> r = None)
    /\ (forall t, r = Some t ->
           ((0 <= max_chars)%Z ->
            (Z.of_nat (length t) <= max_chars + 3)%Z)
           /\ (forall response w text,
                  session_get url (world st) = (Ok response, w) ->
                  visible_text (resp_text response) = Ok text ->
                  (max_chars < Z.of_nat (length (flatten_text text)))%Z ->
                  ends_with_marker t))
    /\ (forall response w text,
           session_get url (world st) = (Ok response, w) ->
           status_code response = 200%Z ->
           visible_text (resp_text response) = Ok text ->
           exists t,
             r = Some t
             /\ st' = set_world w st
             /\ ((Z.of_nat (length (flatten_text text)) <= max_chars)%Z ->
                 t = flatten_text text)
             /\ ((max_chars < Z.of_nat (length (flatten_text text)))%Z ->
                 (0 <= max_chars)%Z ->
                 t = firstn (Z.to_nat max_chars) (flatten_text text) ++ py "..."
                 /\ length t = (Z.to_nat max_chars + 3)%nat)).
Proof.
  rewrite scrape_url_run.
  destruct (session_get url (world st)) as [[response|e] w] eqn:Hget.
  - destruct (Z.eqb_spec (status_code response) 200) as [H200|Hne].
    + destruct (visible_text (resp_text response)) as [text|e] eqn:Htext.
      * eexists _, _. split; [reflexivity|].
        split; [intros ? ? [=]|]. split; [intros ? ? [= <- <-] Hs; contradiction|].
        split.
        -- intros t [= <-]. split; [apply truncate_length|].
           intros response' w' text' [= <- <-] Htext' Hlong.
           rewrite Htext in Htext'. injection Htext' as <-.
           now apply truncate_marker.
        -- intros response' w' text' [= <- <-] _ Htext'.
           rewrite Htext in Htext'. injection Htext' as <-.
           eexists. split; [reflexivity|]. split; [reflexivity|].
           unfold truncate, slice_to. split.
           ++ intros Hshort.
              destruct (Z.ltb_spec max_chars (Z.of_nat (length (flatten_text text))));
                [lia|reflexivity].
           ++ intros Hlong Hmax.
              destruct (Z.ltb_spec max_chars (Z.of_nat (length (flatten_text text))));
                [|lia].
              destruct (Z.leb_spec 0 max_chars) as [_|?]; [|lia].
              split; [reflexivity|].
              rewrite length_app, length_take. change (length (py "...")) with 3%nat.
              lia.
      * eexists _, _. split; [reflexivity|].
        repeat split; try discriminate; try reflexivity.
        intros response' w' text' [= <- <-] _ Htext'. congruence.
    + eexists _, _. split; [reflexivity|].
      repeat split; try discriminate; try reflexivity.
      intros response' w' text' [= <- <-] H200. contradiction.
  - eexists _, _. split; [reflexivity|].
    repeat split; try discriminate; reflexivity.
Qed.

(** A handler for every exception that returns makes the whole return. *)
Lemma try_except_returns {A} (m : M A) (v : A) (st : State) :
  exists a st', try_except m any_exception (fun _ => ret v) st = (Ok a, st').
Proof.
  unfold try_except, any_exception, ret.
  destruct (m st) as [[a|e] st']; eauto.
Qed.

Lemma scrape_url_returns (url : pystr) (max_chars : Z) (st : State) :
  exists r st', scrape_url url max_chars st = (Ok r, st').
Proof. apply try_except_returns. Qed.

Lemma search_brave_returns (query : pystr) (num_results : Z) (st : State) :
  exists results st',
    search_brave session_get brave_cards query num_results st
    = (Ok results, st').
Proof. apply try_except_returns. Qed.

Lemma try_engine_returns (url : pystr) (e : engine) (num_results : Z) (st : State) :
  exists r st',
    try_engine session_get bing_items google_items url e num_results st
    = (Ok r, st').
Proof. apply try_except_returns. Qed.

Lemma first_engine_returns (search_engines : list (pystr * engine))
      (num_results : Z) (st : State) :
  exists results st',
    first_engine session_get bing_items google_items
                 search_engines num_results st = (Ok results, st').
Proof.
  revert st. induction search_engines as [|[url e] search_engines IH]; intros st; simpl.
  - unfold ret. eauto.
  - unfold bind.
    destruct (try_engine_returns url e num_results st) as (r & st' & ->).
    destruct r; [unfold ret; eauto|apply IH].
Qed.

(** [quote_plus] raises on the strings that hold a surrogate code
    point, and on no other. *)
Lemma utf8_char_surrogate (c : char) :
  if surrogate c
  then utf8_char c = Raise UnicodeEncodeError
  else exists bytes, utf8_char c = Ok bytes.
Proof.
  unfold utf8_char, surrogate.
  repeat match goal with
         | |- context [?a <? ?b] => destruct (N.ltb_spec a b)
         | |- context [?a <=? ?b] => destruct (N.leb_spec a b)
         end; simpl; try lia; eauto.
Qed.

Lemma utf8_surrogate (s : pystr) :
  if existsb surrogate s
  then utf8 s = Raise UnicodeEncodeError
  else exists bytes, utf8 s = Ok bytes.
Proof.
  induction s as [|c s IH]; [simpl; eauto|].
  cbn [existsb utf8].
  pose proof (utf8_char_surrogate c) as Hc.
  destruct (surrogate c); cbn [orb].
  - rewrite Hc. reflexivity.
  - destruct Hc as [bytes ->]. cbn [rbind].
    destruct (existsb surrogate s).
    + rewrite IH. reflexivity.
    + destruct IH as [rest ->]. cbn [rbind]. eauto.
Qed.

Lemma quote_plus_surrogate (query : pystr) :
  if existsb surrogate query
  then quote_plus query = Raise UnicodeEncodeError
  else exists quoted, quote_plus query = Ok quoted.
Proof.
  unfold quote_plus. pose proof (utf8_surrogate query) as H.
  destruct (existsb surrogate query).
  - rewrite H. reflexivity.
  - destruct H as [bytes ->]. simpl. eauto.
Qed.

(** When the query cannot be quoted, [search_brave] passes over the
    exception: it returns no result and has asked nothing. *)
Lemma search_brave_unquotable (query : pystr) (num_results : Z) (st : State)
      (e : exn) :
  quote_plus query = Raise e ->
  search_brave session_get brave_cards query num_results st = (Ok [], st).
Proof.
  intros Hq. unfold search_brave, try_except, bind, lift. rewrite Hq. reflexivity.
Qed.

(** [search_html_fallback], by the quoting of the query. *)
Lemma search_html_fallback_cases (query : pystr) (num_results : Z) (st : State) :
  match quote_plus query with
  | Ok quoted =>
      search_html_fallback session_get bing_items google_items query num_results st
      = first_engine session_get bing_items google_items
          [ (py "https://www.bing.com/search?q=" ++ quoted, Bing);
            (py "https://www.google.com/search?q=" ++ quoted, Google) ]
          num_results st
  | Raise e =>
      search_html_fallback session_get bing_items google_items query num_results st
      = (Raise e, st)
  end.
Proof.
  unfold search_html_fallback, bind, lift.
  destruct (quote_plus query); reflexivity.
Qed.

(** [search_google] returns for a query that can be quoted, and lets
    the exception of the quoting pass for one that cannot. *)
Lemma search_google_cases (query : pystr) (num_results : Z) (st : State) :
  match quote_plus query with
  | Ok _ => exists results st', search_google query num_results st = (Ok results, st')
  | Raise e => search_google query num_results st = (Raise e, st)
  end.
Proof.
  pose proof (search_html_fallback_cases query num_results) as Hf.
  destruct (quote_plus query) as [quoted|e] eqn:Hq.
  - unfold search_google, bind.
    destruct (search_brave_returns query num_results st) as (r1 & st1 & ->).
    destruct r1 as [|r rs]; [|unfold ret; eauto].
    rewrite Hf.
    destruct (first_engine_returns
                [ (py "https://www.bing.com/search?q=" ++ quoted, Bing);
                  (py "https://www.google.com/search?q=" ++ quoted, Google) ]
                num_results st1) as (r2 & st2 & ->).
    destruct r2; [|unfold ret; eauto].
    destruct (any_in _ _); unfold ret; eauto.
  - unfold search_google, bind.
    rewrite (search_brave_unquotable query num_results st e Hq).
    rewrite Hf. reflexivity.
Qed.

Local Abbreviation scraped_from := (scraped_from session_get visible_text).

Lemma scrape_result_run (result : SearchResult) (st : State) :
  exists scrape st',
    scrape_url (sr_url result) 5000 st = (Ok scrape, st')
    /\ scrape_result result st = (Ok (document_for result scrape), st').
Proof.
  destruct (scrape_url_returns (sr_url result) 5000 st) as (scrape & st' & H).
  exists scrape, st'. split; [exact H|].
  unfold scrape_result, bind. rewrite H.
  destruct scrape as [[|c t]|]; reflexivity.
Qed.

Lemma scrape_each (results : list SearchResult) (st : State) :
  exists docs st',
    for_each scrape_result results st = (Ok docs, st')
    /\ Forall2 scraped_from results docs.
Proof.
  revert st. induction results as [|r results IH]; intros st; simpl.
  - exists [], st. split; [reflexivity|constructor].
  - destruct (scrape_result_run r st) as (scrape & st1 & Hs & Hr).
    destruct (IH st1) as (docs & st2 & Hf & Hall).
    exists (document_for r scrape :: docs), st2. split.
    + unfold bind. rewrite Hr, Hf. reflexivity.
    + constructor; [|exact Hall]. exists st, scrape, st1. split; [exact Hs|reflexivity].
Qed.

(** What [search_and_scrape] does, by the outcome of the search. *)
Lemma search_and_scrape_run (query : pystr) (num_urls : Z) (st : State) :
  match search_google query num_urls st with
  | (Ok [], st1) =>
      search_and_scrape query num_urls st
      = (Ok (BundleFail (py "No search results found")), st1)
  | (Ok (r :: rs), st1) =>
      exists docs st2,
        search_and_scrape query num_urls st = (Ok (BundleOk query docs), st2)
        /\ Forall2 scraped_from (slice_to num_urls (r :: rs)) docs
  | (Raise e, st1) => search_and_scrape query num_urls st = (Raise e, st1)
  end.
Proof.
  unfold search_and_scrape, bind.
  destruct (search_google query num_urls st) as [[[|r rs]|e] st1];
    [reflexivity| |reflexivity].
  destruct (scrape_each (slice_to num_urls (r :: rs)) st1)
    as (docs & st2 & Hf & Hall).
  exists docs, st2. split; [|exact Hall].
  rewrite Hf. reflexivity.
Qed.

(** The orchestrator returns for a query that can be quoted. *)
Lemma search_and_scrape_returns (query : pystr) (num_urls : Z) (st : State) :
  existsb surrogate query = false ->
  exists bundle st', search_and_scrape query num_urls st = (Ok bundle, st').
Proof.
  intros Hs.
  pose proof (quote_plus_surrogate query) as Hq. rewrite Hs in Hq.
  destruct Hq as [quoted Hq].
  pose proof (search_google_cases query num_urls st) as Hg. rewrite Hq in Hg.
  destruct Hg as (results & st1 & Hg).
  pose proof (search_and_scrape_run query num_urls st) as Hrun. rewrite Hg in Hrun.
  destruct results as [|r rs]; [eauto|].
  destruct Hrun as (docs & st2 & Hrun & _). eauto.
Qed.


(** With a bound that is not negative a bundle holds at most that many
    documents. *)
Lemma search_and_scrape_count (query : pystr) (num_urls : Z) (st : State)
      (bundle : SearchBundle) (st' : State) :
  (0 <= num_urls)%Z ->
  search_and_scrape query num_urls st = (Ok bundle, st') ->
  (length (bundle_results bundle) <= Z.to_nat num_urls)%nat.
Proof.
  intros Hn Hb.
  pose proof (search_and_scrape_run query num_urls st) as Hrun.
  destruct (search_google query num_urls st) as [[[|r rs]|e] st1].
  - rewrite Hrun in Hb. injection Hb as <- _. simpl. lia.
  - destruct Hrun as (docs & st2 & Hrun & Hall).
    rewrite Hrun in Hb. injection Hb as <- _. simpl.
    apply Forall2_length in Hall. rewrite <- Hall.
    unfold slice_to. destruct (Z.leb_spec 0 num_urls) as [_|?]; [|lia].
    rewrite length_take. lia.
  - rewrite Hrun in Hb. discriminate.
Qed.

End ScraperProperties.

(** The bound [-1] on the page "abcdef": the text returned has eight
    characters, which is more than the bound and the three of the
    marker. *)
Lemma scrape_url_negative_bound :
  scrape_url (static_get (py "abcdef")) plain_text (py "http://example.org/") (-1)
             initial_state
  = (Ok (Some (py "abcde...")), initial_state)
  /\ ~ (Z.of_nat (length (py "abcde...")) <= -1 + 3)%Z.
Proof. split; [reflexivity|]. simpl. lia. Qed.

Lemma scrape_url_bounded_witness :
  exists r st',
    scrape_url (static_get (py "abcdef")) plain_text (py "http://example.org/") 5
               initial_state = (Ok r, st')
    /\ (forall t, r = Some t -> (Z.of_nat (length t) <= 5 + 3)%Z).
Proof.
  destruct (scrape_url_bounded (static_get (py "abcdef")) plain_text
                               (py "http://example.org/") 5 initial_state)
    as (r & st' & Hrun & _ & _ & Hlen & _).
  exists r, st'. split; [exact Hrun|].
  intros t Ht. apply (Hlen t Ht). lia.
Defined.


(** A query with a lone surrogate: Brave's search passes over the
    exception of the quoting, the fallback search does not, and the
    orchestrator raises before any request is made. *)
Lemma search_and_scrape_unquotable :
  search_and_scrape no_ext brave_only_get one_bare_card no_bing no_google
                    plain_text (py "now " ++ [55296]) 2 initial_state
  = (Raise UnicodeEncodeError, initial_state).
Proof. reflexivity. Qed.


(** ** Model client *)

Section ClientProperties.
Context {World float : Type}.
Variable lower_ext : pystr -> char -> pystr -> pystr.
Variable lm_studio_url : pystr.
Variable requests_post :
  pystr -> Payload float -> Z -> World -> result Response * World.
Variable json_loads : pystr -> result json.
Variable py_repr : json -> pystr.
Variable json_error_is_request_exception : bool.

Local Abbreviation State := (@State World).
Local Abbreviation query_lm_studio :=
  (query_lm_studio lower_ext lm_studio_url requests_post py_repr
                   json_error_is_request_exception).
Local Abbreviation query_lm_studio_stream :=
  (query_lm_studio_stream lm_studio_url requests_post json_loads py_repr
                          json_error_is_request_exception).
Local Abbreviation retry_with_listed_model :=
  (retry_with_listed_model lm_studio_url requests_post).
Local Abbreviation stream_line := (stream_line json_loads).
Local Abbreviation stream_lines := (stream_lines json_loads).
Local Abbreviation listed_model := (listed_model lower_ext).

Lemma reply_text_ok (response : Response) (text : pystr) :
  reply_text response = Some text ->
  resp_ok response = true
  /\ exists body content,
      response_json response = Ok body
      /\ message_content body = Ok content
      /\ clean_text_dyn content = Ok text.
Proof.
  unfold reply_text, rbind. destruct (resp_ok response); [|discriminate].
  destruct (response_json response) as [body|] eqn:Hj; [|discriminate].
  destruct (message_content body) as [content|] eqn:Hm; [|discriminate].
  destruct (clean_text_dyn content) as [t|] eqn:Hc; [|discriminate].
  intros [= <-]. split; [reflexivity|]. exists body, content. auto.
Qed.

(** The retry, by the answer to the second request. *)
Lemma retry_run (payload : Payload float) (body_text chosen before listed : pystr)
      (rest : list pystr) (st : State) :
  split_once (py "Your models:") body_text = Some (before, listed) ->
  stripped_lines listed = chosen :: rest ->
  retry_with_listed_model payload body_text st =
  match requests_post lm_studio_url
          (request_payload chosen (p_messages payload) (p_temperature payload)
                           (p_max_tokens payload) (p_stream payload))
          60 (world st) with
  | (Ok retry_resp, w) =>
      (Ok (reply_text retry_resp), set_world w (set_model_name chosen st))
  | (Raise _, w) => (Ok None, set_world w (set_model_name chosen st))
  end.
Proof.
  intros Hsplit Hlines.
  unfold retry_with_listed_model, try_except, bind, io, lift, ret, request_payload.
  rewrite Hsplit, Hlines. simpl.
  destruct (requests_post _ _ _ _) as [[retry_resp|e] w]; simpl; [|reflexivity].
  unfold reply_text, rbind.
  destruct (resp_ok retry_resp); [|reflexivity].
  destruct (response_json retry_resp) as [body|]; simpl; [|reflexivity].
  destruct (message_content body) as [content|]; simpl; [|reflexivity].
  destruct (clean_text_dyn content); reflexivity.
Qed.

Lemma retry_none (payload : Payload float) (body_text : pystr) (st : State) :
  match split_once (py "Your models:") body_text with
  | Some (_, listed) => head (stripped_lines listed)
  | None => None
  end = None ->
  retry_with_listed_model payload body_text st = (Ok None, st).
Proof.
  unfold retry_with_listed_model, try_except, ret.
  destruct (split_once _ _) as [[before listed]|]; [|reflexivity].
  destruct (stripped_lines listed); [reflexivity|discriminate].
Qed.

(** The blocking call, by the answer to its request. *)
Lemma query_lm_studio_run (messages : list ChatMessage) (temperature : float)
      (max_tokens : Z) (st : State) :
  let payload := request_payload (model_name st) messages temperature max_tokens false in
  query_lm_studio messages temperature max_tokens st =
  match requests_post lm_studio_url payload 60 (world st) with
  | (Raise e, w) =>
      if is_request_exception json_error_is_request_exception e
      then (Ok connect_error_message, set_world w st)
      else (Raise e, set_world w st)
  | (Ok response, w) =>
      if resp_ok response then
        match (body <~ response_json response ;;
               content <~ message_content body ;;
               clean_text_dyn content) with
        | Ok text => (Ok text, set_world w st)
        | Raise e =>
            if is_request_exception json_error_is_request_exception e
            then (Ok connect_error_message, set_world w st)
            else (Raise e, set_world w st)
        end
      else
        let body_text := py_str py_repr (error_body_text py_repr response) in
        match
          (if contains (py "model_not_found") (lower lower_ext body_text)
              && contains (py "your models:") (lower lower_ext body_text)
           then retry_with_listed_model payload body_text (set_world w st)
           else (Ok None, set_world w st))
        with
        | (Ok (Some text), st') => (Ok text, st')
        | (Ok None, st') => (Ok model_error_message, st')
        | (Raise e, st') =>
            if is_request_exception json_error_is_request_exception e
            then (Ok connect_error_message, st')
            else (Raise e, st')
        end
  end.
Proof.
  unfold query_lm_studio, request_payload, try_except, bind, io, lift, ret, rbind.
  destruct (requests_post _ _ _ _) as [[response|e] w]; simpl; [|reflexivity].
  destruct (resp_ok response); simpl.
  - destruct (response_json response) as [body|]; simpl; [|reflexivity].
    destruct (message_content body) as [content|]; simpl; [|reflexivity].
    destruct (clean_text_dyn content); reflexivity.
  - destruct (contains _ _ && contains _ _).
    + destruct (retry_with_listed_model _ _ _) as [[[text|]|e] st']; reflexivity.
    + reflexivity.
Qed.

(** C6, as the code has it. The blocking model call returns a text, and
    raises nothing, when the request fails and when the endpoint answers
    with an error status.  A failed request gives the fixed text about
    the connection.  An error answer whose text says that the model was
    not found and lists model names makes the client switch its active
    model to the first listed name and ask once more with it: a
    well-formed success answer to this second request is returned,
    sanitized, and the active model stays switched; anything else gives
    the fixed text about the model error.  Any other error answer gives
    that same text after the one request.  A well-formed success answer
    to the first request is returned sanitized. *)
Theorem query_lm_studio_degrades (messages : list ChatMessage)
        (temperature : float) (max_tokens : Z) (st : State) :
  let payload := request_payload (model_name st) messages temperature max_tokens false in
  (forall msg w,
      requests_post lm_studio_url payload 60 (world st)
      = (Raise (RequestException msg), w) ->
      query_lm_studio messages temperature max_tokens st
      = (Ok connect_error_message, set_world w st))
  /\ (forall response w,
         requests_post lm_studio_url payload 60 (world st) = (Ok response, w) ->
         resp_ok response = false ->
         match listed_model (py_str py_repr (error_body_text py_repr response)) with
         | None =>
             query_lm_studio messages temperature max_tokens st
             = (Ok model_error_message, set_world w st)
         | Some chosen =>
             let retry_payload :=
               request_payload chosen messages temperature max_tokens false in
             let switched := set_model_name chosen (set_world w st) in
             match requests_post lm_studio_url retry_payload 60 w with
             | (Ok retry_resp, w2) =>
                 query_lm_studio messages temperature max_tokens st
                 = (Ok (match reply_text retry_resp with
                        | Some text => text
                        | None => model_error_message
                        end),
                    set_world w2 switched)
             | (Raise _, w2) =>
                 query_lm_studio messages temperature max_tokens st
                 = (Ok model_error_message, set_world w2 switched)
             end
         end)
  /\ (forall response w text,
         requests_post lm_studio_url payload 60 (world st) = (Ok response, w) ->
         reply_text response = Some text ->
         query_lm_studio messages temperature max_tokens st
         = (Ok text, set_world w st)).
Proof.
  intros payload. pose proof (query_lm_studio_run messages temperature max_tokens st) as Hrun.
  cbv zeta in Hrun. fold payload in Hrun. repeat split.
  - intros msg w Hpost. rewrite Hrun, Hpost. reflexivity.
  - intros response w Hpost Hok. rewrite Hrun, Hpost, Hok.
    unfold listed_model.
    set (body_text := py_str py_repr (error_body_text py_repr response)).
    destruct (contains (py "model_not_found") (lower lower_ext body_text)
              && contains (py "your models:") (lower lower_ext body_text));
      [|reflexivity].
    destruct (split_once (py "Your models:") body_text) as [[before listed]|] eqn:Hs.
    + destruct (stripped_lines listed) as [|chosen rest] eqn:Hl; simpl.
      * rewrite retry_none; [reflexivity|]. rewrite Hs, Hl. reflexivity.
      * rewrite (retry_run _ _ chosen before listed rest _ Hs Hl). simpl.
        destruct (requests_post _ _ _ w) as [[retry_resp|e] w2]; simpl.
        -- destruct (reply_text retry_resp); reflexivity.
        -- reflexivity.
    + rewrite retry_none; [reflexivity|]. rewrite Hs. reflexivity.
  - intros response w text Hpost Hreply.
    apply reply_text_ok in Hreply as (Hok & body & content & Hj & Hm & Hc).
    rewrite Hrun, Hpost, Hok, Hj. simpl. rewrite Hm. simpl. rewrite Hc. reflexivity.
Qed.

(** *** Streaming *)

Lemma nonempty_true (s : pystr) : s <> [] -> nonempty s = true.
Proof. destruct s; [contradiction|reflexivity]. Qed.

Lemma str_eqb_neq (a b : pystr) : a <> b -> str_eqb a b = false.
Proof.
  intros H. destruct (str_eqb a b) eqn:E; [|reflexivity].
  apply str_eqb_eq in E. contradiction.
Qed.

Lemma stream_line_unfold (raw_line : pystr) :
  stream_line raw_line =
  if negb (nonempty (strip raw_line)) then Skip
  else if str_eqb (data_payload (strip raw_line)) (py "[DONE]") then Stop
  else match (obj <~ json_loads (data_payload (strip raw_line)) ;; event_fragment obj) with
       | Ok (Some chunk) => Yield chunk
       | Ok None => Skip
       | Raise _ => Skip
       end.
Proof. reflexivity. Qed.

Lemma stream_lines_cons (raw_line : pystr) (rest : list pystr) :
  stream_lines (raw_line :: rest) =
  match stream_line raw_line with
  | Stop => ([], true)
  | Skip => stream_lines rest
  | Yield chunk =>
      let '(chunks, stopped) := stream_lines rest in (chunk :: chunks, stopped)
  end.
Proof. reflexivity. Qed.

(** A line that is no blank and no [[DONE]] is decoded. *)
Lemma stream_line_decoded (raw_line : pystr) :
  strip raw_line <> [] ->
  data_payload (strip raw_line) <> py "[DONE]" ->
  stream_line raw_line =
  match (obj <~ json_loads (data_payload (strip raw_line)) ;; event_fragment obj) with
  | Ok (Some chunk) => Yield chunk
  | _ => Skip
  end.
Proof.
  intros Hblank Hdone. rewrite stream_line_unfold.
  rewrite (nonempty_true _ Hblank), (str_eqb_neq _ _ Hdone). simpl.
  destruct (rbind _ _) as [[chunk|]|]; reflexivity.
Qed.

Lemma event_fragment_delta (obj : json) (c : pystr) :
  delta_content obj = Some (JStr c) ->
  event_fragment obj = Ok (sanitized c).
Proof.
  unfold delta_content, first_choice.
  destruct obj as [| | | | | |items]; try discriminate.
  destruct (assoc (py "choices") items) as [[| | | | |[|[| | | | | |ch] more]|]|] eqn:Hc;
    try discriminate.
  destruct (assoc (py "delta") ch) as [[| | | | | |delta]|] eqn:Hd; try discriminate.
  intros Hcontent.
  unfold event_fragment, py_get, is_dict, has_key, rbind. rewrite Hc. simpl.
  rewrite Hd. simpl. rewrite Hcontent.
  unfold sanitized. destruct c as [|x c]; reflexivity.
Qed.

Lemma event_fragment_message (obj : json) (c : pystr) :
  delta_content obj = None ->
  full_message_content obj = Some (JStr c) ->
  event_fragment obj = Ok (sanitized c).
Proof.
  unfold delta_content, full_message_content, first_choice.
  destruct obj as [| | | | | |items]; try discriminate.
  destruct (assoc (py "choices") items) as [[| | | | |[|[| | | | | |ch] more]|]|] eqn:Hc;
    try discriminate.
  intros Hdelta.
  destruct (assoc (py "message") ch) as [[| | | | | |message]|] eqn:Hm; try discriminate.
  intros Hcontent.
  assert (Htruthy : truthy (JObj message) = true).
  { destruct message; [discriminate|reflexivity]. }
  unfold event_fragment, py_get, py_item, is_dict, has_key, rbind. rewrite Hc. simpl.
  destruct (assoc (py "delta") ch) as [[| | | | | |delta]|] eqn:Hd; simpl;
    rewrite ?Hdelta, ?Hm, ?Htruthy, ?Hcontent; simpl;
    try (unfold sanitized; destruct c; reflexivity).
Qed.

(** The streaming call on a success response. *)
Lemma query_lm_studio_stream_run (messages : list ChatMessage) (temperature : float)
      (max_tokens timeout : Z) (st : State) (resp : Response) (w : World) :
  requests_post lm_studio_url
                (request_payload (model_name st) messages temperature max_tokens true)
                timeout (world st) = (Ok resp, w) ->
  resp_ok resp = true ->
  query_lm_studio_stream messages temperature max_tokens timeout st =
  (Ok (let '(chunks, stopped) := stream_lines (resp_lines resp) in
       match resp_broken resp with
       | Some e =>
           if stopped then chunks
           else chunks ++ [py "[ERROR] Error querying LM Studio: " ++ e]
       | None => chunks
       end),
   set_world w st).
Proof.
  intros Hpost Hok.
  unfold query_lm_studio_stream, request_payload, try_except, bind, io, lift, ret in *.
  rewrite Hpost. simpl. rewrite Hok. simpl.
  destruct (stream_lines (resp_lines resp)) as [chunks stopped].
  destruct (resp_broken resp); [destruct stopped|]; reflexivity.
Qed.

Lemma hi_line (H : json_loads hi_json = Ok hi_event) :
  stream_line (py "data: " ++ hi_json) = Yield (py "Hi").
Proof.
  rewrite stream_line_decoded; [|discriminate|discriminate].
  change (data_payload (strip (py "data: " ++ hi_json))) with hi_json.
  rewrite H. reflexivity.
Qed.

(** What a sanitized value yields is the sanitized text of a string. *)
Lemma clean_yield (v : json) (chunk : pystr) :
  (clean_content <~ clean_text_dyn v ;;
   Ok (if nonempty clean_content then Some clean_content else None))
  = Ok (Some chunk) ->
  exists c, v = JStr c /\ sanitized c = Some chunk.
Proof.
  unfold rbind, clean_text_dyn, sanitized.
  destruct (truthy v); cbn [negb]; [|discriminate].
  destruct v as [| | | |s| |]; try discriminate.
  destruct (clean_text s) as [|x r] eqn:Hc; cbn [nonempty]; [discriminate|].
  intros [= <-]. exists s. split; [reflexivity|]. rewrite Hc. reflexivity.
Qed.

Lemma message_yield (ch : list (pystr * json)) (chunk : pystr) :
  (message <~ py_get (JObj ch) (py "message") JNull ;;
   if truthy message then
     message <~ py_item (JObj ch) (py "message") ;;
     msg_content <~ py_get message (py "content") JNull ;;
     if truthy msg_content then
       clean_content <~ clean_text_dyn msg_content ;;
       Ok (if nonempty clean_content then Some clean_content else None)
     else Ok None
   else Ok None) = Ok (Some chunk) ->
  exists c,
    match assoc (py "message") ch with
    | Some (JObj message) => assoc (py "content") message
    | _ => None
    end = Some (JStr c)
    /\ sanitized c = Some chunk.
Proof.
  unfold py_get, py_item. cbn [rbind].
  destruct (assoc (py "message") ch) as [message|]; [|discriminate].
  destruct (truthy message); [|discriminate]. cbn [rbind].
  destruct message as [| | | | | |m]; try discriminate. cbn [rbind].
  destruct (assoc (py "content") m) as [msg_content|]; [|discriminate].
  destruct (truthy msg_content); [|discriminate].
  intros H. apply clean_yield in H as (c & -> & Hs). eauto.
Qed.

(** A fragment that an event yields is the sanitized text of its
    delta-content string, or of its message-content string when it has
    no delta-content field. *)
Lemma event_fragment_yield (obj : json) (chunk : pystr) :
  event_fragment obj = Ok (Some chunk) ->
  exists c,
    (delta_content obj = Some (JStr c)
     \/ (delta_content obj = None /\ full_message_content obj = Some (JStr c)))
    /\ sanitized c = Some chunk.
Proof.
  unfold event_fragment, delta_content, full_message_content, first_choice.
  destruct obj as [| | | | | |items]; try discriminate.
  cbn [is_dict py_get].
  destruct (assoc (py "choices") items) as [choices|]; [|discriminate].
  destruct (truthy choices); [|discriminate].
  destruct choices as [| | | |s|[|ch more]|o]; try discriminate.
  { destruct s; discriminate. }
  cbn [py_first rbind].
  destruct ch as [| | | | | |ch]; try discriminate.
  cbn [py_get rbind].
  destruct (assoc (py "delta") ch) as [delta|] eqn:Hd.
  - destruct delta as [| | | | | |d]; cbn [is_dict andb];
      try (intros H; apply message_yield in H as (c & Hm & Hs);
           exists c; split; [right; split; [reflexivity|exact Hm]|exact Hs]).
    cbn [has_key].
    destruct (assoc (py "content") d) as [content|] eqn:Hc.
    + cbn [py_get rbind]. rewrite Hc.
      destruct (truthy content); [|discriminate].
      intros H. apply clean_yield in H as (c & -> & Hs).
      exists c. split; [left; reflexivity|exact Hs].
    + intros H. apply message_yield in H as (c & Hm & Hs).
      exists c. split; [right; split; [reflexivity|exact Hm]|exact Hs].
  - cbn [is_dict has_key assoc andb].
    intros H. apply message_yield in H as (c & Hm & Hs).
    exists c. split; [right; split; [reflexivity|exact Hm]|exact Hs].
Qed.

(** C5. The streaming client takes the response line by line.  A line
    that is blank once trimmed is passed over.  A line that is [[DONE]]
    once trimmed and without its [data:] prefix ends the stream: nothing
    more is yielded, no error chunk either; no other line ends it.  A
    line that does not decode as JSON is passed over and the stream goes
    on with the next line, and so is a line that decodes to an event
    without a content string.  A line that decodes to an event with a
    delta-content string yields that string sanitized, if something of
    it remains; so does one with a message-content string and no
    delta-content; nothing else is ever yielded.  Sanitized means
    without U+FFFD and without the code points from 0x10000 on.  In
    particular the body made of the event with the delta content "Hi",
    a blank line, [data: [DONE]] and a blank line yields the one chunk
    "Hi" and ends without an error chunk. *)
Theorem stream_protocol :
  (forall raw_line, strip raw_line = [] -> stream_line raw_line = Skip)
  /\ (forall raw_line rest,
         strip raw_line <> [] ->
         data_payload (strip raw_line) = py "[DONE]" ->
         stream_line raw_line = Stop
         /\ stream_lines (raw_line :: rest) = ([], true))
  /\ (forall raw_line rest e,
         strip raw_line <> [] ->
         data_payload (strip raw_line) <> py "[DONE]" ->
         json_loads (data_payload (strip raw_line)) = Raise e ->
         stream_line raw_line = Skip
         /\ stream_lines (raw_line :: rest) = stream_lines rest)
  /\ (forall raw_line obj c,
         strip raw_line <> [] ->
         data_payload (strip raw_line) <> py "[DONE]" ->
         json_loads (data_payload (strip raw_line)) = Ok obj ->
         delta_content obj = Some (JStr c)
         \/ (delta_content obj = None /\ full_message_content obj = Some (JStr c)) ->
         stream_line raw_line
         = match sanitized c with Some chunk => Yield chunk | None => Skip end)
  /\ (forall messages temperature max_tokens timeout (st : State) resp w,
         requests_post lm_studio_url
           (request_payload (model_name st) messages temperature max_tokens true)
           timeout (world st) = (Ok resp, w) ->
         resp_ok resp = true ->
         snd (stream_lines (resp_lines resp)) = true \/ resp_broken resp = None ->
         query_lm_studio_stream messages temperature max_tokens timeout st
         = (Ok (fst (stream_lines (resp_lines resp))), set_world w st))
  /\ (json_loads hi_json = Ok hi_event ->
      stream_lines (splitlines hi_body) = ([py "Hi"], true)
      /\ forall messages temperature max_tokens timeout (st : State) resp w,
          requests_post lm_studio_url
            (request_payload (model_name st) messages temperature max_tokens true)
            timeout (world st) = (Ok resp, w) ->
          resp_ok resp = true ->
          resp_lines resp = splitlines hi_body ->
          query_lm_studio_stream messages temperature max_tokens timeout st
          = (Ok [py "Hi"], set_world w st))
  /\ (forall raw_line,
         stream_line raw_line = Stop ->
         strip raw_line <> [] /\ data_payload (strip raw_line) = py "[DONE]")
  /\ (forall raw_line chunk,
         stream_line raw_line = Yield chunk ->
         exists obj c,
           json_loads (data_payload (strip raw_line)) = Ok obj
           /\ (delta_content obj = Some (JStr c)
               \/ (delta_content obj = None
                   /\ full_message_content obj = Some (JStr c)))
           /\ sanitized c = Some chunk)
  /\ (forall raw_line rest obj,
         strip raw_line <> [] ->
         data_payload (strip raw_line) <> py "[DONE]" ->
         json_loads (data_payload (strip raw_line)) = Ok obj ->
         (forall c, delta_content obj <> Some (JStr c)) ->
         (forall c, delta_content obj = None ->
                    full_message_content obj <> Some (JStr c)) ->
         stream_line raw_line = Skip
         /\ stream_lines (raw_line :: rest) = stream_lines rest)
  /\ (forall raw_line rest,
         (stream_line raw_line = Skip ->
          stream_lines (raw_line :: rest) = stream_lines rest)
         /\ (forall chunk,
                stream_line raw_line = Yield chunk ->
                stream_lines (raw_line :: rest)
                = (chunk :: fst (stream_lines rest), snd (stream_lines rest))))
  /\ (forall c,
         sanitized c
         = match List.filter kept c with
           | [] => None
           | x :: chunk => Some (x :: chunk)
           end).
Proof.
  assert (Hstop : forall raw_line,
             stream_line raw_line = Stop ->
             strip raw_line <> [] /\ data_payload (strip raw_line) = py "[DONE]").
  { intros raw_line. rewrite stream_line_unfold.
    destruct (strip raw_line) as [|x r] eqn:Hs; cbn [nonempty negb]; [discriminate|].
    destruct (str_eqb _ (py "[DONE]")) eqn:Hd.
    - intros _. split; [discriminate|]. apply str_eqb_eq. exact Hd.
    - destruct (rbind _ _) as [[chunk|]|]; discriminate. }
  assert (Hyield : forall raw_line chunk,
             stream_line raw_line = Yield chunk ->
             exists obj c,
               json_loads (data_payload (strip raw_line)) = Ok obj
               /\ (delta_content obj = Some (JStr c)
                   \/ (delta_content obj = None
                       /\ full_message_content obj = Some (JStr c)))
               /\ sanitized c = Some chunk).
  { intros raw_line chunk. rewrite stream_line_unfold.
    destruct (negb (nonempty (strip raw_line))); [discriminate|].
    destruct (str_eqb _ (py "[DONE]")); [discriminate|].
    unfold rbind at 1.
    destruct (json_loads (data_payload (strip raw_line))) as [obj|]; [|discriminate].
    destruct (event_fragment obj) as [[chunk'|]|] eqn:He; try discriminate.
    intros [= ->]. apply event_fragment_yield in He as (c & Hc & Hs).
    exists obj, c. split; [reflexivity|]. split; assumption. }
  assert (Hloop : forall raw_line rest,
             (stream_line raw_line = Skip ->
              stream_lines (raw_line :: rest) = stream_lines rest)
             /\ (forall chunk,
                    stream_line raw_line = Yield chunk ->
                    stream_lines (raw_line :: rest)
                    = (chunk :: fst (stream_lines rest), snd (stream_lines rest)))).
  { intros raw_line rest. rewrite stream_lines_cons. split.
    - intros ->. reflexivity.
    - intros chunk ->. destruct (stream_lines rest). reflexivity. }
  split; [|split; [|split; [|split; [|split; [|split; [|split; [|split; [|split;
    [|split]]]]]]]]].
  - intros raw_line H. rewrite stream_line_unfold, H. reflexivity.
  - intros raw_line rest Hblank Hdone.
    assert (Hs : stream_line raw_line = Stop).
    { rewrite stream_line_unfold, (nonempty_true _ Hblank), Hdone. reflexivity. }
    split; [exact Hs|]. simpl. rewrite Hs. reflexivity.
  - intros raw_line rest e Hblank Hdone Hload.
    assert (Hskip : stream_line raw_line = Skip).
    { rewrite stream_line_decoded by assumption. rewrite Hload. reflexivity. }
    split; [exact Hskip|]. simpl. rewrite Hskip. reflexivity.
  - intros raw_line obj c Hblank Hdone Hload Hc.
    rewrite stream_line_decoded by assumption. rewrite Hload. simpl.
    destruct Hc as [Hd|[Hd Hm]].
    + rewrite (event_fragment_delta _ _ Hd). destruct (sanitized c); reflexivity.
    + rewrite (event_fragment_message _ _ Hd Hm). destruct (sanitized c); reflexivity.
  - intros messages temperature max_tokens timeout st resp w Hpost Hok Hend.
    rewrite (query_lm_studio_stream_run _ _ _ _ _ _ _ Hpost Hok).
    destruct (stream_lines (resp_lines resp)) as [chunks stopped]. simpl in *.
    destruct (resp_broken resp); [|reflexivity].
    destruct Hend as [->|?]; [reflexivity|discriminate].
  - intros Hload.
    assert (Hl : stream_lines (splitlines hi_body) = ([py "Hi"], true)).
    { change (splitlines hi_body)
        with [py "data: " ++ hi_json; []; py "data: [DONE]"; []].
      rewrite stream_lines_cons, (hi_line Hload).
      rewrite (stream_lines_cons []).
      replace (stream_line []) with Skip by reflexivity.
      rewrite (stream_lines_cons (py "data: [DONE]")).
      replace (stream_line (py "data: [DONE]")) with Stop by reflexivity.
      reflexivity. }
    split; [exact Hl|].
    intros messages temperature max_tokens timeout st resp w Hpost Hok Hlines.
    rewrite (query_lm_studio_stream_run _ _ _ _ _ _ _ Hpost Hok).
    rewrite Hlines, Hl. destruct (resp_broken resp); reflexivity.
  - exact Hstop.
  - exact Hyield.
  - intros raw_line rest obj Hblank Hdone Hload Hnd Hnm.
    assert (Hskip : stream_line raw_line = Skip).
    { destruct (stream_line raw_line) as [| |chunk] eqn:Hline; [reflexivity| |].
      - apply Hstop in Hline as [_ Hd]. contradiction.
      - apply Hyield in Hline as (obj' & c & Hload' & Hc & _).
        rewrite Hload in Hload'. injection Hload' as <-.
        destruct Hc as [Hd|[Hd Hm]]; [exact (False_ind _ (Hnd c Hd))|].
        exact (False_ind _ (Hnm c Hd Hm)). }
    split; [exact Hskip|]. apply (proj1 (Hloop raw_line rest) Hskip).
  - exact Hloop.
  - intros c. unfold sanitized. rewrite clean_text_filter.
    destruct (List.filter kept c); reflexivity.
Qed.

End ClientProperties.

(** A success answer that is an empty JSON object: the look-up of
    [choices] raises, and the exception leaves the call. *)
Lemma query_lm_studio_raises :
  query_lm_studio no_ext (py "http://localhost:1200/v1/chat/completions")
                  empty_object_post no_repr true
                  [{| role := py "user"; content := py "hello" |}] tt (-1)
                  initial_state
  = (Raise KeyError, initial_state).
Proof. reflexivity. Qed.

(** An endpoint that knows "good-model" alone: the client asks once
    more with that model, returns its answer, and stays switched. *)
Lemma query_lm_studio_degrades_witness :
  query_lm_studio no_ext (py "http://localhost:1200/v1/chat/completions")
                  one_model_post no_repr true
                  [{| role := py "user"; content := py "hello" |}] tt (-1)
                  initial_state
  = (Ok (py "OK"), set_model_name (py "good-model") initial_state).
Proof.
  destruct (query_lm_studio_degrades no_ext
              (py "http://localhost:1200/v1/chat/completions")
              one_model_post no_repr true
              [{| role := py "user"; content := py "hello" |}] tt (-1)
              initial_state) as (_ & H & _).
  exact (H _ tt eq_refl eq_refl).
Defined.

Lemma stream_protocol_witness :
  query_lm_studio_stream (py "http://localhost:1200/v1/chat/completions")
                         hi_post hi_loads no_repr true
                         [{| role := py "user"; content := py "hello" |}] tt (-1) 120
                         initial_state
  = (Ok [py "Hi"], initial_state).
Proof.
  destruct (stream_protocol (py "http://localhost:1200/v1/chat/completions")
              hi_post hi_loads no_repr true) as (_ & _ & _ & _ & _ & H & _).
  destruct (H eq_refl) as [_ Hrun].
  exact (Hrun [{| role := py "user"; content := py "hello" |}] tt (-1)%Z 120%Z
              initial_state _ tt eq_refl eq_refl eq_refl).
Defined.

(** ** Prompt composer *)

Lemma history_window_length (history : option (list ChatMessage)) :
  (length (history_window history) <= 10)%nat.
Proof.
  destruct history as [entries|]; simpl; [|lia].
  rewrite length_drop. lia.
Qed.

Lemma compose_messages_shape (system_prompt : pystr)
      (history : option (list ChatMessage)) (document_context : option pystr)
      (web_context user_query : pystr) :
  compose_messages system_prompt history document_context web_context user_query
  = {| role := py "system"; content := system_prompt |}
      :: history_window history
      ++ [{| role := py "user";
             content := user_message_of document_context web_context user_query |}].
Proof.
  unfold compose_messages, user_message_of, history_window, slice_last.
  destruct history as [[|m h]|]; destruct web_context; reflexivity.
Qed.

(** C4. Whatever the history, the composed messages are the system
    message, then at most ten entries of the history, then the composed
    user message; the entries are the last ones of the history, in
    their order; of a history of fifteen turns they are exactly the last
    ten. *)
Theorem compose_messages_history (system_prompt : pystr)
        (history : option (list ChatMessage)) (document_context : option pystr)
        (web_context user_query : pystr) :
  compose_messages system_prompt history document_context web_context user_query
  = {| role := py "system"; content := system_prompt |}
      :: history_window history
      ++ [{| role := py "user";
             content := user_message_of document_context web_context user_query |}]
  /\ (length (history_window history) <= 10)%nat
  /\ (forall entries, history = Some entries ->
        exists older, entries = older ++ history_window history)
  /\ (forall entries, history = Some entries -> length entries = 15%nat ->
        history_window history = skipn 5 entries
        /\ length (history_window history) = 10%nat).
Proof.
  split; [apply compose_messages_shape|].
  split; [apply history_window_length|]. split.
  - intros entries ->. exists (firstn (length entries - 10) entries).
    simpl. symmetry. apply firstn_skipn.
  - intros entries -> Hlen. simpl. rewrite Hlen. simpl Nat.sub.
    split; [reflexivity|]. rewrite length_drop. lia.
Qed.

Lemma compose_messages_history_witness :
  let turn n := {| role := py "user"; content := str_of_nat n |} in
  let entries := List.map turn (seq 1 15) in
  history_window (Some entries) = List.map turn (seq 6 10).
Proof.
  intros turn entries.
  destruct (compose_messages_history chat_system_prompt (Some entries) None [] (py "hi"))
    as (_ & _ & _ & H).
  destruct (H entries eq_refl eq_refl) as [-> _]. reflexivity.
Defined.

(** ** The session stores are left alone by search and model calls *)

Section Frame.
Context {World : Type}.
Local Abbreviation M := (@M World).

Lemma keeps_ret {A} (a : A) : keeps_sessions (ret a : M A).
Proof. intros st. split; reflexivity. Qed.

Lemma keeps_lift {A} (r : result A) : keeps_sessions (lift r : M A).
Proof. intros st. split; reflexivity. Qed.

Lemma keeps_io {A} (f : World -> A * World) : keeps_sessions (io f).
Proof. intros st. unfold io. destruct (f (world st)). split; reflexivity. Qed.

Lemma keeps_set_model (m : pystr) :
  keeps_sessions (fun st : @State World => (Ok tt, set_model_name m st)).
Proof. intros st. split; reflexivity. Qed.

Lemma keeps_bind {A B} (m : M A) (k : A -> M B) :
  keeps_sessions m -> (forall a, keeps_sessions (k a)) -> keeps_sessions (bind m k).
Proof.
  intros Hm Hk st. unfold bind. specialize (Hm st).
  destruct (m st) as [[a|e] st1]; simpl in *; [|exact Hm].
  destruct (Hk a st1) as [H1 H2]. destruct Hm as [H3 H4].
  split; congruence.
Qed.

Lemma keeps_try {A} (m : M A) (handles : exn -> bool) (handler : exn -> M A) :
  keeps_sessions m -> (forall e, keeps_sessions (handler e)) ->
  keeps_sessions (try_except m handles handler).
Proof.
  intros Hm Hh st. unfold try_except. specialize (Hm st).
  destruct (m st) as [[a|e] st1]; simpl in *; [exact Hm|].
  destruct (handles e); [|exact Hm].
  destruct (Hh e st1) as [H1 H2]. destruct Hm as [H3 H4].
  split; congruence.
Qed.

Lemma keeps_for_each {A B} (f : A -> M B) (l : list A) :
  (forall x, keeps_sessions (f x)) -> keeps_sessions (for_each f l).
Proof.
  intros Hf. induction l as [|x l IH]; simpl; [apply keeps_ret|].
  apply keeps_bind; [apply Hf|]. intros y.
  apply keeps_bind; [apply IH|]. intros ys. apply keeps_ret.
Qed.

End Frame.

Create HintDb frame discriminated.
#[export] Hint Resolve keeps_ret keeps_lift keeps_io keeps_set_model
  keeps_bind keeps_try keeps_for_each : frame.

(** Splits the branches of a computation and closes the leaves. *)
Ltac frame :=
  repeat first
    [ progress intros
    | progress cbv zeta
    | match goal with
      | |- keeps_sessions (if ?b then _ else _) => destruct b
      | |- keeps_sessions (match ?x with _ => _ end) => destruct x
      end
    | apply keeps_bind
    | apply keeps_try
    | apply keeps_for_each
    | solve [eauto with frame] ].

(** ** The chat pipelines *)

Section RouteProperties.
Context {World float : Type}.
Variable lower_ext : pystr -> char -> pystr -> pystr.
Variable session_get : pystr -> World -> result Response * World.
Variable brave_cards : pystr -> list BraveCard.
Variable bing_items : pystr -> list BingItem.
Variable google_items : pystr -> list GoogleItem.
Variable visible_text : pystr -> result pystr.
Variable lm_studio_url : pystr.
Variable requests_post :
  pystr -> Payload float -> Z -> World -> result Response * World.
Variable json_loads : pystr -> result json.
Variable py_repr : json -> pystr.
Variable json_error_is_request_exception : bool.
Variable temperature_0_7 : float.
Variable uuid4 : World -> pystr * World.
Variable now_isoformat : World -> pystr * World.
Variable save_chat_sessions : gmap pystr Session -> World -> World.
Variable exn_str : exn -> pystr.

Local Abbreviation State := (@State World).
Local Abbreviation M := (@M World).
Local Abbreviation search_and_scrape :=
  (search_and_scrape lower_ext session_get brave_cards bing_items
                     google_items visible_text).
Local Abbreviation web_context_for :=
  (web_context_for lower_ext session_get brave_cards bing_items
                   google_items visible_text).
Local Abbreviation query_lm_studio :=
  (query_lm_studio lower_ext lm_studio_url requests_post py_repr
                   json_error_is_request_exception).
Local Abbreviation query_lm_studio_stream :=
  (query_lm_studio_stream lm_studio_url requests_post json_loads py_repr
                          json_error_is_request_exception).
Local Abbreviation chat :=
  (chat lower_ext session_get brave_cards bing_items google_items
        visible_text lm_studio_url requests_post py_repr
        json_error_is_request_exception).
Local Abbreviation chat_exchange :=
  (chat_exchange lower_ext session_get brave_cards bing_items
                 google_items visible_text lm_studio_url requests_post py_repr
                 json_error_is_request_exception temperature_0_7 now_isoformat
                 save_chat_sessions).
Local Abbreviation generate :=
  (generate lm_studio_url requests_post json_loads py_repr
            json_error_is_request_exception temperature_0_7 now_isoformat
            save_chat_sessions exn_str).
Local Abbreviation stream_exchange :=
  (stream_exchange lower_ext session_get brave_cards bing_items
                   google_items visible_text lm_studio_url requests_post
                   json_loads py_repr json_error_is_request_exception
                   temperature_0_7 now_isoformat save_chat_sessions exn_str).

Lemma keeps_search_and_scrape (query : pystr) (num_urls : Z) :
  keeps_sessions (search_and_scrape query num_urls).
Proof.
  unfold search_and_scrape.
  assert (Hscrape : forall url n, keeps_sessions (scrape_url session_get visible_text url n)).
  { intros url n. unfold scrape_url. frame. }
  assert (Hengines : forall engines,
             keeps_sessions (first_engine session_get bing_items
                               google_items engines num_urls)).
  { induction engines as [|[url e] engines IH]; simpl; [frame|].
    apply keeps_bind; [unfold try_engine; frame|].
    intros [results|]; [frame|exact IH]. }
  apply keeps_bind.
  - unfold search_google. apply keeps_bind; [unfold search_brave; frame|].
    intros results. apply keeps_bind; [|frame].
    destruct results; [|frame].
    unfold search_html_fallback.
    apply keeps_bind; [apply keeps_lift|]. intros bing.
    apply keeps_bind; [apply keeps_lift|]. intros google.
    apply Hengines.
  - intros results. destruct results; [frame|].
    apply keeps_bind; [|frame]. apply keeps_for_each.
    intros r. unfold scrape_result. apply keeps_bind; [apply Hscrape|]. frame.
Qed.

Lemma keeps_web_context_for (user_query : pystr) :
  keeps_sessions (web_context_for user_query).
Proof.
  unfold web_context_for. destruct (should_search_web lower_ext user_query); [|frame].
  apply keeps_bind; [apply keeps_search_and_scrape|frame].
Qed.

Lemma keeps_query_lm_studio (messages : list ChatMessage) (temperature : float)
      (max_tokens : Z) :
  keeps_sessions (query_lm_studio messages temperature max_tokens).
Proof.
  intros st. unfold query_lm_studio.
  match goal with
  | |- context [try_except ?m ?hs ?h st] =>
      apply (keeps_try m hs h); [|frame]
  end.
  apply keeps_bind; [frame|]. intros response.
  destruct (negb (resp_ok response)); [|frame].
  apply keeps_bind; [|frame].
  destruct (_ && _); [|frame].
  unfold retry_with_listed_model. frame.
Qed.

Lemma keeps_query_lm_studio_stream (messages : list ChatMessage)
      (temperature : float) (max_tokens timeout : Z) :
  keeps_sessions (query_lm_studio_stream messages temperature max_tokens timeout).
Proof.
  intros st. unfold query_lm_studio_stream.
  match goal with
  | |- context [try_except ?m ?hs ?h st] =>
      apply (keeps_try m hs h); [|frame]
  end.
  apply keeps_bind; [frame|]. intros resp.
  destruct (negb (resp_ok resp)); [frame|].
  destruct (stream_lines json_loads (resp_lines resp)) as [chunks stopped]. frame.
Qed.

Lemma keeps_chat (user_query : pystr) (history : option (list ChatMessage))
      (temperature : float) (document_context : option pystr) :
  keeps_sessions (chat user_query history temperature document_context).
Proof.
  unfold chat. apply keeps_bind; [apply keeps_web_context_for|]. intros web.
  apply keeps_bind; [apply keeps_query_lm_studio|frame].
Qed.

(** *** Sessions *)

Lemma sessions_of_set (l : bool) (m : gmap pystr Session) (st : State) :
  sessions_of l (set_sessions_of l m st) = m.
Proof. destruct l; reflexivity. Qed.

Lemma sessions_of_kept {A} (m : M A) (l : bool) (st : State) :
  keeps_sessions m -> sessions_of l (snd (m st)) = sessions_of l st.
Proof. intros H. destruct (H st) as [H1 H2]. destruct l; assumption. Qed.

Lemma get_session_run (l : bool) (chat_id : pystr) (session : Session) (st : State) :
  sessions_of l st !! chat_id = Some session ->
  get_session l chat_id st = (Ok session, st).
Proof. intros H. unfold get_session. rewrite H. reflexivity. Qed.

Lemma update_session_run (l : bool) (chat_id : pystr) (f : Session -> Session)
      (session : Session) (st : State) :
  sessions_of l st !! chat_id = Some session ->
  update_session l chat_id f st
  = (Ok tt, set_sessions_of l (<[chat_id := f session]> (sessions_of l st)) st).
Proof.
  intros H. unfold update_session, bind. rewrite (get_session_run _ _ _ _ H).
  reflexivity.
Qed.

(** Appending a turn: the session gets it, stamped by the clock. *)
Lemma append_turn_run (l : bool) (chat_id role content : pystr)
      (session : Session) (st : State) :
  sessions_of l st !! chat_id = Some session ->
  exists timestamp st',
    append_turn now_isoformat l chat_id role content st = (Ok tt, st')
    /\ sessions_of l st' !! chat_id
       = Some (with_message session {| t_role := role; t_content := content;
                                       t_timestamp := timestamp |}).
Proof.
  intros H. unfold append_turn, bind, io.
  destruct (now_isoformat (world st)) as [timestamp w] eqn:Hnow.
  exists timestamp. eexists. split.
  - rewrite update_session_run with (session := session).
    + reflexivity.
    + destruct l; exact H.
  - rewrite sessions_of_set. apply lookup_insert_eq.
Qed.

Lemma append_user_turn_run (l : bool) (chat_id message : pystr)
      (session : Session) (st : State) :
  sessions_of l st !! chat_id = Some session ->
  append_turn now_isoformat l chat_id (py "user") message st
  = (Ok tt, with_user_turn now_isoformat l chat_id message session st)
  /\ exists asked,
      sessions_of l (with_user_turn now_isoformat l chat_id message session st)
        !! chat_id
      = Some (with_message session {| t_role := py "user"; t_content := message;
                                      t_timestamp := asked |}).
Proof.
  intros H. unfold append_turn, with_user_turn, bind, io.
  destruct (now_isoformat (world st)) as [timestamp w] eqn:Hnow. split.
  - rewrite update_session_run with (session := session).
    + destruct l; reflexivity.
    + destruct l; exact H.
  - exists timestamp. rewrite sessions_of_set. apply lookup_insert_eq.
Qed.

(** The end of a route for a logged-in user returns and leaves the
    messages of the session as they are. *)
Lemma finish_logged_in_run (chat_id message : pystr) (session : Session) (st : State) :
  sessions_of true st !! chat_id = Some session ->
  exists final st',
    finish_logged_in now_isoformat save_chat_sessions chat_id message st = (Ok tt, st')
    /\ sessions_of true st' !! chat_id = Some final
    /\ s_messages final = s_messages session.
Proof.
  intros H. unfold finish_logged_in, bind at 1, io at 1.
  destruct (now_isoformat (world st)) as [updated_at w] eqn:Hnow.
  unfold bind at 1.
  rewrite update_session_run with (session := session) by exact H.
  set (st1 := set_sessions_of true _ _).
  assert (H1 : sessions_of true st1 !! chat_id = Some (with_updated_at session updated_at)).
  { unfold st1. rewrite sessions_of_set. apply lookup_insert_eq. }
  unfold bind at 1. rewrite (get_session_run _ _ _ _ H1).
  simpl s_messages.
  destruct (length (s_messages session) =? 2)%nat.
  - unfold bind at 1.
    rewrite update_session_run with (session := with_updated_at session updated_at)
      by exact H1.
    set (st2 := set_sessions_of true _ st1).
    unfold bind, get_state, io, ret. simpl.
    eexists _, _. split; [reflexivity|]. split.
    + simpl. apply lookup_insert_eq.
    + reflexivity.
  - unfold bind, get_state, io, ret. simpl.
    eexists _, _. split; [reflexivity|]. split.
    + simpl. apply lookup_insert_eq.
    + reflexivity.
Qed.

(** *** The two exchanges *)

Lemma bind_ok {A B} (m : M A) (k : A -> M B) (st st' : State) (a : A) :
  m st = (Ok a, st') -> bind m k st = k a st'.
Proof. intros H. unfold bind. rewrite H. reflexivity. Qed.

Lemma bind_raise {A B} (m : M A) (k : A -> M B) (st st' : State) (e : exn) :
  m st = (Raise e, st') -> bind m k st = (Raise e, st').
Proof. intros H. unfold bind. rewrite H. reflexivity. Qed.

Lemma prefix_shown (show : bool) (text : pystr) :
  (if show then login_reminder ++ text else text) = reminder_prefix show ++ text.
Proof. destruct show; reflexivity. Qed.

Lemma history_option_map (session : Session) :
  match List.map to_chat_message (s_messages session) with
  | [] => None
  | _ :: _ => Some (List.map to_chat_message (s_messages session))
  end = history_option (history_of session).
Proof. reflexivity. Qed.

(** The end of both exchanges: the answer is appended, and for a
    logged-in user the session is stamped and saved. *)
Lemma record_answer (l : bool) (chat_id message answer : pystr) {A} (reply : A)
      (before : list Turn) (session : Session) (st : State) :
  sessions_of l st !! chat_id = Some session ->
  (exists asked,
      s_messages session
      = before ++ [{| t_role := py "user"; t_content := message;
                      t_timestamp := asked |}]) ->
  exists st' final,
    bind (append_turn now_isoformat l chat_id (py "assistant") answer)
         (fun _ =>
            bind (if l
                  then finish_logged_in now_isoformat save_chat_sessions chat_id message
                  else ret tt)
                 (fun _ => ret reply)) st
    = (Ok reply, st')
    /\ sessions_of l st' !! chat_id = Some final
    /\ exchange_recorded before message answer final.
Proof.
  intros Hl [asked Hm].
  destruct (append_turn_run l chat_id (py "assistant") answer session st Hl)
    as (answered & st1 & Happ & Hl1).
  rewrite (bind_ok _ _ _ _ _ Happ).
  assert (Hrec : forall final : Session,
             s_messages final
             = s_messages (with_message session
                             {| t_role := py "assistant"; t_content := answer;
                                t_timestamp := answered |}) ->
             exchange_recorded before message answer final).
  { intros final Hf. exists asked, answered. rewrite Hf. simpl.
    rewrite Hm, <- app_assoc. reflexivity. }
  destruct l.
  - destruct (finish_logged_in_run chat_id message _ st1 Hl1)
      as (final & st2 & Hfin & Hl2 & Hmsgs).
    rewrite (bind_ok _ _ _ _ _ Hfin). exists st2, final.
    split; [reflexivity|]. split; [exact Hl2|]. apply Hrec, Hmsgs.
  - exists st1. eexists. split; [reflexivity|]. split; [exact Hl1|].
    apply Hrec. reflexivity.
Qed.

(** The blocking exchange, when the chatbot returns [out]. *)
Lemma chat_exchange_run (l : bool) (chat_id message : pystr)
      (document_context : option pystr) (session : Session) (st st2 : State)
      (out : pystr) :
  sessions_of l st !! chat_id = Some session ->
  chat message (history_option (history_of session)) temperature_0_7 document_context
       (with_user_turn now_isoformat l chat_id message session st)
  = (Ok out, st2) ->
  let answer := reminder_prefix (show_reminder l session) ++ out in
  exists st3 final,
    chat_exchange l chat_id message document_context st
    = (Ok (ChatSuccess chat_id answer (negb l)), st3)
    /\ sessions_of l st3 !! chat_id = Some final
    /\ exchange_recorded (s_messages session) message answer final.
Proof.
  intros Hl Hchat answer.
  destruct (append_user_turn_run l chat_id message session st Hl)
    as [Happ [asked Hl1]].
  set (st1 := with_user_turn now_isoformat l chat_id message session st) in *.
  unfold chat_exchange.
  rewrite (bind_ok _ _ _ _ _ (get_session_run _ _ _ _ Hl)).
  rewrite (bind_ok _ _ _ _ _ Happ).
  rewrite (bind_ok _ _ _ _ _ (get_session_run _ _ _ _ Hl1)).
  simpl s_messages. rewrite removelast_last, history_option_map.
  rewrite (bind_ok _ _ _ _ _ Hchat). rewrite prefix_shown. fold answer.
  assert (Hl2 : sessions_of l st2 !! chat_id
                = Some (with_message session
                          {| t_role := py "user"; t_content := message;
                             t_timestamp := asked |})).
  { pose proof (sessions_of_kept _ l st1
                  (keeps_chat message (history_option (history_of session))
                              temperature_0_7 document_context)) as Hk.
    rewrite Hchat in Hk. simpl in Hk. rewrite Hk. exact Hl1. }
  apply (record_answer l chat_id message answer _ (s_messages session) _ st2 Hl2).
  exists asked. reflexivity.
Qed.

Lemma try_ok {A} (m : M A) (handles : exn -> bool) (handler : exn -> M A)
      (st st' : State) (a : A) :
  m st = (Ok a, st') -> try_except m handles handler st = (Ok a, st').
Proof. intros H. unfold try_except. rewrite H. reflexivity. Qed.

Lemma bind_ret_r {A} (m : M A) (st : State) : bind m (fun a => ret a) st = m st.
Proof. unfold bind, ret. destruct (m st) as [[a|e] st']; reflexivity. Qed.

Lemma concat_prefixes (show searched : bool) (chunks : list pystr) :
  concat ((if show then [login_reminder] else [])
          ++ (if searched then [search_notice] else []) ++ chunks)
  = reminder_prefix show ++ notice_prefix searched ++ concat chunks.
Proof. destruct show, searched; reflexivity. Qed.

(** The generator, when the model client yields [chunks]. *)
Lemma generate_run (l show searched : bool) (chat_id message : pystr)
      (messages : list ChatMessage) (before : list Turn) (session : Session)
      (st st' : State) (chunks : list pystr) :
  sessions_of l st !! chat_id = Some session ->
  (exists asked,
      s_messages session
      = before ++ [{| t_role := py "user"; t_content := message;
                      t_timestamp := asked |}]) ->
  query_lm_studio_stream messages temperature_0_7 (-1) 120 st = (Ok chunks, st') ->
  let final_text := reminder_prefix show ++ notice_prefix searched ++ concat chunks in
  exists st'' final,
    generate l show searched chat_id message messages st
    = (Ok (List.map Delta ((if show then [login_reminder] else [])
                           ++ (if searched then [search_notice] else []) ++ chunks)
           ++ [Done chat_id final_text (negb l)]),
       st'')
    /\ sessions_of l st'' !! chat_id = Some final
    /\ exchange_recorded before message final_text final.
Proof.
  intros Hl Hm Hstream final_text.
  assert (Hl' : sessions_of l st' !! chat_id = Some session).
  { pose proof (sessions_of_kept _ l st
                  (keeps_query_lm_studio_stream messages temperature_0_7 (-1) 120)) as Hk.
    rewrite Hstream in Hk. simpl in Hk. rewrite Hk. exact Hl. }
  unfold generate.
  destruct (record_answer l chat_id message final_text
              (List.map Delta ((if show then [login_reminder] else [])
                               ++ (if searched then [search_notice] else []) ++ chunks)
               ++ [Done chat_id final_text (negb l)])
              before session st' Hl' Hm) as (st'' & final & Hrec & Hl'' & Hex).
  exists st'', final. split; [|split; assumption].
  apply try_ok. rewrite (bind_ok _ _ _ _ _ Hstream).
  rewrite concat_prefixes. exact Hrec.
Qed.

(** The web search of a request, by its outcome: the block of at most
    two results, or the exception of the search. *)
Lemma web_context_for_cases (user_query : pystr) (st : State) :
  match web_context_for user_query st with
  | (Ok block, st') =>
      exists results,
        block = web_context_block results /\ (length results <= 2)%nat
  | (Raise e, st') =>
      should_search_web lower_ext user_query = true
      /\ search_and_scrape (extract_search_query lower_ext user_query) 2 st
         = (Raise e, st')
  end.
Proof.
  unfold web_context_for. destruct (should_search_web lower_ext user_query).
  - unfold bind.
    destruct (search_and_scrape _ 2 st) as [[bundle|e] st'] eqn:Hrun.
    + exists (bundle_results bundle). split; [reflexivity|].
      apply (search_and_scrape_count lower_ext session_get brave_cards
               bing_items google_items visible_text
               (extract_search_query lower_ext user_query) 2 st bundle st');
        [lia|exact Hrun].
    + split; reflexivity.
  - exists []. split; [reflexivity|simpl; lia].
Qed.

(** The web search returns when the search query can be quoted. *)
Lemma web_context_for_run (user_query : pystr) (st : State) :
  existsb surrogate (extract_search_query lower_ext user_query) = false ->
  exists results st',
    web_context_for user_query st = (Ok (web_context_block results), st')
    /\ (length results <= 2)%nat.
Proof.
  intros Hs.
  pose proof (web_context_for_cases user_query st) as Hc.
  destruct (web_context_for user_query st) as [[block|e] st'].
  - destruct Hc as (results & -> & Hlen). eauto.
  - destruct Hc as [_ Hraise].
    destruct (search_and_scrape_returns lower_ext session_get brave_cards
                bing_items google_items visible_text
                (extract_search_query lower_ext user_query) 2 st Hs)
      as (bundle & st1 & Hok).
    rewrite Hok in Hraise. discriminate.
Qed.

(** The streaming exchange up to the generator. *)
Lemma stream_exchange_start (l : bool) (chat_id message : pystr)
      (document_context : option pystr) (session : Session) (st st2 : State)
      (web_context : pystr) (searched : bool) :
  sessions_of l st !! chat_id = Some session ->
  web_context_for message (with_user_turn now_isoformat l chat_id message session st)
  = (Ok (web_context, searched), st2) ->
  stream_exchange l chat_id message document_context st
  = bind (generate l (show_reminder l session) searched chat_id message
            (compose_messages stream_system_prompt (Some (history_of session))
                              document_context web_context message))
         (fun events => ret (Stream events)) st2
  /\ exists asked,
      sessions_of l st2 !! chat_id
      = Some (with_message session {| t_role := py "user"; t_content := message;
                                      t_timestamp := asked |}).
Proof.
  intros Hl Hweb.
  destruct (append_user_turn_run l chat_id message session st Hl)
    as [Happ [asked Hl1]].
  set (st1 := with_user_turn now_isoformat l chat_id message session st) in *.
  split.
  - unfold stream_exchange.
    rewrite (bind_ok _ _ _ _ _ (get_session_run _ _ _ _ Hl)).
    rewrite (bind_ok _ _ _ _ _ Happ).
    rewrite (bind_ok _ _ _ _ _ (get_session_run _ _ _ _ Hl1)).
    simpl s_messages. rewrite removelast_last.
    rewrite (bind_ok _ _ _ _ _ Hweb). reflexivity.
  - exists asked.
    pose proof (sessions_of_kept _ l st1 (keeps_web_context_for message)) as Hk.
    rewrite Hweb in Hk. simpl in Hk. rewrite Hk. exact Hl1.
Qed.

(** The streaming exchange, when the model client yields [chunks]. *)
Lemma stream_exchange_run (l : bool) (chat_id message : pystr)
      (document_context : option pystr) (session : Session) (st st2 st3 : State)
      (web_context : pystr) (searched : bool) (chunks : list pystr) :
  sessions_of l st !! chat_id = Some session ->
  web_context_for message (with_user_turn now_isoformat l chat_id message session st)
  = (Ok (web_context, searched), st2) ->
  query_lm_studio_stream
    (compose_messages stream_system_prompt (Some (history_of session))
                      document_context web_context message)
    temperature_0_7 (-1) 120 st2 = (Ok chunks, st3) ->
  let show := show_reminder l session in
  let final_text := reminder_prefix show ++ notice_prefix searched ++ concat chunks in
  exists st4 final,
    stream_exchange l chat_id message document_context st
    = (Ok (Stream (List.map Delta ((if show then [login_reminder] else [])
                                   ++ (if searched then [search_notice] else [])
                                   ++ chunks)
                   ++ [Done chat_id final_text (negb l)])),
       st4)
    /\ sessions_of l st4 !! chat_id = Some final
    /\ exchange_recorded (s_messages session) message final_text final.
Proof.
  intros Hl Hweb Hstream show final_text.
  destruct (stream_exchange_start l chat_id message document_context session st st2
              web_context searched Hl Hweb) as [Hstart [asked Hl2]].
  destruct (generate_run l show searched chat_id message _ (s_messages session) _
              st2 st3 chunks Hl2 (ex_intro _ asked eq_refl) Hstream)
    as (st4 & final & Hgen & Hl4 & Hex).
  exists st4, final. split; [|split; assumption].
  rewrite Hstart, (bind_ok _ _ _ _ _ Hgen). reflexivity.
Qed.

Lemma source_entries_length (idx : nat) (results : list ScrapedDocument) :
  length (source_entries idx results) = length results.
Proof.
  revert idx. induction results as [|r results IH]; intros idx; simpl;
    [reflexivity|]. rewrite IH. reflexivity.
Qed.

(** C9. Both chat pipelines get their web context from the one search
    of a request, which calls [search_and_scrape] with two URLs when
    the message asks for a search, and is not made otherwise.  Whenever
    the search gives a web context, it is the block of at most two
    results: nothing, or the header and the entry of source 1, or the
    header and the entries of source 1 and source 2.  [SimpleChatbot.chat]
    asks the model with the messages composed from that block, and the
    streaming route hands the messages composed from that block to its
    generator.  The search returns when its query can be quoted for a
    URL; when the search raises, no block is made and the exception
    leaves the pipeline. *)
Theorem web_context_two_sources :
  (forall user_query (st : State),
      match web_context_for user_query st with
      | (Ok block, st') =>
          (block = ([], false))
          \/ (exists r1,
                 block = (web_context_header ++ source_entry 1 r1, true))
          \/ (exists r1 r2,
                 block = (web_context_header ++ source_entry 1 r1
                          ++ source_entry 2 r2, true))
      | (Raise e, st') =>
          should_search_web lower_ext user_query = true
          /\ search_and_scrape (extract_search_query lower_ext user_query) 2 st
             = (Raise e, st')
      end)
  /\ (forall user_query (st : State),
         should_search_web lower_ext user_query = true ->
         web_context_for user_query st
         = match search_and_scrape (extract_search_query lower_ext user_query) 2 st
           with
           | (Ok web_data, st') => (Ok (web_context_of web_data), st')
           | (Raise e, st') => (Raise e, st')
           end)
  /\ (forall user_query (st : State),
         should_search_web lower_ext user_query = false ->
         web_context_for user_query st = (Ok ([], false), st))
  /\ (forall user_query (st : State),
         existsb surrogate (extract_search_query lower_ext user_query) = false ->
         exists block st', web_context_for user_query st = (Ok block, st'))
  /\ (forall user_query history temperature document_context (st : State),
         match web_context_for user_query st with
         | (Ok block, st1) =>
             chat user_query history temperature document_context st
             = query_lm_studio
                 (compose_messages chat_system_prompt history document_context
                                   (fst block) user_query)
                 temperature (-1) st1
         | (Raise e, st1) =>
             chat user_query history temperature document_context st
             = (Raise e, st1)
         end)
  /\ (forall l chat_id message document_context session (st : State),
         sessions_of l st !! chat_id = Some session ->
         match web_context_for message
                 (with_user_turn now_isoformat l chat_id message session st)
         with
         | (Ok block, st1) =>
             stream_exchange l chat_id message document_context st
             = bind (generate l (show_reminder l session) (snd block)
                              chat_id message
                              (compose_messages stream_system_prompt
                                 (Some (history_of session)) document_context
                                 (fst block) message))
                    (fun events => ret (Stream events)) st1
         | (Raise e, st1) =>
             stream_exchange l chat_id message document_context st
             = (Raise e, st1)
         end).
Proof.
  split; [|split; [|split; [|split; [|split]]]].
  - intros user_query st.
    pose proof (web_context_for_cases user_query st) as Hc.
    destruct (web_context_for user_query st) as [[block|e] st']; [|exact Hc].
    destruct Hc as (results & -> & Hlen).
    destruct results as [|r1 [|r2 [|r3 rest]]]; simpl in Hlen; [| | |lia].
    + left. reflexivity.
    + right. left. exists r1. unfold web_context_block. simpl.
      rewrite app_nil_r. reflexivity.
    + right. right. exists r1, r2. unfold web_context_block. simpl.
      rewrite app_nil_r. reflexivity.
  - intros user_query st Hsearch. unfold web_context_for. rewrite Hsearch.
    unfold bind, ret.
    destruct (search_and_scrape _ 2 st) as [[web_data|e] st']; reflexivity.
  - intros user_query st Hsearch. unfold web_context_for. rewrite Hsearch.
    reflexivity.
  - intros user_query st Hs.
    destruct (web_context_for_run user_query st Hs) as (results & st' & Hrun & _).
    eauto.
  - intros user_query history temperature document_context st.
    destruct (web_context_for user_query st) as [[block|e] st1] eqn:Hrun.
    + unfold chat. rewrite (bind_ok _ _ _ _ _ Hrun). apply bind_ret_r.
    + unfold chat. apply bind_raise. exact Hrun.
  - intros l chat_id message document_context session st Hl.
    destruct (web_context_for message
                (with_user_turn now_isoformat l chat_id message session st))
      as [[[web_context searched]|e] st1] eqn:Hrun.
    + apply (stream_exchange_start l chat_id message document_context session st st1
               web_context searched Hl Hrun).
    + destruct (append_user_turn_run l chat_id message session st Hl)
        as [Happ [asked Hl1]].
      unfold stream_exchange.
      rewrite (bind_ok _ _ _ _ _ (get_session_run _ _ _ _ Hl)).
      rewrite (bind_ok _ _ _ _ _ Happ).
      rewrite (bind_ok _ _ _ _ _ (get_session_run _ _ _ _ Hl1)).
      simpl s_messages. rewrite removelast_last.
      apply bind_raise. exact Hrun.
Qed.



(** *** From the routes to the exchanges *)

Local Abbreviation open_session := (open_session uuid4 now_isoformat).
Local Abbreviation chat_route :=
  (chat_route lower_ext session_get brave_cards bing_items google_items
              visible_text lm_studio_url requests_post py_repr
              json_error_is_request_exception temperature_0_7 uuid4 now_isoformat
              save_chat_sessions exn_str).
Local Abbreviation chat_stream :=
  (chat_stream lower_ext session_get brave_cards bing_items google_items
               visible_text lm_studio_url requests_post json_loads py_repr
               json_error_is_request_exception temperature_0_7 uuid4 now_isoformat
               save_chat_sessions exn_str).

(** An anonymous request without a known chat id opens a session
    without turns. *)
Lemma open_session_anonymous (chat_id user_id : option pystr) (message : pystr)
      (st : State) :
  needs_new_session chat_id (anonymous_sessions st) = true ->
  exists new_id session st',
    open_session false chat_id user_id message st = (Ok (Some new_id), st')
    /\ sessions_of false st' !! new_id = Some session
    /\ s_messages session = [].
Proof.
  intros Hnew. unfold open_session.
  rewrite (bind_ok get_state _ st st st eq_refl).
  simpl sessions_of. rewrite Hnew.
  unfold new_session. unfold bind, io, modify, ret.
  destruct (uuid4 (world st)) as [new_id w1]. simpl.
  destruct (now_isoformat w1) as [created_at w2]. simpl.
  eexists new_id, _, _. split; [reflexivity|]. split.
  - simpl. apply lookup_insert_eq.
  - reflexivity.
Qed.

(** A request with a message goes on to the exchange in the session that
    was opened; what the exchange raises becomes a failure answer. *)
Lemma chat_route_exchange (data : ChatRequest) (chat_id : pystr) (st st0 : State) :
  strip (rq_message data) <> [] ->
  open_session (logged_in (rq_user_id data)) (rq_chat_id data) (rq_user_id data)
               (strip (rq_message data)) st = (Ok (Some chat_id), st0) ->
  chat_route data st =
  match chat_exchange (logged_in (rq_user_id data)) chat_id (strip (rq_message data))
                      (rq_document_context data) st0 with
  | (Ok reply, st') => (Ok reply, st')
  | (Raise e, st') =>
      (Ok (ChatFailure (py "An error occurred: " ++ exn_str e) 500), st')
  end.
Proof.
  intros Hmsg Hopen. unfold chat_route, try_except. cbv zeta.
  rewrite (nonempty_true _ Hmsg). cbn [negb].
  rewrite (bind_ok _ _ _ _ _ Hopen).
  destruct (chat_exchange _ _ _ _ st0) as [[reply|e] st']; reflexivity.
Qed.

Lemma chat_stream_exchange (data : ChatRequest) (chat_id : pystr) (st st0 : State) :
  strip (rq_message data) <> [] ->
  open_session (logged_in (rq_user_id data)) (rq_chat_id data) (rq_user_id data)
               (strip (rq_message data)) st = (Ok (Some chat_id), st0) ->
  chat_stream data st =
  match stream_exchange (logged_in (rq_user_id data)) chat_id
                        (strip (rq_message data)) (rq_document_context data) st0 with
  | (Ok reply, st') => (Ok reply, st')
  | (Raise e, st') => (Ok (StreamFailure (exn_str e) 500), st')
  end.
Proof.
  intros Hmsg Hopen. unfold chat_stream, try_except. cbv zeta.
  rewrite (nonempty_true _ Hmsg). cbn [negb].
  rewrite (bind_ok _ _ _ _ _ Hopen).
  destruct (stream_exchange _ _ _ _ st0) as [[reply|e] st']; reflexivity.
Qed.

End RouteProperties.



Lemma web_context_two_sources_witness :
  exists block st1,
    web_context_for no_ext brave_only_get one_bare_card no_bing no_google
                    plain_text (py "latest news")
                    (with_user_turn fixed_now false (py "session-1")
                                    (py "latest news") fresh_session fresh_state)
    = (Ok block, st1)
    /\ stream_exchange no_ext brave_only_get one_bare_card no_bing
                       no_google plain_text
                       (py "http://localhost:1200/v1/chat/completions")
                       hi_post hi_loads no_repr true tt fixed_now no_save no_exn_str
                       false (py "session-1") (py "latest news") None fresh_state
       = bind (generate (py "http://localhost:1200/v1/chat/completions")
                        hi_post hi_loads no_repr true tt fixed_now no_save no_exn_str
                        false (show_reminder false fresh_session) (snd block)
                        (py "session-1") (py "latest news")
                        (compose_messages stream_system_prompt
                           (Some (history_of fresh_session)) None
                           (fst block) (py "latest news")))
              (fun events => ret (Stream events)) st1.
Proof.
  destruct (web_context_two_sources no_ext brave_only_get one_bare_card
              no_bing no_google plain_text
              (py "http://localhost:1200/v1/chat/completions")
              hi_post hi_loads no_repr true tt fixed_now no_save no_exn_str)
    as (_ & _ & _ & _ & _ & H).
  specialize (H false (py "session-1") (py "latest news") None fresh_session
                fresh_state).
  destruct (web_context_for no_ext brave_only_get one_bare_card no_bing no_google
              plain_text (py "latest news")
              (with_user_turn fixed_now false (py "session-1")
                              (py "latest news") fresh_session fresh_state))
    as [[block|e] st1] eqn:Hrun.
  - exists block, st1. split; [reflexivity|]. apply H. vm_compute. reflexivity.
  - vm_compute in Hrun. discriminate.
Defined.

(** * Further properties *)

(** ** Web search aggregator *)

Lemma omap_length_le {A B} (f : A -> option B) (l : list A) :
  (length (omap f l) <= length l)%nat.
Proof.
  induction l as [|x l IH]; [simpl; lia|].
  change (omap f (x :: l))
    with (match f x with Some y => y :: omap f l | None => omap f l end).
  destruct (f x); simpl; lia.
Qed.

Lemma slice_to_length {A} (n : Z) (l : list A) :
  (0 <= n)%Z -> (length (slice_to n l) <= Z.to_nat n)%nat.
Proof.
  intros Hn. unfold slice_to. destruct (Z.leb_spec 0 n) as [_|?]; [|lia].
  rewrite length_take. lia.
Qed.

Lemma brave_result_wellformed (card : BraveCard) (r : SearchResult) :
  brave_result card = Some r -> wellformed_result r.
Proof.
  unfold brave_result, brave_card, rbind.
  destruct (bc_title card) as [title|]; [|discriminate].
  destruct (bc_cite card); [|discriminate].
  destruct (bc_anchor card) as [[href|]|]; try discriminate.
  destruct (nonempty href) eqn:Hu; [|discriminate].
  destruct (nonempty title) eqn:Ht; [|discriminate].
  destruct (startswith (py "javascript:") href) eqn:Hj; [discriminate|].
  simpl. intros [= <-]. repeat split; simpl.
  - destruct title; [discriminate|easy].
  - destruct href; [discriminate|easy].
  - exact Hj.
Qed.

Section AggregatorProperties.
Context {World : Type}.
Variable lower_ext : pystr -> char -> pystr -> pystr.
Variable session_get : pystr -> World -> result Response * World.
Variable brave_cards : pystr -> list BraveCard.
Variable bing_items : pystr -> list BingItem.
Variable google_items : pystr -> list GoogleItem.
Variable visible_text : pystr -> result pystr.

Local Abbreviation State := (@State World).
Local Abbreviation search_brave := (search_brave session_get brave_cards).
Local Abbreviation try_engine :=
  (try_engine session_get bing_items google_items).
Local Abbreviation search_html_fallback :=
  (search_html_fallback session_get bing_items google_items).
Local Abbreviation search_google :=
  (search_google lower_ext session_get brave_cards bing_items google_items).
Local Abbreviation scrape_url := (scrape_url session_get visible_text).
Local Abbreviation search_and_scrape :=
  (search_and_scrape lower_ext session_get brave_cards bing_items
                     google_items visible_text).

(** What [search_brave] does, by the quoting of the query and the
    answer of the network. *)
Lemma search_brave_run (query : pystr) (num_results : Z) (st : State) :
  search_brave query num_results st =
  match quote_plus query with
  | Raise _ => (Ok [], st)
  | Ok quoted =>
      match session_get (py "https://search.brave.com/search?q=" ++ quoted)
                        (world st) with
      | (Ok response, w) =>
          if (status_code response =? 200)%Z
          then (Ok (omap brave_result
                      (slice_to num_results (brave_cards (resp_text response)))),
                set_world w st)
          else (Ok [], set_world w st)
      | (Raise _, w) => (Ok [], set_world w st)
      end
  end.
Proof.
  unfold search_brave, try_except, bind, io, lift, ret.
  destruct (quote_plus query) as [quoted|e]; [|reflexivity].
  destruct (session_get _ (world st)) as [[response|e] w]; simpl; [|reflexivity].
  destruct (status_code response =? 200)%Z; reflexivity.
Qed.

(** X1. [search_brave] never raises; every result it returns has a
    title and a URL that is no script link; for a bound that is not
    negative it returns at most that many results; and it returns none
    when the request fails or is answered with a status other than
    200, and none, without a request, when the query cannot be quoted
    for the URL. *)
Theorem search_brave_results (query : pystr) (num_results : Z) (st : State) :
  exists results st',
    search_brave query num_results st = (Ok results, st')
    /\ Forall wellformed_result results
    /\ ((0 <= num_results)%Z -> (length results <= Z.to_nat num_results)%nat)
    /\ (forall quoted e w,
           quote_plus query = Ok quoted ->
           session_get (py "https://search.brave.com/search?q=" ++ quoted)
                       (world st) = (Raise e, w) -> results = [])
    /\ (forall quoted response w,
           quote_plus query = Ok quoted ->
           session_get (py "https://search.brave.com/search?q=" ++ quoted)
                       (world st) = (Ok response, w) ->
           status_code response <> 200%Z -> results = [])
    /\ (forall e, quote_plus query = Raise e -> results = [] /\ st' = st).
Proof.
  rewrite search_brave_run.
  destruct (quote_plus query) as [quoted|e0].
  2:{ eexists _, _. split; [reflexivity|].
      repeat split; try constructor; simpl; try lia; try reflexivity;
        discriminate. }
  destruct (session_get _ (world st)) as [[response|e] w] eqn:Hget.
  - destruct (Z.eqb_spec (status_code response) 200) as [H200|Hne].
    + eexists _, _. split; [reflexivity|]. split; [|split; [|split; [|split]]].
      * apply Forall_forall. intros r Hr.
        apply list_elem_of_omap in Hr as (card & _ & Hcard).
        exact (brave_result_wellformed card r Hcard).
      * intros Hn.
        etransitivity; [apply omap_length_le|]. now apply slice_to_length.
      * intros q ? ? [= <-] Hg. rewrite Hget in Hg. discriminate.
      * intros q ? ? [= <-] Hg Hs. rewrite Hget in Hg.
        injection Hg as <- <-. contradiction.
      * discriminate.
    + eexists _, _. split; [reflexivity|].
      repeat split; try constructor; simpl; try lia; try reflexivity;
        discriminate.
  - eexists _, _. split; [reflexivity|].
    repeat split; try constructor; simpl; try lia; try reflexivity;
      discriminate.
Qed.

(** What one fallback engine does, by the answer of the network. *)
Lemma try_engine_run (url : pystr) (e : engine) (num_results : Z) (st : State) :
  try_engine url e num_results st =
  match session_get url (world st) with
  | (Ok response, w) =>
      if (status_code response =? 200)%Z then
        match
          match e with
          | Bing => omap bing_result
                      (slice_to num_results (bing_items (resp_text response)))
          | Google => omap google_result
                        (slice_to num_results (google_items (resp_text response)))
          end
        with
        | [] => (Ok None, set_world w st)
        | r :: rs => (Ok (Some (r :: rs)), set_world w st)
        end
      else (Ok None, set_world w st)
  | (Raise _, w) => (Ok None, set_world w st)
  end.
Proof.
  unfold try_engine, try_except, bind, io, lift, ret.
  destruct (session_get _ (world st)) as [[response|err] w]; simpl; [|reflexivity].
  destruct (status_code response =? 200)%Z; simpl; [|reflexivity].
  destruct e; simpl.
  - destruct (omap bing_result _); reflexivity.
  - destruct (omap google_result _); reflexivity.
Qed.

(** X2. When the Brave page gives at least one result, [search_google]
    returns the results of Brave and asks no other engine: the state
    afterwards is the one after that single request. *)
Theorem search_google_brave_first (query : pystr) (num_results : Z) (st : State)
        (quoted : pystr) (response : Response) (w : World) (r : SearchResult)
        (rs : list SearchResult) :
  quote_plus query = Ok quoted ->
  session_get (py "https://search.brave.com/search?q=" ++ quoted)
              (world st) = (Ok response, w) ->
  status_code response = 200%Z ->
  omap brave_result (slice_to num_results (brave_cards (resp_text response)))
  = r :: rs ->
  search_google query num_results st = (Ok (r :: rs), set_world w st).
Proof.
  intros Hq Hget H200 Hcards. unfold search_google, bind.
  rewrite search_brave_run, Hq, Hget, H200. simpl. rewrite Hcards. reflexivity.
Qed.

Lemma try_engine_offline (url : pystr) (e : engine) (num_results : Z) (st : State) :
  offline session_get ->
  exists w, try_engine url e num_results st = (Ok None, set_world w st).
Proof.
  intros Hoff. rewrite try_engine_run.
  destruct (Hoff url (world st)) as (err & w & ->).
  eauto.
Qed.

Lemma set_world_twice (w1 w2 : World) (st : State) :
  set_world w2 (set_world w1 st) = set_world w2 st.
Proof. reflexivity. Qed.

(** Neither engine of [search_html_fallback] answers when no request
    gets through. *)
Lemma search_html_fallback_offline (query quoted : pystr) (num_results : Z)
      (st : State) :
  offline session_get ->
  quote_plus query = Ok quoted ->
  exists w, search_html_fallback query num_results st = (Ok [], set_world w st).
Proof.
  intros Hoff Hq.
  pose proof (search_html_fallback_cases session_get bing_items google_items
                query num_results st) as Hf.
  rewrite Hq in Hf. rewrite Hf. cbn [first_engine]. unfold bind.
  destruct (try_engine_offline (py "https://www.bing.com/search?q=" ++ quoted)
              Bing num_results st Hoff) as (w1 & ->).
  destruct (try_engine_offline (py "https://www.google.com/search?q=" ++ quoted)
              Google num_results (set_world w1 st) Hoff) as (w2 & ->).
  exists w2. reflexivity.
Qed.

(** [search_google] for a query that can be quoted when no request
    gets through. *)
Lemma search_google_offline_run (query quoted : pystr) (num_results : Z)
      (st : State) :
  offline session_get ->
  quote_plus query = Ok quoted ->
  exists w,
    search_google query num_results st
    = (Ok (if any_in synthetic_keywords (lower lower_ext query)
           then [synthetic_result] else []),
       set_world w st).
Proof.
  intros Hoff Hq. unfold search_google, bind.
  rewrite search_brave_run, Hq.
  destruct (Hoff (py "https://search.brave.com/search?q=" ++ quoted)
                 (world st)) as (e0 & w0 & ->).
  destruct (search_html_fallback_offline query quoted num_results
              (set_world w0 st) Hoff Hq) as (w & ->).
  exists w. fold synthetic_keywords.
  destruct (any_in synthetic_keywords (lower lower_ext query)); reflexivity.
Qed.

(** [search_google] for a query that cannot be quoted: Brave's search
    passes over the exception, the fallback search lets it through. *)
Lemma search_google_unquotable (query : pystr) (num_results : Z) (st : State) :
  existsb surrogate query = true ->
  search_google query num_results st = (Raise UnicodeEncodeError, st).
Proof.
  intros Hs. pose proof (quote_plus_surrogate query) as Hq. rewrite Hs in Hq.
  unfold search_google, bind. rewrite search_brave_run, Hq.
  unfold search_html_fallback, bind, lift. rewrite Hq. reflexivity.
Qed.

(** X3. Without a network [search_google] still returns for every
    query without a surrogate code point: the one made-up result about
    date and time when the lower-cased query contains "time", "date",
    "current", "today" or "now", and no result otherwise; only the
    outside world has changed.  A query with a surrogate code point
    cannot be quoted for a URL: then [search_google] raises
    [UnicodeEncodeError], with or without a network, and nothing has
    changed. *)
Theorem search_google_offline (query : pystr) (num_results : Z) (st : State) :
  offline session_get ->
  (existsb surrogate query = false ->
   exists w,
     search_google query num_results st
     = (Ok (if any_in synthetic_keywords (lower lower_ext query)
            then [synthetic_result] else []),
        set_world w st))
  /\ (existsb surrogate query = true ->
      search_google query num_results st = (Raise UnicodeEncodeError, st)).
Proof.
  intros Hoff. split.
  - intros Hs. pose proof (quote_plus_surrogate query) as Hq. rewrite Hs in Hq.
    destruct Hq as [quoted Hq].
    exact (search_google_offline_run query quoted num_results st Hoff Hq).
  - apply search_google_unquotable.
Qed.

(** A query with one of the keywords, when it can be quoted, never
    comes back without result. *)
Lemma search_google_keyword (query : pystr) (num_results : Z) (st : State) :
  existsb surrogate query = false ->
  any_in synthetic_keywords (lower lower_ext query) = true ->
  exists r rs st', search_google query num_results st = (Ok (r :: rs), st').
Proof.
  intros Hs Hkw.
  pose proof (quote_plus_surrogate query) as Hq. rewrite Hs in Hq.
  destruct Hq as [quoted Hq].
  pose proof (search_html_fallback_cases session_get bing_items google_items
                query num_results) as Hf.
  rewrite Hq in Hf.
  unfold search_google, bind.
  destruct (search_brave_returns session_get brave_cards
              query num_results st) as (r1 & st1 & ->).
  destruct r1 as [|r rs]; [|unfold ret; eauto].
  rewrite Hf.
  destruct (first_engine_returns session_get bing_items google_items
              [ (py "https://www.bing.com/search?q=" ++ quoted, Bing);
                (py "https://www.google.com/search?q=" ++ quoted, Google) ]
              num_results st1) as (r2 & st2 & ->).
  destruct r2 as [|r rs]; [|unfold ret; eauto].
  fold synthetic_keywords. rewrite Hkw. unfold ret. eauto.
Qed.

End AggregatorProperties.

Lemma search_google_brave_first_witness :
  search_google no_ext brave_only_get one_bare_card no_bing no_google
                (py "rocq") 3 initial_state
  = (Ok [{| sr_title := py "Example"; sr_url := py "http://example.org/";
            sr_snippet := [] |}], initial_state).
Proof.
  apply (search_google_brave_first no_ext brave_only_get one_bare_card
           no_bing no_google (py "rocq") 3 initial_state (py "rocq")
           (page (py "<html>")) tt);
    reflexivity.
Defined.

Lemma dead_get_offline : offline dead_get.
Proof. intros url w. exists (RequestException (py "unreachable")), w. reflexivity. Qed.

Lemma search_google_offline_witness :
  exists w,
    search_google no_ext dead_get one_bare_card no_bing no_google
                  (py "What is the date TODAY") 3 initial_state
    = (Ok [synthetic_result], set_world w initial_state).
Proof.
  destruct (search_google_offline no_ext dead_get one_bare_card no_bing
              no_google (py "What is the date TODAY") 3 initial_state dead_get_offline)
    as [H _].
  destruct (H eq_refl) as (w & Hrun).
  exists w. exact Hrun.
Defined.

(** ** Time and date questions *)

Section TimeQuestions.
Context {World : Type}.
Variable lower_ext : pystr -> char -> pystr -> pystr.
Variable session_get : pystr -> World -> result Response * World.
Variable brave_cards : pystr -> list BraveCard.
Variable bing_items : pystr -> list BingItem.
Variable google_items : pystr -> list GoogleItem.
Variable visible_text : pystr -> result pystr.

Local Abbreviation State := (@State World).
Local Abbreviation search_google :=
  (search_google lower_ext session_get brave_cards bing_items google_items).
Local Abbreviation search_and_scrape :=
  (search_and_scrape lower_ext session_get brave_cards bing_items
                     google_items visible_text).
Local Abbreviation web_context_for :=
  (web_context_for lower_ext session_get brave_cards bing_items
                   google_items visible_text).

(** The search query made of a time or date question is one of three
    fixed texts: it can be quoted, and it has a keyword for which a
    result is made up. *)
Lemma time_query_keyword (user_query : pystr) :
  contains (py "time") (lower lower_ext user_query)
  || contains (py "date") (lower lower_ext user_query) = true ->
  should_search_web lower_ext user_query = true
  /\ any_in synthetic_keywords
            (lower lower_ext (extract_search_query lower_ext user_query)) = true
  /\ existsb surrogate (extract_search_query lower_ext user_query) = false.
Proof.
  intros H. split; [|split].
  - unfold should_search_web.
    assert (Hk : any_in time_date_keywords (lower lower_ext user_query) = true).
    { apply any_in_true. apply orb_true_iff in H as [H|H].
      - exists (py "time"). split; [left; reflexivity|exact H].
      - exists (py "date"). split; [right; left; reflexivity|exact H]. }
    rewrite Hk. reflexivity.
  - unfold extract_search_query. rewrite H.
    destruct (contains (py "time") _ && contains (py "india") _); [reflexivity|].
    destruct (contains (py "date") _ && contains (py "india") _); reflexivity.
  - unfold extract_search_query. rewrite H.
    destruct (contains (py "time") _ && contains (py "india") _); [reflexivity|].
    destruct (contains (py "date") _ && contains (py "india") _); reflexivity.
Qed.

(** X4. A message whose lower case contains "time" or "date" always
    gets a web context: the search is made, it cannot come back empty,
    and the block built from it is not empty. *)
Theorem time_question_gets_context (user_query : pystr) (st : State) :
  contains (py "time") (lower lower_ext user_query)
  || contains (py "date") (lower lower_ext user_query) = true ->
  exists doc docs st',
    web_context_for user_query st = (Ok (web_context_block (doc :: docs)), st')
    /\ snd (web_context_block (doc :: docs)) = true
    /\ fst (web_context_block (doc :: docs)) <> [].
Proof.
  intros H. destruct (time_query_keyword user_query H) as (Hsearch & Hkw & Hq).
  unfold web_context_for. rewrite Hsearch.
  set (q := extract_search_query lower_ext user_query) in *.
  pose proof (search_and_scrape_run lower_ext session_get brave_cards
                bing_items google_items visible_text q 2 st) as Hrun.
  destruct (search_google_keyword lower_ext session_get brave_cards
              bing_items google_items q 2 st Hq Hkw) as (r & rs & st1 & Hs).
  rewrite Hs in Hrun.
  destruct Hrun as (docs & st2 & Hrun & Hall).
  destruct docs as [|doc docs]; [inversion Hall|].
  exists doc, docs, st2. split; [|split; [reflexivity|discriminate]].
  unfold bind. rewrite Hrun. reflexivity.
Qed.

(** X5. Without a network, a search for a query with one of the
    keywords and without a surrogate code point still gives a success
    bundle: its one document is the made-up result, with the snippet as
    content since the page cannot be scraped.  For a query with a
    surrogate code point the search raises [UnicodeEncodeError] and
    nothing has changed. *)
Theorem search_and_scrape_offline (query : pystr) (num_urls : Z) (st : State) :
  offline session_get ->
  (1 <= num_urls)%Z ->
  any_in synthetic_keywords (lower lower_ext query) = true ->
  (existsb surrogate query = false ->
   exists w,
     search_and_scrape query num_urls st
     = (Ok (BundleOk query [document_for synthetic_result None]), set_world w st))
  /\ (existsb surrogate query = true ->
      search_and_scrape query num_urls st = (Raise UnicodeEncodeError, st)).
Proof.
  intros Hoff Hn Hkw. split; intros Hsur.
  - pose proof (quote_plus_surrogate query) as Hq. rewrite Hsur in Hq.
    destruct Hq as [quoted Hq].
    destruct (search_google_offline_run lower_ext session_get
                brave_cards bing_items google_items query quoted num_urls st
                Hoff Hq) as (w1 & Hs).
    rewrite Hkw in Hs.
    unfold search_and_scrape, bind. rewrite Hs.
    assert (Hslice : slice_to num_urls [synthetic_result] = [synthetic_result]).
    { unfold slice_to. destruct (Z.leb_spec 0 num_urls) as [_|?]; [|lia].
      destruct (Z.to_nat num_urls) as [|[|n]] eqn:E; [lia|reflexivity|reflexivity]. }
    rewrite Hslice. simpl for_each. unfold bind, scrape_result, bind.
    rewrite scrape_url_run.
    destruct (Hoff (sr_url synthetic_result) (world (set_world w1 st)))
      as (e & w2 & ->).
    exists w2. reflexivity.
  - unfold search_and_scrape, bind.
    rewrite (search_google_unquotable lower_ext session_get brave_cards
               bing_items google_items query num_urls st Hsur).
    reflexivity.
Qed.

End TimeQuestions.

Lemma time_question_gets_context_witness :
  exists doc docs st',
    web_context_for no_ext dead_get one_bare_card no_bing no_google
                    plain_text (py "What TIME is it?") initial_state
    = (Ok (web_context_block (doc :: docs)), st').
Proof.
  destruct (time_question_gets_context no_ext dead_get one_bare_card
              no_bing no_google plain_text (py "What TIME is it?") initial_state
              eq_refl) as (doc & docs & st' & H & _).
  exists doc, docs, st'. exact H.
Defined.

Lemma search_and_scrape_offline_witness :
  exists w,
    search_and_scrape no_ext dead_get one_bare_card no_bing no_google
                      plain_text (py "current time and date") 2 initial_state
    = (Ok (BundleOk (py "current time and date")
             [document_for synthetic_result None]), set_world w initial_state).
Proof.
  destruct (search_and_scrape_offline no_ext dead_get one_bare_card
              no_bing no_google plain_text (py "current time and date") 2
              initial_state dead_get_offline) as [H _]; [lia|reflexivity|].
  exact (H eq_refl).
Defined.

(** ** Model client *)

Lemma kept_sanitary (t : pystr) : forallb kept t = true <-> sanitary t.
Proof.
  unfold sanitary. rewrite forallb_forall, Forall_forall. unfold kept.
  split; intros H c Hc.
  - apply list_elem_of_In in Hc. specialize (H c Hc).
    apply andb_true_iff in H as [H1 H2].
    split; [|now apply N.ltb_lt].
    intros ->. rewrite N.eqb_refl in H1. discriminate.
  - apply list_elem_of_In in Hc. destruct (H c Hc) as [H1 H2].
    apply andb_true_iff. split; [|now apply N.ltb_lt].
    apply negb_true_iff. now apply N.eqb_neq.
Qed.

Lemma clean_text_sanitary (s : pystr) : sanitary (clean_text s).
Proof.
  apply kept_sanitary. rewrite clean_text_filter.
  apply forallb_forall. intros c Hc. now apply List.filter_In in Hc.
Qed.

Lemma clean_text_dyn_sanitary (v : json) (t : pystr) :
  clean_text_dyn v = Ok t -> sanitary t.
Proof.
  unfold clean_text_dyn. destruct (negb (truthy v)).
  - intros [= <-]. constructor.
  - destruct v; try discriminate. intros [= <-]. apply clean_text_sanitary.
Qed.

(** A fragment is yielded sanitized and never empty. *)
Lemma event_fragment_chunk (obj : json) (chunk : pystr) :
  event_fragment obj = Ok (Some chunk) -> chunk <> [] /\ sanitary chunk.
Proof.
  assert (Hyield : forall v r,
             (clean_content <~ clean_text_dyn v ;;
              Ok (if nonempty clean_content then Some clean_content else None))
             = Ok (Some r) -> r <> [] /\ sanitary r).
  { intros v r. unfold rbind. destruct (clean_text_dyn v) as [t|] eqn:Hv; [|discriminate].
    destruct t as [|c t]; simpl; [discriminate|]. intros [= <-].
    split; [discriminate|]. exact (clean_text_dyn_sanitary v _ Hv). }
  unfold event_fragment.
  destruct (truthy _); [|discriminate].
  unfold rbind at 1. destruct (py_first _) as [ch|]; [|discriminate].
  unfold rbind at 1. destruct (py_get ch _ _) as [delta|]; [|discriminate].
  destruct (is_dict delta && has_key (py "content") delta).
  - unfold rbind at 1. destruct (py_get delta _ _) as [content|]; [|discriminate].
    destruct (truthy content); [apply Hyield|discriminate].
  - unfold rbind at 1. destruct (py_get ch _ _) as [message|]; [|discriminate].
    destruct (truthy message); [|discriminate].
    unfold rbind at 1. destruct (py_item ch _) as [message'|]; [|discriminate].
    unfold rbind at 1. destruct (py_get message' _ _) as [msg_content|]; [|discriminate].
    destruct (truthy msg_content); [apply Hyield|discriminate].
Qed.

Section MoreClientProperties.
Context {World float : Type}.
Variable lower_ext : pystr -> char -> pystr -> pystr.
Variable lm_studio_url : pystr.
Variable requests_post :
  pystr -> Payload float -> Z -> World -> result Response * World.
Variable json_loads : pystr -> result json.
Variable py_repr : json -> pystr.
Variable json_error_is_request_exception : bool.

Local Abbreviation State := (@State World).
Local Abbreviation query_lm_studio :=
  (query_lm_studio lower_ext lm_studio_url requests_post py_repr
                   json_error_is_request_exception).
Local Abbreviation query_lm_studio_stream :=
  (query_lm_studio_stream lm_studio_url requests_post json_loads py_repr
                          json_error_is_request_exception).
Local Abbreviation retry_with_listed_model :=
  (retry_with_listed_model lm_studio_url requests_post).
Local Abbreviation stream_line := (stream_line json_loads).
Local Abbreviation stream_lines := (stream_lines json_loads).
Local Abbreviation listed_model := (listed_model lower_ext).

(** X6. Every chunk that the streaming client yields for the lines of a
    response is a non-empty text without U+FFFD and without code points
    from 0x10000 on. *)
Theorem stream_chunks_sanitary (lines : list pystr) :
  Forall (fun chunk => chunk <> [] /\ sanitary chunk) (fst (stream_lines lines)).
Proof.
  induction lines as [|raw_line rest IH]; simpl; [constructor|].
  destruct (stream_line raw_line) as [| |chunk] eqn:Hline.
  - exact IH.
  - constructor.
  - destruct (stream_lines rest) as [chunks stopped]. simpl in *.
    constructor; [|exact IH].
    rewrite stream_line_unfold in Hline.
    destruct (negb (nonempty (strip raw_line))); [discriminate|].
    destruct (str_eqb _ _); [discriminate|].
    destruct (rbind _ _) as [[c|]|] eqn:Hfrag; try discriminate.
    injection Hline as <-.
    unfold rbind in Hfrag.
    destruct (json_loads _) as [obj|]; [|discriminate].
    exact (event_fragment_chunk obj c Hfrag).
Qed.

(** The streaming call, whatever the answer to its request. *)
Lemma query_lm_studio_stream_cases (messages : list ChatMessage)
      (temperature : float) (max_tokens timeout : Z) (st : State) :
  query_lm_studio_stream messages temperature max_tokens timeout st =
  match requests_post lm_studio_url
          (request_payload (model_name st) messages temperature max_tokens true)
          timeout (world st) with
  | (Raise e, w) =>
      if is_request_exception json_error_is_request_exception e
      then (Ok [stream_error_prefix
                ++ match e with RequestException msg => msg | _ => [] end],
            set_world w st)
      else (Raise e, set_world w st)
  | (Ok resp, w) =>
      if resp_ok resp then
        (Ok (let '(chunks, stopped) := stream_lines (resp_lines resp) in
             match resp_broken resp with
             | Some e => if stopped then chunks
                         else chunks ++ [stream_error_prefix ++ e]
             | None => chunks
             end),
         set_world w st)
      else (Ok [py "[ERROR] " ++ py_str py_repr (error_body resp)], set_world w st)
  end.
Proof.
  unfold query_lm_studio_stream, request_payload, try_except, bind, io, lift, ret,
    error_body, response_json, stream_error_prefix.
  destruct (requests_post _ _ _ _) as [[resp|e] w]; simpl.
  - destruct (resp_ok resp); simpl.
    + destruct (stream_lines (resp_lines resp)) as [chunks stopped].
      destruct (resp_broken resp); [destruct stopped|]; reflexivity.
    + destruct (resp_json resp); reflexivity.
  - destruct (is_request_exception _ e); [|reflexivity].
    destruct e; reflexivity.
Qed.

(** X7. The failures of the streaming call come as chunks.  A request
    that fails gives the one chunk "[ERROR] Error querying LM Studio: "
    with the message of the failure; an answer with an error status
    gives the one chunk "[ERROR] " with the body; a connection that
    breaks before [[DONE]] gives the chunks read so far and then one
    error chunk.  The call never changes the active model, whatever
    happens. *)
Theorem query_lm_studio_stream_failures (messages : list ChatMessage)
        (temperature : float) (max_tokens timeout : Z) (st : State) :
  let payload := request_payload (model_name st) messages temperature max_tokens true in
  (forall msg w,
      requests_post lm_studio_url payload timeout (world st)
      = (Raise (RequestException msg), w) ->
      query_lm_studio_stream messages temperature max_tokens timeout st
      = (Ok [stream_error_prefix ++ msg], set_world w st))
  /\ (forall resp w,
         requests_post lm_studio_url payload timeout (world st) = (Ok resp, w) ->
         resp_ok resp = false ->
         query_lm_studio_stream messages temperature max_tokens timeout st
         = (Ok [py "[ERROR] " ++ py_str py_repr (error_body resp)], set_world w st))
  /\ (forall resp w e,
         requests_post lm_studio_url payload timeout (world st) = (Ok resp, w) ->
         resp_ok resp = true ->
         resp_broken resp = Some e ->
         snd (stream_lines (resp_lines resp)) = false ->
         query_lm_studio_stream messages temperature max_tokens timeout st
         = (Ok (fst (stream_lines (resp_lines resp)) ++ [stream_error_prefix ++ e]),
            set_world w st))
  /\ model_name (snd (query_lm_studio_stream messages temperature max_tokens timeout st))
     = model_name st.
Proof.
  intros payload. subst payload.
  rewrite query_lm_studio_stream_cases. repeat split.
  - intros msg w ->. reflexivity.
  - intros resp w -> ->. reflexivity.
  - intros resp w e -> -> ->.
    destruct (stream_lines (resp_lines resp)) as [chunks stopped].
    simpl. intros ->. reflexivity.
  - destruct (requests_post _ _ _ _) as [[resp|e] w].
    + destruct (resp_ok resp); reflexivity.
    + destruct (is_request_exception _ e); reflexivity.
Qed.

Lemma fixed_messages_sanitary :
  sanitary connect_error_message /\ sanitary model_error_message.
Proof. split; apply kept_sanitary; vm_compute; reflexivity. Qed.

(** What the retry does, whatever the error text. *)
Lemma retry_cases (payload : Payload float) (body_text : pystr) (st : State) :
  retry_with_listed_model payload body_text st =
  match
    match split_once (py "Your models:") body_text with
    | Some (_, listed) => head (stripped_lines listed)
    | None => None
    end
  with
  | Some chosen =>
      match requests_post lm_studio_url
              (request_payload chosen (p_messages payload) (p_temperature payload)
                               (p_max_tokens payload) (p_stream payload))
              60 (world st) with
      | (Ok retry_resp, w) =>
          (Ok (reply_text retry_resp), set_world w (set_model_name chosen st))
      | (Raise _, w) => (Ok None, set_world w (set_model_name chosen st))
      end
  | None => (Ok None, st)
  end.
Proof.
  destruct (split_once (py "Your models:") body_text) as [[before listed]|] eqn:Hs.
  - destruct (stripped_lines listed) as [|chosen rest] eqn:Hl.
    + apply retry_none. rewrite Hs, Hl. reflexivity.
    + apply (retry_run lm_studio_url requests_post payload body_text chosen before
               listed rest st Hs Hl).
  - apply retry_none. rewrite Hs. reflexivity.
Qed.

Lemma reply_text_sanitary (response : Response) (text : pystr) :
  reply_text response = Some text -> sanitary text.
Proof.
  intros H. apply reply_text_ok in H as (_ & body & content & _ & _ & Hc).
  exact (clean_text_dyn_sanitary content text Hc).
Qed.

(** X8. Whatever text the blocking model call returns, be it an answer
    of the model or one of the two fixed messages, has no U+FFFD and no
    code point from 0x10000 on. *)
Theorem query_lm_studio_sanitary (messages : list ChatMessage)
        (temperature : float) (max_tokens : Z) (st st' : State) (text : pystr) :
  query_lm_studio messages temperature max_tokens st = (Ok text, st') ->
  sanitary text.
Proof.
  destruct fixed_messages_sanitary as [Hconnect Hmodel].
  rewrite query_lm_studio_run. cbv zeta.
  destruct (requests_post _ _ _ _) as [[response|e] w].
  - destruct (resp_ok response).
    + destruct (rbind _ _) as [t|e] eqn:Hr.
      * intros [= <- _]. unfold rbind in Hr.
        destruct (response_json response) as [body|]; [|discriminate].
        destruct (message_content body) as [content|]; [|discriminate].
        exact (clean_text_dyn_sanitary content t Hr).
      * destruct (is_request_exception _ e); [|discriminate].
        intros [= <- _]. exact Hconnect.
    + destruct (_ && _).
      * rewrite retry_cases.
        destruct (match split_once _ _ with Some _ => _ | None => _ end)
          as [chosen|].
        -- destruct (requests_post _ _ _ _) as [[retry_resp|e] w2].
           ++ destruct (reply_text retry_resp) as [t|] eqn:Hreply.
              ** intros [= <- _]. exact (reply_text_sanitary _ _ Hreply).
              ** intros [= <- _]. exact Hmodel.
           ++ intros [= <- _]. exact Hmodel.
        -- intros [= <- _]. exact Hmodel.
      * intros [= <- _]. exact Hmodel.
  - destruct (is_request_exception _ e); [|discriminate].
    intros [= <- _]. exact Hconnect.
Qed.

(** X9. The active model after the blocking model call.  After an
    error answer whose text says that the model was not found and lists
    models, the active model is the first listed one, whether or not
    the second request succeeds; after every other outcome (a success
    answer, an error answer that lists no model, a failed request) it
    is the model that was active before.  The first listed model is the
    first line, trimmed and not blank, after "Your models:". *)
Theorem query_lm_studio_model (messages : list ChatMessage)
        (temperature : float) (max_tokens : Z) (st : State) :
  model_name (snd (query_lm_studio messages temperature max_tokens st))
  = match requests_post lm_studio_url
            (request_payload (model_name st) messages temperature max_tokens false)
            60 (world st) with
    | (Ok response, _) =>
        if resp_ok response then model_name st
        else match listed_model (py_str py_repr (error_body_text py_repr response))
             with
             | Some chosen => chosen
             | None => model_name st
             end
    | (Raise _, _) => model_name st
    end
  /\ listed_model models_error_text = Some (py "good-model")
  /\ listed_model (py "model_not_found") = None.
Proof.
  split; [|split; reflexivity].
  rewrite query_lm_studio_run. cbv zeta.
  destruct (requests_post _ _ _ _) as [[response|e] w] eqn:Hpost.
  - destruct (resp_ok response) eqn:Hok.
    + destruct (rbind _ _) as [t|e]; [reflexivity|].
      destruct (is_request_exception _ e); reflexivity.
    + set (body_text := py_str py_repr (error_body_text py_repr response)).
      unfold listed_model.
      destruct (contains (py "model_not_found") (lower lower_ext body_text)
                && contains (py "your models:") (lower lower_ext body_text))
        eqn:Hcond; [|reflexivity].
      rewrite retry_cases.
      destruct (match split_once _ _ with Some _ => _ | None => _ end)
        as [chosen|] eqn:Hlisted; [|reflexivity].
      simpl.
      destruct (requests_post lm_studio_url
                  (request_payload chosen messages temperature max_tokens false) 60 w)
        as [[retry_resp|e] w2]; simpl.
      * destruct (reply_text retry_resp); reflexivity.
      * reflexivity.
  - destruct (is_request_exception _ e); reflexivity.
Qed.

End MoreClientProperties.

Lemma query_lm_studio_sanitary_witness : sanitary (py "OK").
Proof.
  apply (query_lm_studio_sanitary no_ext
           (py "http://localhost:1200/v1/chat/completions") one_model_post no_repr
           true [{| role := py "user"; content := py "hello" |}] tt (-1)
           initial_state (set_model_name (py "good-model") initial_state)).
  reflexivity.
Defined.

(** ** Chat management routes *)

Section ManagementProperties.
Context {World : Type}.
Variable uuid4 : World -> pystr * World.
Variable now_isoformat : World -> pystr * World.
Variable save_chat_sessions : gmap pystr Session -> World -> World.
Variable exn_str : exn -> pystr.

Local Abbreviation State := (@State World).
Local Abbreviation new_chat := (new_chat uuid4 now_isoformat save_chat_sessions exn_str).
Local Abbreviation get_chat := (@get_chat World exn_str).
Local Abbreviation delete_chat := (delete_chat save_chat_sessions exn_str).

(** What [get_chat] answers, in a state that it leaves as it is. *)
Lemma get_chat_run (chat_id : pystr) (user_id : option pystr) (st : State) :
  get_chat chat_id user_id st =
  (Ok (if negb (logged_in user_id) then Failure (py "User ID required") 401
       else match chat_sessions st !! chat_id with
            | None => Failure (py "Chat not found") 404
            | Some chat =>
                if decide (s_user_id chat = user_id) then Success chat
                else Failure (py "Access denied") 403
            end),
   st).
Proof.
  unfold get_chat, try_except, bind, get_state, ret.
  destruct (negb (logged_in user_id)); [reflexivity|].
  destruct (chat_sessions st !! chat_id) as [chat|]; [|reflexivity].
  destruct (decide (s_user_id chat = user_id)); reflexivity.
Qed.

(** X10. [get_chat] never raises and never changes the state, and it
    hands out a chat only when the request names a user and the chat
    stored under the id belongs to that user. *)
Theorem get_chat_owner_only (chat_id : pystr) (user_id : option pystr) (st : State) :
  exists answer,
    get_chat chat_id user_id st = (Ok answer, st)
    /\ forall chat,
        answer = Success chat ->
        logged_in user_id = true
        /\ chat_sessions st !! chat_id = Some chat
        /\ s_user_id chat = user_id.
Proof.
  rewrite get_chat_run. eexists. split; [reflexivity|].
  intros chat. destruct (logged_in user_id); simpl; [|discriminate].
  destruct (chat_sessions st !! chat_id) as [c|]; [|discriminate].
  destruct (decide (s_user_id c = user_id)) as [Ho|]; [|discriminate].
  intros [= <-]. auto.
Qed.

(** What [new_chat] does for a user. *)
Lemma new_chat_run (user_id : option pystr) (st : State) :
  logged_in user_id = true ->
  exists chat_id created_at updated_at w w',
    uuid4 (world st) = (chat_id, w)
    /\ new_chat user_id st
       = (Ok (Success chat_id),
          let chats :=
            <[chat_id := {| s_id := chat_id; s_user_id := user_id;
                            s_title := Some (py "New chat"); s_messages := [];
                            s_created_at := created_at;
                            s_updated_at := Some updated_at |}]>
              (chat_sessions st) in
          {| model_name := model_name st;
             chat_sessions := chats;
             anonymous_sessions := anonymous_sessions st;
             world := save_chat_sessions chats w' |}).
Proof.
  intros Hu. unfold new_chat, try_except, bind, io, modify, save, get_state, ret.
  rewrite Hu. simpl.
  destruct (uuid4 (world st)) as [chat_id w1]. simpl.
  destruct (now_isoformat w1) as [created_at w2]. simpl.
  destruct (now_isoformat w2) as [updated_at w3]. simpl.
  exists chat_id, created_at, updated_at, w1, w3. split; reflexivity.
Qed.

(** X11. A chat made by [new_chat] for a user can be read back by that
    user, with the title "New chat" and no message; it is refused to
    every other user; the chats stored under other ids are kept, and so
    is the store of anonymous sessions.  Without a user [new_chat]
    answers 401 and changes nothing. *)
Theorem new_chat_then_get_chat (user_id : option pystr) (st : State) :
  (logged_in user_id = false ->
   new_chat user_id st
   = (Ok (Failure (py "Authentication required to save chats") 401), st))
  /\ (logged_in user_id = true ->
      exists chat_id chat st',
        new_chat user_id st = (Ok (Success chat_id), st')
        /\ chat_id = fst (uuid4 (world st))
        /\ get_chat chat_id user_id st' = (Ok (Success chat), st')
        /\ s_id chat = chat_id /\ s_user_id chat = user_id
        /\ s_title chat = Some (py "New chat") /\ s_messages chat = []
        /\ (forall other,
               logged_in other = true -> other <> user_id ->
               get_chat chat_id other st'
               = (Ok (Failure (py "Access denied") 403), st'))
        /\ (forall id, id <> chat_id ->
               chat_sessions st' !! id = chat_sessions st !! id)
        /\ anonymous_sessions st' = anonymous_sessions st).
Proof.
  split.
  - intros Hu. unfold new_chat, try_except, ret. rewrite Hu. reflexivity.
  - intros Hu.
    destruct (new_chat_run user_id st Hu)
      as (chat_id & created_at & updated_at & w & w' & Hid & Hrun).
    eexists chat_id, _, _. split; [exact Hrun|].
    split; [rewrite Hid; reflexivity|].
    cbv zeta. split.
    + rewrite get_chat_run, Hu. simpl. rewrite lookup_insert_eq. simpl.
      destruct (decide (user_id = user_id)); [reflexivity|contradiction].
    + repeat split.
      * intros other Ho Hne. rewrite get_chat_run, Ho. simpl.
        rewrite lookup_insert_eq. simpl.
        destruct (decide (user_id = other)); [congruence|reflexivity].
      * intros id Hne. simpl. now apply lookup_insert_ne.
Qed.

(** What [delete_chat] does. *)
Lemma delete_chat_run (chat_id : pystr) (user_id : option pystr) (st : State) :
  delete_chat chat_id user_id st =
  if negb (logged_in user_id) then (Ok (Failure (py "User ID required") 401), st)
  else match chat_sessions st !! chat_id with
       | Some chat =>
           if decide (s_user_id chat = user_id)
           then (Ok (Success tt),
                 {| model_name := model_name st;
                    chat_sessions := delete chat_id (chat_sessions st);
                    anonymous_sessions := anonymous_sessions st;
                    world := save_chat_sessions (delete chat_id (chat_sessions st))
                                                (world st) |})
           else (Ok (Failure (py "Access denied") 403), st)
       | None => (Ok (Success tt), st)
       end.
Proof.
  unfold delete_chat, try_except, bind, io, modify, save, get_state, ret.
  destruct (negb (logged_in user_id)); [reflexivity|].
  destruct (chat_sessions st !! chat_id) as [chat|]; [|reflexivity].
  destruct (decide (s_user_id chat = user_id)); reflexivity.
Qed.

(** X12. [delete_chat] by the owner removes the chat, which [get_chat]
    then reports as not found, and keeps every other chat; by another
    user it is refused with 403 and changes nothing; for an id that is
    not stored it answers success and changes nothing. *)
Theorem delete_chat_cases (chat_id : pystr) (user_id : option pystr) (st : State) :
  logged_in user_id = true ->
  match chat_sessions st !! chat_id with
  | Some chat =>
      (s_user_id chat = user_id ->
       exists st',
         delete_chat chat_id user_id st = (Ok (Success tt), st')
         /\ get_chat chat_id user_id st'
            = (Ok (Failure (py "Chat not found") 404), st')
         /\ (forall id, id <> chat_id ->
                chat_sessions st' !! id = chat_sessions st !! id)
         /\ anonymous_sessions st' = anonymous_sessions st)
      /\ (s_user_id chat <> user_id ->
          delete_chat chat_id user_id st
          = (Ok (Failure (py "Access denied") 403), st))
  | None => delete_chat chat_id user_id st = (Ok (Success tt), st)
  end.
Proof.
  intros Hu. rewrite delete_chat_run, Hu. simpl.
  destruct (chat_sessions st !! chat_id) as [chat|] eqn:Hl; [|reflexivity].
  destruct (decide (s_user_id chat = user_id)) as [Ho|Hne]; split;
    try contradiction; try reflexivity.
  intros _. eexists. split; [reflexivity|]. split.
  - rewrite get_chat_run, Hu. simpl. rewrite lookup_delete_eq. reflexivity.
  - split; [|reflexivity]. intros id Hid. simpl. now apply lookup_delete_ne.
Qed.

End ManagementProperties.

(** ** Document processor *)

Section DocumentProperties.
Context {World Image : Type}.
Variable ocr_available : bool.
Variable read_pdf_pages : pystr -> World -> result (list pystr) * World.
Variable convert_from_path :
  pystr -> option pystr -> World -> result (list Image) * World.
Variable path_exists : pystr -> World -> bool * World.
Variable image_to_string : Image -> World -> result pystr * World.
Variable open_image : pystr -> World -> result Image * World.
Variable exn_str : exn -> pystr.

Local Abbreviation State := (@State World).
Local Abbreviation M := (@M World).
Local Abbreviation find_poppler := (find_poppler convert_from_path path_exists).
Local Abbreviation ocr_pdf :=
  (ocr_pdf convert_from_path path_exists image_to_string exn_str).
Local Abbreviation extract_text_from_pdf :=
  (extract_text_from_pdf ocr_available read_pdf_pages convert_from_path path_exists
                         image_to_string exn_str).
Local Abbreviation extract_text_from_image :=
  (extract_text_from_image ocr_available image_to_string open_image exn_str).
Local Abbreviation process_file :=
  (process_file ocr_available read_pdf_pages convert_from_path path_exists
                image_to_string open_image exn_str).

Lemma try_any_returns {A} (m : M A) (handler : exn -> M A) (st : State) :
  (forall e st0, exists a st1, handler e st0 = (Ok a, st1)) ->
  exists a st', try_except m any_exception handler st = (Ok a, st').
Proof.
  intros Hh. unfold try_except, any_exception.
  destruct (m st) as [[a|e] st']; [eauto|apply Hh].
Qed.

Lemma io_lift_ok {A} (f : World -> result A * World) (st : State) (a : A) (w : World) :
  f (world st) = (Ok a, w) -> bind (io f) lift st = (Ok a, set_world w st).
Proof. intros H. unfold bind, io, lift. rewrite H. reflexivity. Qed.

Lemma io_lift_raise {A} (f : World -> result A * World) (st : State) (e : exn)
      (w : World) :
  f (world st) = (Raise e, w) -> bind (io f) lift st = (Raise e, set_world w st).
Proof. intros H. unfold bind, io, lift. rewrite H. reflexivity. Qed.

Lemma try_raise {A} (m : M A) (handler : exn -> M A) (st st' : State) (e : exn) :
  m st = (Raise e, st') -> try_except m any_exception handler st = handler e st'.
Proof. intros H. unfold try_except. rewrite H. reflexivity. Qed.

(** OCR of every image of a list, when the text read from an image
    depends on the image alone: the texts come in the order of the
    images. *)
Lemma ocr_each_texts (text_of : Image -> pystr) (images : list Image) (st : State) :
  (forall image w, exists w', image_to_string image w = (Ok (text_of image), w')) ->
  exists st',
    for_each (fun image => bind (io (image_to_string image)) lift) images st
    = (Ok (List.map text_of images), st').
Proof.
  intros Hocr. revert st. induction images as [|image images IH]; intros st; simpl.
  - exists st. reflexivity.
  - destruct (Hocr image (world st)) as (w & Ht).
    destruct (IH (set_world w st)) as (st' & Hf).
    exists st'.
    rewrite (bind_ok _ _ _ _ _ (io_lift_ok _ _ _ _ Ht)).
    rewrite (bind_ok _ _ _ _ _ Hf). reflexivity.
Qed.

(** OCR of every image of a list, when no OCR fails. *)
Lemma ocr_each (images : list Image) (st : State) :
  (forall image w, exists text w', image_to_string image w = (Ok text, w')) ->
  exists page_texts st',
    for_each (fun image => bind (io (image_to_string image)) lift) images st
    = (Ok page_texts, st')
    /\ length page_texts = length images.
Proof.
  intros Hocr. revert st. induction images as [|image images IH]; intros st; simpl.
  - exists [], st. split; reflexivity.
  - destruct (Hocr image (world st)) as (text & w & Ht).
    destruct (IH (set_world w st)) as (texts & st' & Hf & Hlen).
    exists (text :: texts), st'. split.
    + rewrite (bind_ok _ _ _ _ _ (io_lift_ok _ _ _ _ Ht)).
      rewrite (bind_ok _ _ _ _ _ Hf). reflexivity.
    + simpl. rewrite Hlen. reflexivity.
Qed.

Lemma find_poppler_none (file_path : pystr) (paths : list pystr) (st : State) :
  (forall p w, fst (path_exists p w) = false) ->
  exists st', find_poppler file_path paths st = (Ok None, st').
Proof.
  intros Hno. revert st. induction paths as [|p paths IH]; intros st; simpl.
  - exists st. reflexivity.
  - unfold bind, io. specialize (Hno p (world st)).
    destruct (path_exists p (world st)) as [there w]. simpl in Hno. subst there.
    apply IH.
Qed.

(** X13. [ocr_pdf] never raises.  When the pages cannot be made into
    images and poppler is in none of the usual places, it returns the
    fixed text about poppler.  When the pages are made into images at
    once and no OCR fails, it reads at most [max_pages] pages and ends
    the text with a note exactly when pages were left out; when the
    text read from an image depends on the image alone, the text
    returned is made of the texts of the first [max_pages] images in
    their order, each under the header with its page number, counted
    from 1. *)
Theorem ocr_pdf_pages (file_path : pystr) (max_pages : Z) (st : State) :
  (exists text st', ocr_pdf file_path max_pages st = (Ok text, st'))
  /\ (forall e w,
         convert_from_path file_path None (world st) = (Raise e, w) ->
         (forall p w0, fst (path_exists p w0) = false) ->
         exists st', ocr_pdf file_path max_pages st = (Ok poppler_not_found, st'))
  /\ (forall images w,
         convert_from_path file_path None (world st) = (Ok images, w) ->
         (forall image w0, exists text w', image_to_string image w0 = (Ok text, w')) ->
         (0 <= max_pages)%Z ->
         exists page_texts st',
           ocr_pdf file_path max_pages st
           = (Ok (ocr_blocks 1 page_texts
                  ++ (if (max_pages <? Z.of_nat (length images))%Z
                      then pages_note max_pages (length images) else [])),
              st')
           /\ length page_texts = Nat.min (Z.to_nat max_pages) (length images))
  /\ (forall images w (text_of : Image -> pystr),
         convert_from_path file_path None (world st) = (Ok images, w) ->
         (forall image w0,
             exists w', image_to_string image w0 = (Ok (text_of image), w')) ->
         (0 <= max_pages)%Z ->
         exists st',
           ocr_pdf file_path max_pages st
           = (Ok (ocr_blocks 1 (List.map text_of
                                  (firstn (Z.to_nat max_pages) images))
                  ++ (if (max_pages <? Z.of_nat (length images))%Z
                      then pages_note max_pages (length images) else [])),
              st'))
  /\ (forall first second : pystr,
         ocr_blocks 1 [first; second]
         = nl ++ py "--- Page 1 (OCR) ---" ++ nl ++ first
           ++ nl ++ py "--- Page 2 (OCR) ---" ++ nl ++ second).
Proof.
  assert (Hrun : forall images w texts st',
             convert_from_path file_path None (world st) = (Ok images, w) ->
             for_each (fun image => bind (io (image_to_string image)) lift)
                      (slice_to max_pages images) (set_world w st)
             = (Ok texts, st') ->
             ocr_pdf file_path max_pages st
             = (Ok (ocr_blocks 1 texts
                    ++ (if (max_pages <? Z.of_nat (length images))%Z
                        then pages_note max_pages (length images) else [])),
                st')).
  { intros images w texts st' Hconv Hf.
    unfold ocr_pdf. apply try_ok.
    rewrite (bind_ok _ _ st (set_world w st) (Some images));
      [|apply try_ok;
        rewrite (bind_ok _ _ _ _ _ (io_lift_ok _ _ _ _ Hconv)); reflexivity].
    cbv beta iota. rewrite (bind_ok _ _ _ _ _ Hf).
    unfold pages_note.
    destruct (max_pages <? Z.of_nat (length images))%Z; unfold ret;
      rewrite ?app_nil_r; reflexivity. }
  split; [|split; [|split; [|split]]].
  - apply try_any_returns. intros e st0. unfold ret. eauto.
  - intros e w Hconv Hno.
    destruct (find_poppler_none file_path poppler_paths (set_world w st) Hno)
      as (st' & Hfind).
    exists st'. unfold ocr_pdf. apply try_ok.
    rewrite (bind_ok _ _ st st' None); [reflexivity|].
    rewrite (try_raise _ _ st (set_world w st) e); [exact Hfind|].
    apply bind_raise. exact (io_lift_raise _ _ _ _ Hconv).
  - intros images w Hconv Hocr Hmax.
    destruct (ocr_each (slice_to max_pages images) (set_world w st) Hocr)
      as (texts & st' & Hf & Hlen).
    exists texts, st'. split; [exact (Hrun images w texts st' Hconv Hf)|].
    rewrite Hlen. unfold slice_to.
    destruct (Z.leb_spec 0 max_pages) as [_|?]; [|lia].
    apply length_take.
  - intros images w text_of Hconv Hocr Hmax.
    destruct (ocr_each_texts text_of (slice_to max_pages images) (set_world w st)
                Hocr) as (st' & Hf).
    exists st'. rewrite (Hrun images w _ st' Hconv Hf).
    unfold slice_to. destruct (Z.leb_spec 0 max_pages) as [_|?]; [|lia].
    reflexivity.
  - intros first second. simpl. rewrite app_nil_r. reflexivity.
Qed.

Lemma extract_text_from_pdf_direct (file_path : pystr) (st : State)
      (page_texts : list pystr) (w : World) :
  read_pdf_pages file_path (world st) = (Ok page_texts, w) ->
  strip (page_blocks 1 page_texts) <> [] ->
  extract_text_from_pdf file_path st
  = (Ok (DocText (strip (page_blocks 1 page_texts)) (Some (length page_texts))
                 (if ocr_available then py "ocr" else py "direct")),
     set_world w st).
Proof.
  intros Hread Htext.
  unfold extract_text_from_pdf. apply try_ok.
  rewrite (bind_ok _ _ _ _ _ (io_lift_ok _ _ _ _ Hread)).
  cbv zeta. rewrite (nonempty_true _ Htext). simpl negb. cbn [andb].
  unfold bind, ret. rewrite (nonempty_true _ Htext).
  destruct ocr_available; reflexivity.
Qed.

(** X14. [extract_text_from_pdf] never raises: a file that cannot be
    read gives the error of the failure.  For a PDF with text it
    returns that text stripped and the number of pages without running
    OCR, and names the method "direct" only when OCR is not available:
    with OCR available the method is "ocr" although the text was read
    directly.  Whatever it returns, the method is "direct" exactly when
    the text is not empty and OCR is not available. *)
Theorem extract_text_from_pdf_method (file_path : pystr) (st : State) :
  (exists r st', extract_text_from_pdf file_path st = (Ok r, st'))
  /\ (forall e w,
         read_pdf_pages file_path (world st) = (Raise e, w) ->
         extract_text_from_pdf file_path st
         = (Ok (DocError (exn_str e)), set_world w st))
  /\ (forall page_texts w,
         read_pdf_pages file_path (world st) = (Ok page_texts, w) ->
         strip (page_blocks 1 page_texts) <> [] ->
         extract_text_from_pdf file_path st
         = (Ok (DocText (strip (page_blocks 1 page_texts))
                        (Some (length page_texts))
                        (if ocr_available then py "ocr" else py "direct")),
            set_world w st))
  /\ (forall text pages method st',
         extract_text_from_pdf file_path st = (Ok (DocText text pages method), st') ->
         (method = py "direct" /\ text <> [] /\ ocr_available = false)
         \/ (method = py "ocr" /\ (text = [] \/ ocr_available = true))).
Proof.
  split; [|split; [|split]].
  - apply try_any_returns. intros e st0. unfold ret. eauto.
  - intros e w Hread.
    unfold extract_text_from_pdf.
    rewrite (try_raise _ _ st (set_world w st) e); [reflexivity|].
    apply bind_raise. exact (io_lift_raise _ _ _ _ Hread).
  - apply extract_text_from_pdf_direct.
  - intros text pages method st'.
    unfold extract_text_from_pdf.
    destruct (read_pdf_pages file_path (world st)) as [[page_texts|e] w] eqn:Hread.
    2:{ rewrite (try_raise _ _ st (set_world w st) e);
          [|apply bind_raise; exact (io_lift_raise _ _ _ _ Hread)].
        discriminate. }
    unfold try_except.
    rewrite (bind_ok _ _ _ _ _ (io_lift_ok _ _ _ _ Hread)).
    cbv zeta. unfold bind at 1.
    destruct ((if negb (nonempty (strip (page_blocks 1 page_texts))) && ocr_available
               then ocr_pdf file_path 10 else ret (page_blocks 1 page_texts))
                (set_world w st)) as [[t|e] st1]; [|discriminate].
    unfold ret. intros [= <- _ <- _].
    destruct (strip t) as [|c s]; simpl.
    + right. auto.
    + destruct ocr_available; simpl; [right; auto|left].
      repeat split. discriminate.
Qed.

Lemma process_file_returns (file_path file_type : pystr) (st : State) :
  exists r st', process_file file_path file_type st = (Ok r, st').
Proof.
  unfold process_file.
  destruct (str_eqb file_type (py "pdf")).
  - apply try_any_returns. intros e st0. unfold ret. eauto.
  - destruct (existsb _ _).
    + apply try_any_returns. intros e st0. unfold ret. eauto.
    + unfold ret. eauto.
Qed.

(** X15. [process_file] never raises.  A type that is neither "pdf" nor
    one of the image types is refused with an error that names it, and
    an image is refused when OCR is not available; in both cases
    nothing is read and nothing changes. *)
Theorem process_file_refusals (file_path file_type : pystr) (st : State) :
  (exists r st', process_file file_path file_type st = (Ok r, st'))
  /\ (str_eqb file_type (py "pdf") = false ->
      existsb (str_eqb file_type) image_types = false ->
      process_file file_path file_type st
      = (Ok (DocError (py "Unsupported file type: " ++ file_type)), st))
  /\ (existsb (str_eqb file_type) image_types = true ->
      ocr_available = false ->
      process_file file_path file_type st
      = (Ok (DocError (py "OCR is not available. Please install Tesseract.")), st)).
Proof.
  split; [|split].
  - apply process_file_returns.
  - intros Hpdf Himg. unfold process_file. rewrite Hpdf, Himg. reflexivity.
  - intros Himg Hocr. unfold process_file.
    assert (Hpdf : str_eqb file_type (py "pdf") = false).
    { destruct (str_eqb file_type (py "pdf")) eqn:E; [|reflexivity].
      apply str_eqb_eq in E. subst file_type. discriminate. }
    rewrite Hpdf, Himg. unfold extract_text_from_image, try_except, ret.
    rewrite Hocr. reflexivity.
Qed.

End DocumentProperties.

(** ** The upload route *)

Section UploadProperties.
Context {World Image : Type}.
Variable lower_ext : pystr -> char -> pystr -> pystr.
Variable ocr_available : bool.
Variable read_pdf_pages : pystr -> World -> result (list pystr) * World.
Variable convert_from_path :
  pystr -> option pystr -> World -> result (list Image) * World.
Variable path_exists : pystr -> World -> bool * World.
Variable image_to_string : Image -> World -> result pystr * World.
Variable open_image : pystr -> World -> result Image * World.
Variable uuid4 : World -> pystr * World.
Variable path_join : pystr -> pystr -> pystr.
Variable file_save : pystr -> World -> result unit * World.
Variable os_remove : pystr -> World -> unit * World.
Variable exn_str : exn -> pystr.

Local Abbreviation State := (@State World).
Local Abbreviation process_file :=
  (process_file ocr_available read_pdf_pages convert_from_path path_exists
                image_to_string open_image exn_str).
Local Abbreviation file_extension := (file_extension lower_ext).
Local Abbreviation upload_file :=
  (upload_file lower_ext ocr_available read_pdf_pages convert_from_path
               path_exists image_to_string open_image uuid4 path_join file_save
               os_remove exn_str).

(** The route for a file with a name and an allowed extension. *)
Lemma upload_file_run (filename : pystr) (st : State) :
  filename <> [] ->
  existsb (str_eqb (file_extension filename)) allowed_extensions = true ->
  let file_ext := file_extension filename in
  let file_id := fst (uuid4 (world st)) in
  let file_path := path_join (py "uploads") (file_id ++ py "." ++ file_ext) in
  let file_type := if str_eqb file_ext (py "pdf") then py "pdf" else py "image" in
  upload_file (Some filename) st =
  match file_save file_path (snd (uuid4 (world st))) with
  | (Raise e, w) => (Ok (UploadFailure (exn_str e) 500), set_world w st)
  | (Ok _, w) =>
      match process_file file_path file_type (set_world w st) with
      | (Ok result, st1) =>
          (Ok (match result with
               | DocText text pages method =>
                   Uploaded file_id filename file_type text method pages
               | DocError error => UploadFailure error 500
               end),
           set_world (snd (os_remove file_path (world st1))) st1)
      | (Raise e, st1) => (Ok (UploadFailure (exn_str e) 500), st1)
      end
  end.
Proof.
  intros Hname Hext. cbv zeta.
  destruct filename as [|c name]; [contradiction|].
  unfold upload_file, try_except. cbv zeta. rewrite Hext. cbn [negb].
  unfold bind at 1, io at 1.
  destruct (uuid4 (world st)) as [file_id w0]. cbn [fst snd].
  unfold bind at 1 2, io at 1, lift at 1. cbn [world set_world].
  destruct (file_save _ w0) as [[[]|e] w]; [|reflexivity].
  unfold bind at 1.
  destruct (process_file _ _ _) as [[result|e] st1]; [|reflexivity].
  unfold bind, io, ret.
  destruct (os_remove _ (world st1)) as [[] w2]. cbn [snd].
  destruct result; reflexivity.
Qed.

(** X16. The upload route never raises, and it answers 400 exactly
    when the request has no file, when the file has no name, or when
    the lower-cased text after the last dot of the name is none of
    pdf, jpg, jpeg, png, gif and bmp; such a request changes nothing:
    no id is drawn and no file is stored. *)
Theorem upload_file_checks (file : option pystr) (st : State) :
  (exists reply st', upload_file file st = (Ok reply, st'))
  /\ (file = None ->
      upload_file file st = (Ok (UploadFailure (py "No file provided") 400), st))
  /\ (file = Some [] ->
      upload_file file st = (Ok (UploadFailure (py "No file selected") 400), st))
  /\ (forall filename,
         file = Some filename -> filename <> [] ->
         existsb (str_eqb (file_extension filename)) allowed_extensions = false ->
         upload_file file st
         = (Ok (UploadFailure
                  (py "Unsupported file type. Allowed: pdf, jpg, jpeg, png, gif, bmp")
                  400), st))
  /\ (forall error st',
         upload_file file st = (Ok (UploadFailure error 400), st') ->
         st' = st
         /\ (file = None \/ file = Some []
             \/ exists filename,
                 file = Some filename
                 /\ existsb (str_eqb (file_extension filename)) allowed_extensions
                    = false)).
Proof.
  assert (Hrej : forall filename : pystr,
             filename <> [] ->
             existsb (str_eqb (file_extension filename)) allowed_extensions = false ->
             upload_file (Some filename) st
             = (Ok (UploadFailure
                      (py "Unsupported file type. Allowed: pdf, jpg, jpeg, png, gif, bmp")
                      400), st)).
  { intros [|c name] Hname Hext; [contradiction|].
    unfold upload_file, try_except. cbv zeta. rewrite Hext. reflexivity. }
  split; [|split; [|split; [|split]]].
  - destruct file as [[|c name]|]; [unfold ret; eauto| |unfold ret; eauto].
    apply try_any_returns. intros e st0. unfold ret. eauto.
  - intros ->. reflexivity.
  - intros ->. reflexivity.
  - intros filename -> Hname Hext. apply Hrej; assumption.
  - intros error st'.
    destruct file as [filename|];
      [|intros [= _ <-]; split; [reflexivity|]; left; reflexivity].
    assert (Hcases : filename = [] \/ filename <> [])
      by (destruct filename; [left|right]; congruence).
    destruct Hcases as [->|Hname].
    + intros [= _ <-]. split; [reflexivity|]. right. left. reflexivity.
    + destruct (existsb (str_eqb (file_extension filename)) allowed_extensions)
        eqn:Hext.
      * rewrite (upload_file_run filename st Hname Hext). cbv zeta.
        destruct (file_save _ _) as [[[]|e] w]; [|discriminate].
        destruct (process_file _ _ _) as [[[text pages method|err]|e] st1];
          discriminate.
      * rewrite (Hrej filename Hname Hext).
        intros [= _ <-]. split; [reflexivity|]. right. right.
        exists filename. split; [reflexivity|exact Hext].
Qed.

(** X17. Once the uploaded file is stored, the route hands it to the
    document processor as a "pdf" or as an "image", gives back what the
    processor found, or its error with status 500, and removes the
    file in either case: the removal is its last act on the outside
    world. *)
Theorem upload_file_cleans_up (filename : pystr) (st : State) (w : World) :
  filename <> [] ->
  existsb (str_eqb (file_extension filename)) allowed_extensions = true ->
  file_save (path_join (py "uploads")
               (fst (uuid4 (world st)) ++ py "." ++ file_extension filename))
            (snd (uuid4 (world st))) = (Ok tt, w) ->
  let file_id := fst (uuid4 (world st)) in
  let file_path :=
    path_join (py "uploads") (file_id ++ py "." ++ file_extension filename) in
  let file_type :=
    if str_eqb (file_extension filename) (py "pdf") then py "pdf" else py "image" in
  exists result st1,
    process_file file_path file_type (set_world w st) = (Ok result, st1)
    /\ upload_file (Some filename) st
       = (Ok (match result with
              | DocText text pages method =>
                  Uploaded file_id filename file_type text method pages
              | DocError error => UploadFailure error 500
              end),
          set_world (snd (os_remove file_path (world st1))) st1).
Proof.
  intros Hname Hext Hsave. cbv zeta.
  rewrite (upload_file_run filename st Hname Hext). cbv zeta. rewrite Hsave.
  destruct (process_file_returns ocr_available read_pdf_pages convert_from_path
              path_exists image_to_string open_image exn_str
              (path_join (py "uploads")
                 (fst (uuid4 (world st)) ++ py "." ++ file_extension filename))
              (if str_eqb (file_extension filename) (py "pdf")
               then py "pdf" else py "image")
              (set_world w st)) as (result & st1 & Hp).
  exists result, st1. split; [exact Hp|]. rewrite Hp. reflexivity.
Qed.

End UploadProperties.

Lemma upload_file_cleans_up_witness :
  upload_file no_ext false two_page_pdf no_conversion no_path blank_ocr unit_image
              fixed_uuid slash_join saved_ok removed_ok no_exn_str
              (Some (py "report.PDF")) initial_state
  = (Ok (Uploaded (py "session-1") (py "report.PDF") (py "pdf")
                  (py "--- Page 1 ---" ++ nl ++ py "first" ++ nl
                   ++ py "--- Page 2 ---" ++ nl ++ py "second")
                  (py "direct") (Some 2%nat)),
     initial_state).
Proof.
  destruct (upload_file_cleans_up no_ext false two_page_pdf no_conversion no_path
              blank_ocr unit_image fixed_uuid slash_join saved_ok removed_ok
              no_exn_str (py "report.PDF") initial_state tt)
    as (result & st1 & Hp & Hup).
  - discriminate.
  - vm_compute. reflexivity.
  - reflexivity.
  - rewrite Hup. vm_compute in Hp. injection Hp as <- <-. vm_compute. reflexivity.
Defined.

(** ** The health route *)

Lemma lower_from_ascii (lower_ext : pystr -> char -> pystr -> pystr)
      (before s : pystr) :
  forallb (fun c => c <? 128) s = true ->
  lower_from lower_ext before s = List.map ascii_lower s.
Proof.
  revert before. induction s as [|c s IH]; intros before H; [reflexivity|].
  simpl in H. apply andb_prop in H as [Hc Hs].
  simpl. unfold lower_char. rewrite Hc. simpl. f_equal. apply IH, Hs.
Qed.

Lemma fixed_messages_not_ok (lower_ext : pystr -> char -> pystr -> pystr) :
  contains (py "ok") (lower lower_ext connect_error_message) = false
  /\ contains (py "ok") (lower lower_ext model_error_message) = false.
Proof.
  unfold lower. split; rewrite lower_from_ascii by reflexivity; reflexivity.
Qed.

Section HealthProperties.
Context {World float : Type}.
Variable lower_ext : pystr -> char -> pystr -> pystr.
Variable lm_studio_url : pystr.
Variable requests_post :
  pystr -> Payload float -> Z -> World -> result Response * World.
Variable py_repr : json -> pystr.
Variable json_error_is_request_exception : bool.
Variable temperature_0_0 : float.
Variable exn_str : exn -> pystr.
Variable ocr_available : bool.

Local Abbreviation State := (@State World).
Local Abbreviation query_lm_studio :=
  (query_lm_studio lower_ext lm_studio_url requests_post py_repr
                   json_error_is_request_exception).
Local Abbreviation health :=
  (health lower_ext lm_studio_url requests_post py_repr
          json_error_is_request_exception temperature_0_0 exn_str ocr_available).

(** The route by the outcome of its question to the model. *)
Lemma health_run (st : State) :
  health st =
  let report lm_status st1 :=
    Success {| h_status := if str_eqb lm_status (py "ok")
                           then py "ok" else py "degraded";
               h_lm_studio := lm_status;
               h_saved_chats := size (chat_sessions st1);
               h_anonymous_chats := size (anonymous_sessions st1);
               h_ocr := ocr_available;
               h_model := model_name st1 |} in
  match query_lm_studio health_messages temperature_0_0 (-1) st with
  | (Ok text, st1) =>
      (Ok (report (if contains (py "ok") (lower lower_ext text)
                   then py "ok" else py "degraded") st1), st1)
  | (Raise e, st1) => (Ok (report (py "error: " ++ exn_str e) st1), st1)
  end.
Proof.
  unfold health, try_except, bind, get_state, ret.
  destruct (query_lm_studio health_messages temperature_0_0 (-1) st)
    as [[text|e] st1]; reflexivity.
Qed.

(** X18. Once the chatbot is there, the health route always answers
    with a report, never with an error.  The report counts the sessions
    of both stores as they were, and its status is "ok" exactly when the
    model's state is "ok", which is exactly when the model call returned
    a text that holds "ok" in some case; neither store is changed. *)
Theorem health_report (st : State) :
  exists lm_status st',
    health st
    = (Ok (Success {| h_status := if str_eqb lm_status (py "ok")
                                  then py "ok" else py "degraded";
                      h_lm_studio := lm_status;
                      h_saved_chats := size (chat_sessions st);
                      h_anonymous_chats := size (anonymous_sessions st);
                      h_ocr := ocr_available;
                      h_model := model_name st' |}), st')
    /\ chat_sessions st' = chat_sessions st
    /\ anonymous_sessions st' = anonymous_sessions st
    /\ (lm_status = py "ok" <->
        exists text,
          fst (query_lm_studio health_messages temperature_0_0 (-1) st) = Ok text
          /\ contains (py "ok") (lower lower_ext text) = true).
Proof.
  rewrite health_run. cbv zeta.
  destruct (keeps_query_lm_studio lower_ext lm_studio_url requests_post py_repr
              json_error_is_request_exception health_messages temperature_0_0 (-1) st)
    as [Hsaved Hanon].
  destruct (query_lm_studio health_messages temperature_0_0 (-1) st)
    as [[text|e] st1]; simpl in Hsaved, Hanon.
  - exists (if contains (py "ok") (lower lower_ext text)
            then py "ok" else py "degraded"), st1.
    rewrite Hsaved, Hanon. repeat split; trivial.
    + intros H. exists text. split; [reflexivity|].
      destruct (contains (py "ok") (lower lower_ext text)); [reflexivity|discriminate].
    + intros (t & [= <-] & ->). reflexivity.
  - exists (py "error: " ++ exn_str e), st1.
    rewrite Hsaved, Hanon. repeat split; trivial.
    + discriminate.
    + intros (t & Ht & _). discriminate.
Qed.

(** X19. When the request to the model server fails, the health route
    still answers with a report whose status is "degraded": the state
    of the model is "degraded" after a failure of the connection, as
    the fixed message of the model call does not hold "ok", and is
    "error: " with the text of the exception after any other one. *)
Theorem health_unreachable (st : State) (e : exn) (w : World) :
  requests_post lm_studio_url
    (request_payload (model_name st) health_messages temperature_0_0 (-1) false)
    60 (world st) = (Raise e, w) ->
  health st
  = (Ok (Success {| h_status := py "degraded";
                    h_lm_studio :=
                      if is_request_exception json_error_is_request_exception e
                      then py "degraded" else py "error: " ++ exn_str e;
                    h_saved_chats := size (chat_sessions st);
                    h_anonymous_chats := size (anonymous_sessions st);
                    h_ocr := ocr_available;
                    h_model := model_name st |}), set_world w st).
Proof.
  intros Hpost. rewrite health_run. cbv zeta.
  rewrite query_lm_studio_run. cbv zeta. rewrite Hpost.
  destruct (is_request_exception json_error_is_request_exception e).
  - rewrite (proj1 (fixed_messages_not_ok lower_ext)). reflexivity.
  - reflexivity.
Qed.

End HealthProperties.

Lemma health_unreachable_witness :
  health no_ext (py "http://localhost:1200/v1/chat/completions") refused_post
         no_repr true tt no_exn_str false initial_state
  = (Ok (Success {| h_status := py "degraded";
                    h_lm_studio := py "degraded";
                    h_saved_chats := 0;
                    h_anonymous_chats := 0;
                    h_ocr := false;
                    h_model := py "ibm/granite-4-h-tiny" |}), initial_state).
Proof.
  apply (health_unreachable no_ext (py "http://localhost:1200/v1/chat/completions")
           refused_post no_repr true tt no_exn_str false initial_state
           (RequestException (py "Connection refused")) tt).
  reflexivity.
Defined.

(** X20. Sanitizing goes through concatenation: the text of a stream,
    whose chunks are sanitized one by one, is the sanitized text of the
    whole. *)
Theorem clean_text_chunks (chunks : list pystr) :
  clean_text (concat chunks) = concat (List.map clean_text chunks).
Proof.
  rewrite clean_text_filter.
  induction chunks as [|chunk chunks IH]; [reflexivity|].
  simpl. rewrite List.filter_app, IH, clean_text_filter. reflexivity.
Qed.

(** ** The chat routes *)

Lemma lstrip_blank (s : pystr) : forallb isspace s = true <-> lstrip s = [].
Proof.
  induction s as [|c s IH]; simpl; [tauto|].
  destruct (isspace c); simpl; [exact IH|]. split; discriminate.
Qed.

Lemma lstrip_head (s r : pystr) (c : char) : lstrip s = c :: r -> isspace c = false.
Proof.
  induction s as [|d s IH]; simpl; [discriminate|].
  destruct (isspace d) eqn:Hd; [exact IH|]. intros [= <- _]. exact Hd.
Qed.

(** [strip] leaves nothing exactly of the texts of white space. *)
Lemma strip_blank (s : pystr) : forallb isspace s = true <-> strip s = [].
Proof.
  unfold strip, rstrip. split.
  - intros H. apply lstrip_blank in H. rewrite H. reflexivity.
  - intros H.
    assert (H1 : lstrip (rev (lstrip s)) = []).
    { destruct (lstrip (rev (lstrip s))) as [|c l]; [reflexivity|].
      simpl in H. apply app_eq_nil in H as [_ H]. discriminate. }
    apply lstrip_blank in H1.
    destruct (lstrip s) as [|c r] eqn:E; [apply lstrip_blank; exact E|].
    apply lstrip_head in E.
    rewrite forallb_forall in H1. specialize (H1 c).
    rewrite H1 in E; [discriminate|]. apply in_rev. rewrite rev_involutive. now left.
Qed.

Section MoreRouteProperties.
Context {World float : Type}.
Variable lower_ext : pystr -> char -> pystr -> pystr.
Variable session_get : pystr -> World -> result Response * World.
Variable brave_cards : pystr -> list BraveCard.
Variable bing_items : pystr -> list BingItem.
Variable google_items : pystr -> list GoogleItem.
Variable visible_text : pystr -> result pystr.
Variable lm_studio_url : pystr.
Variable requests_post :
  pystr -> Payload float -> Z -> World -> result Response * World.
Variable json_loads : pystr -> result json.
Variable py_repr : json -> pystr.
Variable json_error_is_request_exception : bool.
Variable temperature_0_7 : float.
Variable uuid4 : World -> pystr * World.
Variable now_isoformat : World -> pystr * World.
Variable save_chat_sessions : gmap pystr Session -> World -> World.
Variable exn_str : exn -> pystr.

Local Abbreviation State := (@State World).
Local Abbreviation M := (@M World).
Local Abbreviation web_context_for :=
  (web_context_for lower_ext session_get brave_cards bing_items
                   google_items visible_text).
Local Abbreviation query_lm_studio_stream :=
  (query_lm_studio_stream lm_studio_url requests_post json_loads py_repr
                          json_error_is_request_exception).
Local Abbreviation chat :=
  (chat lower_ext session_get brave_cards bing_items google_items
        visible_text lm_studio_url requests_post py_repr
        json_error_is_request_exception).
Local Abbreviation chat_exchange :=
  (chat_exchange lower_ext session_get brave_cards bing_items
                 google_items visible_text lm_studio_url requests_post py_repr
                 json_error_is_request_exception temperature_0_7 now_isoformat
                 save_chat_sessions).
Local Abbreviation generate :=
  (generate lm_studio_url requests_post json_loads py_repr
            json_error_is_request_exception temperature_0_7 now_isoformat
            save_chat_sessions exn_str).
Local Abbreviation stream_exchange :=
  (stream_exchange lower_ext session_get brave_cards bing_items
                   google_items visible_text lm_studio_url requests_post
                   json_loads py_repr json_error_is_request_exception
                   temperature_0_7 now_isoformat save_chat_sessions exn_str).
Local Abbreviation open_session := (open_session uuid4 now_isoformat).
Local Abbreviation new_session := (new_session now_isoformat).
Local Abbreviation append_turn := (append_turn now_isoformat).
Local Abbreviation finish_logged_in :=
  (finish_logged_in now_isoformat save_chat_sessions).
Local Abbreviation chat_route :=
  (chat_route lower_ext session_get brave_cards bing_items google_items
              visible_text lm_studio_url requests_post py_repr
              json_error_is_request_exception temperature_0_7 uuid4 now_isoformat
              save_chat_sessions exn_str).
Local Abbreviation chat_stream :=
  (chat_stream lower_ext session_get brave_cards bing_items google_items
               visible_text lm_studio_url requests_post json_loads py_repr
               json_error_is_request_exception temperature_0_7 uuid4 now_isoformat
               save_chat_sessions exn_str).

Lemma bind_inv {A B} (m : M A) (k : A -> M B) (st st' : State) (b : B) :
  bind m k st = (Ok b, st') ->
  exists a st1, m st = (Ok a, st1) /\ k a st1 = (Ok b, st').
Proof.
  unfold bind. destruct (m st) as [[a|e] st1]; [eauto|discriminate].
Qed.

(** The only answer that [chat_exchange] returns is a success. *)
Lemma chat_exchange_success (l : bool) (chat_id message : pystr)
      (document_context : option pystr) (st st' : State) (r : ChatReply) :
  chat_exchange l chat_id message document_context st = (Ok r, st') ->
  exists answer, r = ChatSuccess chat_id answer (negb l).
Proof.
  unfold chat_exchange. intros H.
  repeat (apply bind_inv in H as (? & ? & _ & H); cbv beta zeta in H).
  unfold ret in H. injection H as <- _. eauto.
Qed.

(** The only answer that [stream_exchange] returns is a stream. *)
Lemma stream_exchange_success (l : bool) (chat_id message : pystr)
      (document_context : option pystr) (st st' : State) (r : StreamReply) :
  stream_exchange l chat_id message document_context st = (Ok r, st') ->
  exists events, r = Stream events.
Proof.
  unfold stream_exchange. intros H.
  do 4 (apply bind_inv in H as (? & ? & _ & H); cbv beta zeta in H).
  match type of H with context [let '(_, _) := ?web in _] => destruct web end.
  apply bind_inv in H as (events & ? & _ & H).
  unfold ret in H. injection H as <- _. eauto.
Qed.

(** A session that is there is used as it is; a logged-in user gets it
    only as its owner. *)
Lemma open_session_known (l : bool) (chat_id : pystr) (user_id : option pystr)
      (message : pystr) (session : Session) (st : State) :
  chat_id <> [] ->
  sessions_of l st !! chat_id = Some session ->
  open_session l (Some chat_id) user_id message st
  = (Ok (if l && negb (bool_decide (s_user_id session = user_id))
         then None else Some chat_id), st).
Proof.
  intros Hid Hl. unfold open_session.
  rewrite (bind_ok get_state _ st st st eq_refl).
  assert (Hnew : needs_new_session (Some chat_id) (sessions_of l st) = false).
  { destruct chat_id as [|c r]; [contradiction|].
    unfold needs_new_session.
    match goal with
    | |- match ?x with _ => _ end = _ =>
        replace x with (Some session) by (symmetry; exact Hl)
    end.
    reflexivity. }
  rewrite Hnew.
  rewrite (bind_ok (ret (or_empty (Some chat_id))) _ st st chat_id eq_refl).
  destruct l; [|reflexivity]. cbn [andb].
  rewrite (bind_ok _ _ _ _ _ (get_session_run true chat_id session st Hl)).
  destruct (decide (s_user_id session = user_id)) as [Heq|Hne].
  - rewrite bool_decide_eq_true_2 by exact Heq. reflexivity.
  - rewrite bool_decide_eq_false_2 by exact Hne. reflexivity.
Qed.

(** Access is denied only to a logged-in user who names a saved chat of
    another owner, and then nothing has changed. *)
Lemma open_session_denied (chat_id user_id : option pystr) (message : pystr)
      (st st' : State) :
  open_session (logged_in user_id) chat_id user_id message st = (Ok None, st') ->
  st' = st
  /\ logged_in user_id = true
  /\ exists c session,
      chat_id = Some c /\ c <> [] /\ chat_sessions st !! c = Some session
      /\ s_user_id session <> user_id.
Proof.
  destruct (needs_new_session chat_id (sessions_of (logged_in user_id) st)) eqn:Hnew.
  - unfold open_session.
    rewrite (bind_ok get_state _ st st st eq_refl). rewrite Hnew.
    unfold new_session, bind, io, modify, ret, get_session.
    destruct (uuid4 (world st)) as [new_id w1]. simpl.
    destruct (logged_in user_id); simpl.
    + destruct (now_isoformat w1) as [created_at w2]. simpl.
      destruct (now_isoformat w2) as [updated_at w3]. simpl.
      rewrite lookup_insert_eq. simpl.
      destruct (decide (user_id = user_id)); [discriminate|contradiction].
    + destruct (now_isoformat w1) as [created_at w2]. simpl. discriminate.
  - destruct chat_id as [[|c r]|]; try discriminate.
    unfold needs_new_session in Hnew.
    match type of Hnew with
    | match ?x with _ => _ end = _ => destruct x as [session|] eqn:Hl
    end; [|discriminate].
    rewrite (open_session_known _ (c :: r) user_id message session st); trivial;
      [|discriminate].
    destruct (logged_in user_id) eqn:Hin; [|discriminate]. cbn [andb].
    destruct (decide (s_user_id session = user_id)) as [Heq|Hne];
      [rewrite bool_decide_eq_true_2 by exact Heq; discriminate|].
    rewrite bool_decide_eq_false_2 by exact Hne.
    intros [= <-]. split; [reflexivity|]. split; [reflexivity|].
    exists (c :: r), session. repeat split; trivial. discriminate.
Qed.

(** X21. Both chat routes answer 400 exactly to the messages that are
    empty or white space only, and such a request changes nothing: no
    session is opened for it. *)
Theorem blank_message_refused (data : ChatRequest) (st : State) :
  (forallb isspace (rq_message data) = true ->
   chat_route data st = (Ok (ChatFailure (py "Message cannot be empty") 400), st)
   /\ chat_stream data st
      = (Ok (StreamFailure (py "Message cannot be empty") 400), st))
  /\ (forall error st',
         chat_route data st = (Ok (ChatFailure error 400), st') ->
         forallb isspace (rq_message data) = true)
  /\ (forall error st',
         chat_stream data st = (Ok (StreamFailure error 400), st') ->
         forallb isspace (rq_message data) = true).
Proof.
  split; [|split].
  - intros H. apply strip_blank in H.
    unfold chat_route, chat_stream, try_except. cbv zeta. rewrite H. split; reflexivity.
  - intros error st'.
    destruct (strip (rq_message data)) as [|c r] eqn:Hs; [intros _; now apply strip_blank|].
    unfold chat_route, try_except. cbv zeta. rewrite Hs. cbn [nonempty negb].
    unfold bind at 1.
    destruct (open_session _ _ _ _ st) as [[[chat_id|]|e] st0]; try discriminate.
    destruct (chat_exchange _ chat_id _ _ st0) as [[reply|e] st1] eqn:Hex;
      [|discriminate].
    apply chat_exchange_success in Hex as [answer ->]. discriminate.
  - intros error st'.
    destruct (strip (rq_message data)) as [|c r] eqn:Hs; [intros _; now apply strip_blank|].
    unfold chat_stream, try_except. cbv zeta. rewrite Hs. cbn [nonempty negb].
    unfold bind at 1.
    destruct (open_session _ _ _ _ st) as [[[chat_id|]|e] st0]; try discriminate.
    destruct (stream_exchange _ chat_id _ _ st0) as [[reply|e] st1] eqn:Hex;
      [|discriminate].
    apply stream_exchange_success in Hex as [events ->]. discriminate.
Qed.

(** X22. For a message that is not blank, both chat routes answer 403
    exactly when a logged-in user names a saved chat of another owner;
    the answer is "Access denied" and nothing has changed.  An
    anonymous request is never denied. *)
Theorem access_denied_iff (data : ChatRequest) (st : State) :
  strip (rq_message data) <> [] ->
  (foreign_chat data st ->
   chat_route data st = (Ok (ChatFailure (py "Access denied") 403), st)
   /\ chat_stream data st = (Ok (StreamFailure (py "Access denied") 403), st))
  /\ (forall error st',
         chat_route data st = (Ok (ChatFailure error 403), st') ->
         foreign_chat data st)
  /\ (forall error st',
         chat_stream data st = (Ok (StreamFailure error 403), st') ->
         foreign_chat data st).
Proof.
  intros Hmsg. split; [|split].
  - intros (Hin & chat_id & session & Hid & Hne & Hl & Hown).
    assert (Hopen : open_session (logged_in (rq_user_id data)) (rq_chat_id data)
                      (rq_user_id data) (strip (rq_message data)) st = (Ok None, st)).
    { rewrite Hid, Hin.
      rewrite (open_session_known true chat_id _ _ session st Hne Hl).
      rewrite bool_decide_eq_false_2 by exact Hown. reflexivity. }
    unfold chat_route, chat_stream, try_except. cbv zeta.
    rewrite (nonempty_true _ Hmsg). cbn [negb].
    rewrite !(bind_ok _ _ _ _ _ Hopen). split; reflexivity.
  - intros error st'.
    unfold chat_route, try_except. cbv zeta.
    rewrite (nonempty_true _ Hmsg). cbn [negb]. unfold bind at 1.
    destruct (open_session _ _ _ _ st) as [[[chat_id|]|e] st0] eqn:Hopen;
      try discriminate.
    + destruct (chat_exchange _ chat_id _ _ st0) as [[reply|e] st1] eqn:Hex;
        [|discriminate].
      apply chat_exchange_success in Hex as [answer ->]. discriminate.
    + intros _. apply open_session_denied in Hopen as (_ & Hin & c & s & H).
      split; [exact Hin|]. exists c, s. exact H.
  - intros error st'.
    unfold chat_stream, try_except. cbv zeta.
    rewrite (nonempty_true _ Hmsg). cbn [negb]. unfold bind at 1.
    destruct (open_session _ _ _ _ st) as [[[chat_id|]|e] st0] eqn:Hopen;
      try discriminate.
    + destruct (stream_exchange _ chat_id _ _ st0) as [[reply|e] st1] eqn:Hex;
        [|discriminate].
      apply stream_exchange_success in Hex as [events ->]. discriminate.
    + intros _. apply open_session_denied in Hopen as (_ & Hin & c & s & H).
      split; [exact Hin|]. exists c, s. exact H.
Qed.

(** *** The two stores *)

Lemma keeps_other_keeps {A} (l : bool) (m : M A) :
  keeps_sessions m -> keeps_other l m.
Proof. intros H st. apply sessions_of_kept, H. Qed.

Lemma keeps_other_bind {A B} (l : bool) (m : M A) (k : A -> M B) :
  keeps_other l m -> (forall a, keeps_other l (k a)) -> keeps_other l (bind m k).
Proof.
  intros Hm Hk st. unfold bind. specialize (Hm st).
  destruct (m st) as [[a|e] st1]; simpl in *; [|exact Hm].
  rewrite Hk. exact Hm.
Qed.

Lemma keeps_other_try {A} (l : bool) (m : M A) (handles : exn -> bool)
      (handler : exn -> M A) :
  keeps_other l m -> (forall e, keeps_other l (handler e)) ->
  keeps_other l (try_except m handles handler).
Proof.
  intros Hm Hh st. unfold try_except. specialize (Hm st).
  destruct (m st) as [[a|e] st1]; simpl in *; [exact Hm|].
  destruct (handles e); [|exact Hm]. rewrite Hh. exact Hm.
Qed.

Lemma keeps_get_session (l : bool) (chat_id : pystr) :
  keeps_sessions (get_session l chat_id : M Session).
Proof.
  intros st. unfold get_session.
  destruct (sessions_of l st !! chat_id); split; reflexivity.
Qed.

Lemma keeps_get_state : keeps_sessions (get_state : M State).
Proof. intros st. split; reflexivity. Qed.

Lemma keeps_other_update (l : bool) (chat_id : pystr) (f : Session -> Session) :
  keeps_other l (update_session l chat_id f : M unit).
Proof.
  intros st. unfold update_session, bind, get_session.
  destruct (sessions_of l st !! chat_id); [|reflexivity].
  destruct l; reflexivity.
Qed.

Lemma keeps_other_append_turn (l : bool) (chat_id role content : pystr) :
  keeps_other l (append_turn l chat_id role content).
Proof.
  unfold append_turn. apply keeps_other_bind.
  - apply keeps_other_keeps, keeps_io.
  - intros timestamp. apply keeps_other_update.
Qed.

Lemma keeps_other_new_session (l : bool) (new_id : pystr) (user_id : option pystr)
      (message : pystr) :
  keeps_other l (new_session l new_id user_id message).
Proof.
  intros st. unfold new_session, bind, io, modify.
  destruct l; repeat destruct (now_isoformat _); reflexivity.
Qed.

Lemma keeps_other_open_session (l : bool) (chat_id user_id : option pystr)
      (message : pystr) :
  keeps_other l (open_session l chat_id user_id message).
Proof.
  unfold open_session.
  apply keeps_other_bind; [apply keeps_other_keeps, keeps_get_state|]. intros st.
  apply keeps_other_bind.
  - destruct (needs_new_session _ _); [|apply keeps_other_keeps, keeps_ret].
    apply keeps_other_bind; [apply keeps_other_keeps, keeps_io|]. intros new_id.
    apply keeps_other_bind; [apply keeps_other_new_session|]. intros _.
    apply keeps_other_keeps, keeps_ret.
  - intros cid. destruct l; [|apply keeps_other_keeps, keeps_ret].
    apply keeps_other_bind; [apply keeps_other_keeps, keeps_get_session|].
    intros session.
    destruct (decide _); apply keeps_other_keeps, keeps_ret.
Qed.

Lemma keeps_other_finish (chat_id message : pystr) :
  keeps_other true (finish_logged_in chat_id message).
Proof.
  unfold finish_logged_in.
  apply keeps_other_bind; [apply keeps_other_keeps, keeps_io|]. intros updated_at.
  apply keeps_other_bind; [apply keeps_other_update|]. intros _.
  apply keeps_other_bind; [apply keeps_other_keeps, keeps_get_session|].
  intros session.
  apply keeps_other_bind.
  { destruct (_ =? _)%nat; [apply keeps_other_update|apply keeps_other_keeps, keeps_ret]. }
  intros _.
  apply keeps_other_bind; [apply keeps_other_keeps, keeps_get_state|]. intros st.
  apply keeps_other_bind; [apply keeps_other_keeps, keeps_io|]. intros _.
  apply keeps_other_keeps, keeps_ret.
Qed.

Lemma keeps_other_finish_if (l : bool) (chat_id message : pystr) :
  keeps_other l (if l then finish_logged_in chat_id message else ret tt).
Proof.
  destruct l; [apply keeps_other_finish|apply keeps_other_keeps, keeps_ret].
Qed.

Lemma keeps_other_chat_exchange (l : bool) (chat_id message : pystr)
      (document_context : option pystr) :
  keeps_other l (chat_exchange l chat_id message document_context).
Proof.
  unfold chat_exchange.
  apply keeps_other_bind; [apply keeps_other_keeps, keeps_get_session|].
  intros session. cbv zeta.
  apply keeps_other_bind; [apply keeps_other_append_turn|]. intros _.
  apply keeps_other_bind; [apply keeps_other_keeps, keeps_get_session|].
  intros session'.
  apply keeps_other_bind; [apply keeps_other_keeps, keeps_chat|]. intros answer.
  apply keeps_other_bind; [apply keeps_other_append_turn|]. intros _.
  apply keeps_other_bind; [apply keeps_other_finish_if|]. intros _.
  apply keeps_other_keeps, keeps_ret.
Qed.

Lemma keeps_other_generate (l show searched : bool) (chat_id message : pystr)
      (messages : list ChatMessage) :
  keeps_other l (generate l show searched chat_id message messages).
Proof.
  unfold generate. cbv zeta. apply keeps_other_try.
  - apply keeps_other_bind;
      [apply keeps_other_keeps, keeps_query_lm_studio_stream|]. intros chunks.
    apply keeps_other_bind; [apply keeps_other_append_turn|]. intros _.
    apply keeps_other_bind; [apply keeps_other_finish_if|]. intros _.
    apply keeps_other_keeps, keeps_ret.
  - intros e. apply keeps_other_keeps, keeps_ret.
Qed.

Lemma keeps_other_stream_exchange (l : bool) (chat_id message : pystr)
      (document_context : option pystr) :
  keeps_other l (stream_exchange l chat_id message document_context).
Proof.
  unfold stream_exchange.
  apply keeps_other_bind; [apply keeps_other_keeps, keeps_get_session|].
  intros session. cbv zeta.
  apply keeps_other_bind; [apply keeps_other_append_turn|]. intros _.
  apply keeps_other_bind; [apply keeps_other_keeps, keeps_get_session|].
  intros session'.
  apply keeps_other_bind; [apply keeps_other_keeps, keeps_web_context_for|].
  intros [web_context searched].
  apply keeps_other_bind; [apply keeps_other_generate|]. intros events.
  apply keeps_other_keeps, keeps_ret.
Qed.

(** X23. A chat request works on one store only: a request of a
    logged-in user leaves every anonymous session as it is, and an
    anonymous request leaves every saved chat as it is, on both routes
    and whatever the outcome. *)
Theorem other_store_untouched (data : ChatRequest) (st : State) :
  let l := logged_in (rq_user_id data) in
  sessions_of (negb l) (snd (chat_route data st)) = sessions_of (negb l) st
  /\ sessions_of (negb l) (snd (chat_stream data st)) = sessions_of (negb l) st.
Proof.
  cbv zeta. split.
  - apply (keeps_other_try (logged_in (rq_user_id data))).
    + cbv zeta. destruct (negb _); [apply keeps_other_keeps, keeps_ret|].
      apply keeps_other_bind; [apply keeps_other_open_session|].
      intros [chat_id|]; [apply keeps_other_chat_exchange|].
      apply keeps_other_keeps, keeps_ret.
    + intros e. apply keeps_other_keeps, keeps_ret.
  - apply (keeps_other_try (logged_in (rq_user_id data))).
    + cbv zeta. destruct (negb _); [apply keeps_other_keeps, keeps_ret|].
      apply keeps_other_bind; [apply keeps_other_open_session|].
      intros [chat_id|]; [apply keeps_other_stream_exchange|].
      apply keeps_other_keeps, keeps_ret.
    + intros e. apply keeps_other_keeps, keeps_ret.
Qed.

(** *** Failures of the model inside a chat *)

Local Abbreviation query_lm_studio :=
  (query_lm_studio lower_ext lm_studio_url requests_post py_repr
                   json_error_is_request_exception).

(** A request that names a session of its store, of its own for a
    logged-in user, goes on with this session. *)
Lemma open_session_own (data : ChatRequest) (chat_id : pystr) (session : Session)
      (st : State) :
  rq_chat_id data = Some chat_id ->
  chat_id <> [] ->
  sessions_of (logged_in (rq_user_id data)) st !! chat_id = Some session ->
  (logged_in (rq_user_id data) = true -> s_user_id session = rq_user_id data) ->
  open_session (logged_in (rq_user_id data)) (rq_chat_id data) (rq_user_id data)
               (strip (rq_message data)) st
  = (Ok (Some chat_id), st).
Proof.
  intros Hid Hne Hl Hown. rewrite Hid.
  rewrite (open_session_known _ chat_id _ _ session st Hne Hl).
  destruct (logged_in (rq_user_id data)); [|reflexivity].
  rewrite bool_decide_eq_true_2 by (apply Hown; reflexivity). reflexivity.
Qed.

(** X24. When the model call of [/api/chat] raises, in a session that
    is there, the route answers 500 with the text of the exception, and
    the question stays in the session as its last turn, without an
    answer. *)
Theorem failed_exchange_keeps_question (data : ChatRequest) (chat_id : pystr)
        (session : Session) (st st2 : State) (e : exn) :
  strip (rq_message data) <> [] ->
  rq_chat_id data = Some chat_id ->
  chat_id <> [] ->
  sessions_of (logged_in (rq_user_id data)) st !! chat_id = Some session ->
  (logged_in (rq_user_id data) = true -> s_user_id session = rq_user_id data) ->
  chat (strip (rq_message data)) (history_option (history_of session))
       temperature_0_7 (rq_document_context data)
       (with_user_turn now_isoformat (logged_in (rq_user_id data)) chat_id
                       (strip (rq_message data)) session st)
  = (Raise e, st2) ->
  chat_route data st
  = (Ok (ChatFailure (py "An error occurred: " ++ exn_str e) 500), st2)
  /\ exists asked,
      sessions_of (logged_in (rq_user_id data)) st2 !! chat_id
      = Some (with_message session
                {| t_role := py "user"; t_content := strip (rq_message data);
                   t_timestamp := asked |}).
Proof.
  intros Hmsg Hid Hne Hl Hown Hchat.
  pose proof (open_session_own data chat_id session st Hid Hne Hl Hown) as Hopen.
  destruct (append_user_turn_run now_isoformat _ chat_id (strip (rq_message data))
              session st Hl) as [Happ [asked Hl1]].
  split.
  - rewrite (chat_route_exchange lower_ext session_get brave_cards
               bing_items google_items visible_text lm_studio_url requests_post
               py_repr json_error_is_request_exception temperature_0_7 uuid4
               now_isoformat save_chat_sessions exn_str data chat_id st st
               Hmsg Hopen).
    assert (Hex : chat_exchange (logged_in (rq_user_id data)) chat_id
                    (strip (rq_message data)) (rq_document_context data) st
                  = (Raise e, st2)).
    { unfold chat_exchange.
      rewrite (bind_ok _ _ _ _ _ (get_session_run _ _ _ _ Hl)).
      rewrite (bind_ok _ _ _ _ _ Happ).
      rewrite (bind_ok _ _ _ _ _ (get_session_run _ _ _ _ Hl1)).
      simpl s_messages. rewrite removelast_last, history_option_map.
      apply bind_raise. exact Hchat. }
    rewrite Hex. reflexivity.
  - exists asked.
    pose proof (sessions_of_kept _ (logged_in (rq_user_id data))
                  (with_user_turn now_isoformat (logged_in (rq_user_id data))
                                  chat_id (strip (rq_message data)) session st)
                  (keeps_chat lower_ext session_get brave_cards
                     bing_items google_items visible_text lm_studio_url
                     requests_post py_repr json_error_is_request_exception
                     (strip (rq_message data))
                     (history_option (history_of session))
                     temperature_0_7 (rq_document_context data))) as Hk.
    rewrite Hchat in Hk. simpl in Hk. rewrite Hk. exact Hl1.
Qed.

(** X25. When the model server cannot be reached, both chat routes
    still answer with success, in a session that is there and for a
    message whose search query has no surrogate code point, so that the
    web search returns.  [/api/chat]
    gives the fixed message about the connection as the answer, and
    [/api/chat/stream] sends the chunk "[ERROR] Error querying LM
    Studio: " with the message of the failure; either text is recorded
    in the session as the turn of the assistant. *)
Theorem unreachable_model_recorded (data : ChatRequest) (chat_id : pystr)
        (session : Session) (st : State) (msg : pystr) :
  strip (rq_message data) <> [] ->
  rq_chat_id data = Some chat_id ->
  chat_id <> [] ->
  sessions_of (logged_in (rq_user_id data)) st !! chat_id = Some session ->
  (logged_in (rq_user_id data) = true -> s_user_id session = rq_user_id data) ->
  existsb surrogate (extract_search_query lower_ext (strip (rq_message data)))
  = false ->
  (forall payload timeout w,
      exists w', requests_post lm_studio_url payload timeout w
                 = (Raise (RequestException msg), w')) ->
  let l := logged_in (rq_user_id data) in
  let message := strip (rq_message data) in
  let reminder := reminder_prefix (show_reminder l session) in
  (exists st' final,
      chat_route data st
      = (Ok (ChatSuccess chat_id (reminder ++ connect_error_message) (negb l)), st')
      /\ sessions_of l st' !! chat_id = Some final
      /\ exchange_recorded (s_messages session) message
                           (reminder ++ connect_error_message) final)
  /\ (exists searched st' final,
         let final_text :=
           reminder ++ notice_prefix searched ++ stream_error_prefix ++ msg in
         chat_stream data st
         = (Ok (Stream
                  (List.map Delta
                     ((if show_reminder l session then [login_reminder] else [])
                      ++ (if searched then [search_notice] else [])
                      ++ [stream_error_prefix ++ msg])
                   ++ [Done chat_id final_text (negb l)])), st')
         /\ sessions_of l st' !! chat_id = Some final
         /\ exchange_recorded (s_messages session) message final_text final).
Proof.
  intros Hmsg Hid Hne Hl Hown Hquote Hdown l message reminder.
  pose proof (open_session_own data chat_id session st Hid Hne Hl Hown) as Hopen.
  fold l message in Hopen, Hl.
  set (st1 := with_user_turn now_isoformat l chat_id message session st).
  destruct (web_context_for_run lower_ext session_get brave_cards
              bing_items google_items visible_text message st1 Hquote)
    as (results & st2 & Hweb & _).
  split.
  - assert (Hchat : exists st3,
               chat message (history_option (history_of session)) temperature_0_7
                    (rq_document_context data) st1
               = (Ok connect_error_message, st3)).
    { unfold chat. rewrite (bind_ok _ _ _ _ _ Hweb). cbv zeta.
      match goal with
      | |- context [query_lm_studio ?messages temperature_0_7 (-1)] =>
          pose proof (query_lm_studio_run lower_ext lm_studio_url requests_post
                        py_repr json_error_is_request_exception messages
                        temperature_0_7 (-1) st2) as Hrun;
          destruct (Hdown (request_payload (model_name st2) messages
                                           temperature_0_7 (-1) false)
                          60%Z (world st2)) as [w Hpost]
      end.
      cbv zeta in Hrun. rewrite Hpost in Hrun. simpl in Hrun.
      exists (set_world w st2). rewrite (bind_ok _ _ _ _ _ Hrun). reflexivity. }
    destruct Hchat as [st3 Hchat].
    destruct (chat_exchange_run lower_ext session_get brave_cards
                bing_items google_items visible_text lm_studio_url requests_post
                py_repr json_error_is_request_exception temperature_0_7
                now_isoformat save_chat_sessions l chat_id message
                (rq_document_context data) session st st3 connect_error_message
                Hl Hchat) as (st4 & final & Hex & Hfinal & Hrec).
    exists st4, final. split; [|split; assumption].
    rewrite (chat_route_exchange lower_ext session_get brave_cards
               bing_items google_items visible_text lm_studio_url requests_post
               py_repr json_error_is_request_exception temperature_0_7 uuid4
               now_isoformat save_chat_sessions exn_str data chat_id st st
               Hmsg Hopen).
    fold l message. rewrite Hex. reflexivity.
  - destruct (web_context_block results) as [web_context searched].
    set (messages := compose_messages stream_system_prompt
                       (Some (history_of session)) (rq_document_context data)
                       web_context message).
    destruct (Hdown (request_payload (model_name st2) messages temperature_0_7 (-1)
                                     true) 120%Z (world st2)) as [w Hpost].
    assert (Hq : query_lm_studio_stream messages temperature_0_7 (-1) 120 st2
                 = (Ok [stream_error_prefix ++ msg], set_world w st2)).
    { rewrite query_lm_studio_stream_cases. rewrite Hpost. reflexivity. }
    destruct (stream_exchange_run lower_ext session_get brave_cards
                bing_items google_items visible_text lm_studio_url requests_post
                json_loads py_repr json_error_is_request_exception temperature_0_7
                now_isoformat save_chat_sessions exn_str l chat_id message
                (rq_document_context data) session st st2 (set_world w st2)
                web_context searched [stream_error_prefix ++ msg] Hl Hweb Hq)
      as (st4 & final & Hex & Hfinal & Hrec).
    exists searched, st4, final. cbv zeta.
    simpl concat in Hex, Hrec. rewrite app_nil_r in Hex, Hrec.
    split; [|split; assumption].
    rewrite (chat_stream_exchange lower_ext session_get brave_cards
               bing_items google_items visible_text lm_studio_url requests_post
               json_loads py_repr json_error_is_request_exception temperature_0_7
               uuid4 now_isoformat save_chat_sessions exn_str data chat_id st st
               Hmsg Hopen).
    fold l message. rewrite Hex. reflexivity.
Qed.

(** *** The session of a request *)



Lemma touches_keeps {A} (l : bool) (c : pystr) (m : M A) :
  keeps_sessions m -> touches_only l c m.
Proof. intros H st other _. rewrite (sessions_of_kept m l st H). reflexivity. Qed.

Lemma touches_bind {A B} (l : bool) (c : pystr) (m : M A) (k : A -> M B) :
  touches_only l c m -> (forall a, touches_only l c (k a)) ->
  touches_only l c (bind m k).
Proof.
  intros Hm Hk st other Hne. unfold bind. specialize (Hm st other Hne).
  destruct (m st) as [[a|e] st1]; simpl in *; [|exact Hm].
  rewrite (Hk a st1 other Hne). exact Hm.
Qed.

Lemma touches_try {A} (l : bool) (c : pystr) (m : M A) (handles : exn -> bool)
      (handler : exn -> M A) :
  touches_only l c m -> (forall e, touches_only l c (handler e)) ->
  touches_only l c (try_except m handles handler).
Proof.
  intros Hm Hh st other Hne. unfold try_except. specialize (Hm st other Hne).
  destruct (m st) as [[a|e] st1]; simpl in *; [exact Hm|].
  destruct (handles e); [|exact Hm]. rewrite (Hh e st1 other Hne). exact Hm.
Qed.

Lemma touches_update (l : bool) (c : pystr) (f : Session -> Session) :
  touches_only l c (update_session l c f : M unit).
Proof.
  intros st other Hne. unfold update_session, bind, get_session.
  destruct (sessions_of l st !! c); [|reflexivity].
  simpl. rewrite sessions_of_set. apply lookup_insert_ne. congruence.
Qed.

Lemma touches_append_turn (l : bool) (c role content : pystr) :
  touches_only l c (append_turn l c role content).
Proof.
  unfold append_turn. apply touches_bind.
  - apply touches_keeps, keeps_io.
  - intros timestamp. apply touches_update.
Qed.

Lemma touches_finish_if (l : bool) (c message : pystr) :
  touches_only l c (if l then finish_logged_in c message else ret tt).
Proof.
  destruct l; [|apply touches_keeps, keeps_ret].
  unfold finish_logged_in.
  apply touches_bind; [apply touches_keeps, keeps_io|]. intros updated_at.
  apply touches_bind; [apply touches_update|]. intros _.
  apply touches_bind; [apply touches_keeps, keeps_get_session|].
  intros session.
  apply touches_bind.
  { destruct (_ =? _)%nat; [apply touches_update|apply touches_keeps, keeps_ret]. }
  intros _.
  apply touches_bind; [apply touches_keeps, keeps_get_state|]. intros st.
  apply touches_bind; [apply touches_keeps, keeps_io|]. intros _.
  apply touches_keeps, keeps_ret.
Qed.

Lemma touches_chat_exchange (l : bool) (c message : pystr)
      (document_context : option pystr) :
  touches_only l c (chat_exchange l c message document_context).
Proof.
  unfold chat_exchange.
  apply touches_bind; [apply touches_keeps, keeps_get_session|].
  intros session. cbv zeta.
  apply touches_bind; [apply touches_append_turn|]. intros _.
  apply touches_bind; [apply touches_keeps, keeps_get_session|].
  intros session'.
  apply touches_bind; [apply touches_keeps, keeps_chat|]. intros answer.
  apply touches_bind; [apply touches_append_turn|]. intros _.
  apply touches_bind; [apply touches_finish_if|]. intros _.
  apply touches_keeps, keeps_ret.
Qed.

Lemma touches_stream_exchange (l : bool) (c message : pystr)
      (document_context : option pystr) :
  touches_only l c (stream_exchange l c message document_context).
Proof.
  unfold stream_exchange.
  apply touches_bind; [apply touches_keeps, keeps_get_session|].
  intros session. cbv zeta.
  apply touches_bind; [apply touches_append_turn|]. intros _.
  apply touches_bind; [apply touches_keeps, keeps_get_session|].
  intros session'.
  apply touches_bind; [apply touches_keeps, keeps_web_context_for|].
  intros [web_context searched].
  apply touches_bind; [|intros events; apply touches_keeps, keeps_ret].
  unfold generate. cbv zeta. apply touches_try.
  - apply touches_bind;
      [apply touches_keeps, keeps_query_lm_studio_stream|]. intros chunks.
    apply touches_bind; [apply touches_append_turn|]. intros _.
    apply touches_bind; [apply touches_finish_if|]. intros _.
    apply touches_keeps, keeps_ret.
  - intros e. apply touches_keeps, keeps_ret.
Qed.

(** The start of the routes changes no session but the one of the
    request, and goes on with no other. *)
Lemma open_session_touch (data : ChatRequest) (st : State) :
  let opened :=
    open_session (logged_in (rq_user_id data)) (rq_chat_id data) (rq_user_id data)
                 (strip (rq_message data)) st in
  (forall other,
      other <> session_id_of uuid4 data st ->
      sessions_of (logged_in (rq_user_id data)) (snd opened) !! other
      = sessions_of (logged_in (rq_user_id data)) st !! other)
  /\ (forall c, fst opened = Ok (Some c) -> c = session_id_of uuid4 data st).
Proof.
  cbv zeta. unfold session_id_of, open_session.
  rewrite (bind_ok get_state _ st st st eq_refl).
  destruct (needs_new_session _ _).
  - unfold new_session, bind, io, modify, ret, get_session.
    destruct (uuid4 (world st)) as [new_id w1]. simpl.
    destruct (logged_in (rq_user_id data)); simpl.
    + destruct (now_isoformat w1) as [created_at w2]. simpl.
      destruct (now_isoformat w2) as [updated_at w3]. simpl.
      rewrite lookup_insert_eq. simpl.
      destruct (decide _); simpl; (split;
        [intros other Hne; apply lookup_insert_ne; congruence|]);
        [intros c [= <-]; reflexivity|discriminate].
    + destruct (now_isoformat w1) as [created_at w2]. simpl. split.
      * intros other Hne. apply lookup_insert_ne. congruence.
      * intros c [= <-]. reflexivity.
  - rewrite (bind_ok (ret (or_empty (rq_chat_id data))) _ st st _ eq_refl).
    destruct (logged_in (rq_user_id data)).
    + unfold bind, get_session, ret.
      destruct (sessions_of true st !! or_empty (rq_chat_id data)); simpl.
      * destruct (decide _); simpl; (split; [reflexivity|]);
          [intros c [= <-]; reflexivity|discriminate].
      * split; [reflexivity|discriminate].
    + simpl. split; [reflexivity|]. intros c [= <-]. reflexivity.
Qed.

(** X27. A chat request changes one session at most: every session of
    its store but the one it works on, which is the one it names when
    that is there and a new one else, is after the request as it was
    before, on both routes and whatever the outcome. *)
Theorem one_session_touched (data : ChatRequest) (st : State) (other : pystr) :
  other <> session_id_of uuid4 data st ->
  sessions_of (logged_in (rq_user_id data)) (snd (chat_route data st)) !! other
  = sessions_of (logged_in (rq_user_id data)) st !! other
  /\ sessions_of (logged_in (rq_user_id data)) (snd (chat_stream data st)) !! other
     = sessions_of (logged_in (rq_user_id data)) st !! other.
Proof.
  intros Hne.
  destruct (open_session_touch data st) as [Hkeep Hid]. cbv zeta in Hkeep, Hid.
  specialize (Hkeep other Hne).
  split.
  - unfold chat_route, try_except. cbv zeta.
    destruct (negb _); [reflexivity|]. unfold bind at 1.
    destruct (open_session _ _ _ _ st) as [[[c|]|e] st0]; simpl in Hkeep, Hid;
      try exact Hkeep.
    specialize (Hid c eq_refl). subst c.
    pose proof (touches_chat_exchange (logged_in (rq_user_id data))
                  (session_id_of uuid4 data st) (strip (rq_message data))
                  (rq_document_context data) st0 other Hne) as Ht.
    destruct (chat_exchange _ _ _ _ st0) as [[r|e] st1]; simpl in Ht |- *;
      rewrite Ht; exact Hkeep.
  - unfold chat_stream, try_except. cbv zeta.
    destruct (negb _); [reflexivity|]. unfold bind at 1.
    destruct (open_session _ _ _ _ st) as [[[c|]|e] st0]; simpl in Hkeep, Hid;
      try exact Hkeep.
    specialize (Hid c eq_refl). subst c.
    pose proof (touches_stream_exchange (logged_in (rq_user_id data))
                  (session_id_of uuid4 data st) (strip (rq_message data))
                  (rq_document_context data) st0 other Hne) as Ht.
    destruct (stream_exchange _ _ _ _ st0) as [[r|e] st1]; simpl in Ht |- *;
      rewrite Ht; exact Hkeep.
Qed.

End MoreRouteProperties.

Lemma delete_chat_cases_witness :
  exists st',
    delete_chat no_save no_exn_str (py "chat-a") (Some (py "alice")) alice_state
    = (Ok (Success tt), st')
    /\ get_chat no_exn_str (py "chat-a") (Some (py "alice")) st'
       = (Ok (Failure (py "Chat not found") 404), st').
Proof.
  pose proof (delete_chat_cases no_save no_exn_str (py "chat-a") (Some (py "alice"))
                alice_state eq_refl) as H.
  assert (Hl : chat_sessions alice_state !! py "chat-a" = Some alice_session)
    by (vm_compute; reflexivity).
  rewrite Hl in H. destruct H as [H _].
  destruct (H eq_refl) as (st' & Hdel & Hget & _).
  exists st'. split; assumption.
Defined.

Lemma access_denied_iff_witness :
  chat_route no_ext brave_only_get one_bare_card no_bing no_google
             plain_text (py "http://localhost:1200/v1/chat/completions")
             one_model_post no_repr true tt fixed_uuid fixed_now no_save no_exn_str
             bob_request alice_state
  = (Ok (ChatFailure (py "Access denied") 403), alice_state).
Proof.
  destruct (access_denied_iff no_ext brave_only_get one_bare_card
              no_bing no_google plain_text
              (py "http://localhost:1200/v1/chat/completions")
              one_model_post hi_loads no_repr true tt fixed_uuid fixed_now no_save
              no_exn_str bob_request alice_state) as [H _].
  - vm_compute. discriminate.
  - apply H. split; [reflexivity|].
    exists (py "chat-a"), alice_session.
    split; [reflexivity|]. split; [discriminate|].
    split; [vm_compute; reflexivity|]. discriminate.
Defined.

Lemma failed_exchange_keeps_question_witness :
  exists st2,
    chat_route no_ext brave_only_get one_bare_card no_bing no_google
               plain_text (py "http://localhost:1200/v1/chat/completions")
               empty_object_post no_repr true tt fixed_uuid fixed_now no_save
               no_exn_str alice_request alice_state
    = (Ok (ChatFailure (py "An error occurred: " ++ no_exn_str KeyError) 500), st2)
    /\ exists asked,
        sessions_of true st2 !! py "chat-a"
        = Some (with_message alice_session
                  {| t_role := py "user"; t_content := py "hello";
                     t_timestamp := asked |}).
Proof.
  eexists.
  apply (failed_exchange_keeps_question no_ext brave_only_get
           one_bare_card no_bing no_google plain_text
           (py "http://localhost:1200/v1/chat/completions")
           empty_object_post no_repr true tt fixed_uuid fixed_now no_save
           no_exn_str alice_request (py "chat-a") alice_session alice_state _
           KeyError).
  - vm_compute. discriminate.
  - reflexivity.
  - discriminate.
  - vm_compute. reflexivity.
  - intros _. reflexivity.
  - vm_compute. reflexivity.
Defined.

Lemma unreachable_model_recorded_witness :
  exists st' final,
    chat_route no_ext brave_only_get one_bare_card no_bing no_google
               plain_text (py "http://localhost:1200/v1/chat/completions")
               refused_post no_repr true tt fixed_uuid fixed_now no_save
               no_exn_str alice_request alice_state
    = (Ok (ChatSuccess (py "chat-a") connect_error_message false), st')
    /\ sessions_of true st' !! py "chat-a" = Some final
    /\ exchange_recorded [] (py "hello") connect_error_message final.
Proof.
  destruct (unreachable_model_recorded no_ext brave_only_get
              one_bare_card no_bing no_google plain_text
              (py "http://localhost:1200/v1/chat/completions")
              refused_post hi_loads no_repr true tt fixed_uuid fixed_now no_save
              no_exn_str alice_request (py "chat-a") alice_session alice_state
              (py "Connection refused")) as [H _].
  - vm_compute. discriminate.
  - reflexivity.
  - discriminate.
  - vm_compute. reflexivity.
  - intros _. reflexivity.
  - reflexivity.
  - intros payload timeout w. exists w. reflexivity.
  - exact H.
Defined.


Lemma one_session_touched_witness :
  sessions_of true
    (snd (chat_route no_ext brave_only_get one_bare_card no_bing
                     no_google plain_text
                     (py "http://localhost:1200/v1/chat/completions")
                     one_model_post no_repr true tt fixed_uuid fixed_now no_save
                     no_exn_str
                     {| rq_chat_id := None; rq_message := py "hello";
                        rq_user_id := Some (py "bob");
                        rq_document_context := None |}
                     alice_state))
    !! py "chat-a"
  = Some alice_session.
Proof.
  destruct (one_session_touched no_ext brave_only_get one_bare_card
              no_bing no_google plain_text
              (py "http://localhost:1200/v1/chat/completions")
              one_model_post hi_loads no_repr true tt fixed_uuid fixed_now no_save
              no_exn_str
              {| rq_chat_id := None; rq_message := py "hello";
                 rq_user_id := Some (py "bob"); rq_document_context := None |}
              alice_state (py "chat-a")) as [H _].
  - vm_compute. discriminate.
  - etransitivity; [exact H|]. vm_compute. reflexivity.
Defined.
